(* ===== verification/_CoqProject ===== *)
-Q . S2P
Prelude.v
Json.v
Serde.v
Deserializer.v
SecretsManager.v
AutoScaling.v
Kinesis.v
Probe.v
Tape.v
Contract.v
Entry.v
Exec.v
Tests.v
