(* ===== verification/Prelude.v ===== *)
(** * A verification development for aws-lambda-rust-runtime's request dispatch and event types

    ** The program

    The sources are four Rust files.  [lambda-http/src/deserializer/
    deserializer_simd_json.rs] implements [Deserialize for LambdaRequest]:
    it takes the [simd_json] tape of the payload, probes it for a handful of
    marker keys ([request_context] with or without [http] or [elb],
    [http_method], [connected_at]) in a fixed order, each probe compiled in
    only under its cargo feature, and decodes the same tape as the first
    matching request type (REST gateway, HTTP gateway, load balancer,
    WebSocket); with no match it returns the pass-through variant or a fixed
    error.  The three files under [lambda-events/src/event/] declare event
    types decoded by serde's derived impls: [SecretsManagerSecretRotationEvent]
    (three renamed strings), [AutoScalingEvent<T1>] (the spec's generic
    envelope: optional metadata, a timestamp, resources and an open-ended
    [detail] map), and the Kinesis events.

    ** The library and how it maps to the code

    - [Prelude] (this file): Rust's [Result] with its bind notation in
      [result_scope], [try_fold]/[collect] (the iterator adaptors the serde
      impls use), the lemmas on them, the [result_inv] tactic, the
      [result_db]/[result_rw] hint databases, [List.filter] under
      reordering, and the map built by repeated
      [HashMap::insert] ([insert_all]) with its relation to [list_to_map].
    - [Json]: the parsed tree [Value.t] (simd_json's [Value]: [Static]
      scalars, [String], [Array], [Object] as the tape's ordered entries) and
      the probe accessors the dispatcher calls: [obj_get] ([Object::get],
      first entry with the key), [get], [get_object], [contains_key]; a
      well-formedness predicate [value_wf] (machine ranges of [i64]/[u64],
      no repeated key).
    - [Serde]: the decoding machinery the derived impls run: simd_json's
      error type [DeError] and its [Display] ([error_to_string]), serde's
      default messages ([missing_field], [duplicate_field],
      [unknown_variant]), the classes [Deserialize]/[Serialize] and the
      round-trip law [Codec] (the interface every event type's theorems are
      proved against), the impls for [String], [Option], [Vec], [HashMap]
      (as stdpp's [gmap string T]) and [Value], [deserialize_lambda_map], and
      the struct visitor of [#[derive(Deserialize)]] ([visit_map] walks the
      entries in order, rejecting a repeated known key and decoding each
      known one at once; [required]/[defaulted] then take each field), and
      [#[serde(flatten)]] ([flat_take]: each flattened struct takes the
      entries it declares out of the buffered map).
    - [Deserializer]: the dispatcher.  [Features] are the cargo features,
      [is_apigw_rest], [is_apigw_http], [is_alb], [is_websocket] the four
      probes (lines 44-45, 51-52, 58-59, 65), [decode_as] the
      [t.deserialize().map_err(Error::custom)?] step and [deserialize] the
      whole function (lines 28-77), over an abstract [Deserialize] instance
      per request type (a [Section] [Context]).  The spec's dispatcher is an
      ordered catalog of descriptors ([Descriptor], [dispatch]); [catalog]
      lists the descriptors a build compiles in, in the code's order.
    - [SecretsManager], [AutoScaling] and [Kinesis]: each struct as a
      [Record], its wire names as a [FieldSpec] list, its derived decoder as
      [deserialize_struct] over a build step, its derived encoder; the
      Kinesis encryption type as an inductive with its wire names.  chrono's
      [DateTime<Utc>] and the [SecondTimestamp]/[Base64Data] encodings are
      abstract types with their own codecs.
    - [Probe]: the probes of lines 43-66 replayed in a cost monad ([Cost],
      [bind_c]) that counts the key comparisons of the tape's
      [Object::get].  [select_c] evaluates what the code evaluates: the
      eager tuple of line 44, [request_context] looked up again in each
      block, and no cost for a block whose feature is not built.
    - [Tape]: simd_json's tape, the node array [into_tape] yields (line
      40): [Node], the layout of a tree ([flatten]), a fuel-indexed reader
      back to the tree ([read_values], [read_entries], [read_value]), and
      the tape's [Object::get] ([tape_obj_get]), which skips a value in one
      step by its header's count, [as_value] (line 41), and the probes of
      lines 43-66 on the tape ([tape_probe_rest], [tape_probe_rc],
      [tape_select]), and the function after the prelude on the tape
      ([lambda_request_tape]).
    - [Contract]: the spec's structural probe (§4.1) as a type class
      ([StructuralProbe]: the node at a key path, the object test; its laws
      in [StructuralProbeLaws]).  It has two instances, the tree and the
      tape, and the spec's fingerprints (§4.2) are written once against it,
      parameterised by the key names.
    - [Entry]: the unsafe prelude of the function (lines 28-41) as a step
      machine over the ownership of the deserializer's buffer ([Step],
      [run_step]: [ptr::read] adds an owner, [mem::forget] removes one
      without dropping, the return drops every live owner).  A read of a
      deserializer that is not simd_json's is undefined behaviour ([None]).
      [lambda_request_deserialize] composes the prelude, [deserialize] on the
      tape and the drops at the return.
    - [Exec]: the whole function (lines 28-77) as a small-step machine.
      Its configuration ([Config]) is the program point ([Pc]: the
      prelude, the [#[cfg]] blocks still to try, the decode, the fallback,
      the return), the buffer's ownership, the tape [t] and the root value
      [v].  [estep] has one rule per construct, with the code's conditions
      as premises, and [exec_step] computes the same step.
    - [Tests]: every [#[test]] function of the four files, over the parsed
      fixture and its text.  [unwrap], [expect], [assert_eq!], [Vec]
      indexing and [panic!] are the panics of a [TestOutcome]; the
      dispatcher tests go through [Entry] as [from_slice] does.

    ** What the theorems show

    The claims about the program (C1-C25):
    - Dispatcher: [deserialize] is the catalog's first-match dispatcher
      (C1).  Each variant is produced exactly when its feature is built,
      its fingerprint holds, no earlier fingerprint holds, and the same
      tree decodes to the carried value (C2-C5).  The unrecognized-shape
      error is a fixed message, whatever the build (C6), and never
      coincides with a decode error (C7).  Payloads spelled with the wire
      names [requestContext] and [connectedAt] are never recognised (C8, a
      finding).  Two builds that agree on the variants a payload can
      match dispatch it alike (C10).
    - Probe contract: the code's REST, HTTP and WebSocket probes, as run
      on the tape, are the spec's fingerprints (§4.2) read through the
      spec's probe interface (§4.1) on that tape (C9).  The load-balancer
      probe only tests that [request_context.elb] exists, which is weaker
      than the spec's object at that path (C16, a finding).
    - Event types: round trips (C11, C14, C20, C22).  A successful decode
      reads each field from its wire name (C12).  A missing required field
      is reported by name (C13).  The envelope's [detail] may be absent or
      [null]: the encoding still decodes, with an empty map (C15).  When
      present, [detail] holds the input's entries (C17).  The envelope's
      encoder emits only well-formed trees (C18).  Further claims cover
      the Kinesis encryption type's wire names (C19) and the Kinesis
      record defaults (C21).  The time-window round trip (C22) goes
      through serde's [flatten]: each flattened struct must take back
      exactly its own entries.
    - Probe cost: the probes cost at most five scans of the top-level
      object and three of [request_context], whatever the rest of the
      payload (C23).  On an unrecognised payload the top-level scan is
      complete, so the cost grows with the object's width, not with the
      depth of the probed path as the spec asks (C24, a finding).
    - Execution: in the small-step machine of the whole function, every
      reachable state owns the buffer as the code intends.  That is one
      owner, two between [ptr::read] and [forget], and none after the
      return, whose destructor runs once.  This holds through any
      deserializer and in any build, and is proved by rule induction
      (C25).

    Supporting lemmas, about the model rather than the program:
    - the spec-level tape is a layout of the tree ([tape_roundtrip]), and
      its reader never runs out of fuel ([tape_read_terminates]);
    - the tape-level probes and run agree with the tree-level ones
      ([tape_select_refines], [lambda_request_tape_refines]);
    - the step machine terminates, and agrees with [Entry]'s one-step
      model ([exec_liveness], [exec_refines_entry]);
    - reordering entries does not change a derived decode
      ([deserialize_struct_perm]);
    - the tests' outcomes in terms of [deserialize] ([Tests]).

    ** Bounds and fuel

    Every function but the tape reader is structurally recursive (over the
    tree, the entry list, the string or the list of prelude steps).  The
    tape reader ([Tape.read_values]) recurses on nodes it finds on a flat
    array, so it takes fuel, one unit per call.  [tape_fuel], one more than
    the tape's length, always suffices ([tape_read_terminates]; [Tape.as_value]
    uses it): every call that reads a node
    continues on a strictly shorter suffix.
    The step machine of [Exec] needs no fuel: [exec_measure] (at most 12)
    drops at every step, which gives [sn] (no infinite run) through
    [Prelude.sn_of_measure].
    Integers of the tree are unbounded [Z] with their [i64]/[u64] ranges
    stated by [value_wf].  The cost of [Probe] counts key comparisons only:
    the tape skips a nested value in one step, so comparisons are what
    grows with the payload.

    ** Not modelled, and why

    - Lexing bytes into the tape and printing values (simd_json's
      parser and writer): an external dependency.  [Tape] models the tape
      the parser produces and its relation to the tree; the model starts
      from the tape, and a test's [to_string] followed by [from_slice] is
      [to_value].  The fixture files the tests include live outside the
      sources: a test takes its fixture as a parameter.
    - Memory layout in the unsafe prelude: [Entry] models which reads are
      defined and how often the buffer's destructor runs, not bytes.  It
      takes [D] to be simd_json's deserializer passed by value.
      simd_json implements [serde::Deserializer] for
      [&mut Deserializer].  For that [D], line 37 reads the bytes of a
      reference as a [Deserializer]: a case outside this model, recorded
      as a finding.
    - Line 72 names a variable [data] that is not in scope, so the
      [pass_through] build does not compile (a finding).  The model
      stands a parameter in for it, the payload text; no claim rests on
      what that parameter holds.
    - The four request types of the gateway and load balancer
      ([ApiGatewayProxyRequest], ...) live outside these sources: they are
      abstract types with a [Deserialize] impl, and the tests read their
      fields through accessor parameters.
    - serde's sequence form of a struct (an array of the field values) and
      simd_json's object form of an enum: the model decodes structs from
      objects only.
    - simd_json's typed tape deserializer ([t.deserialize()], lines 46,
      53, 60 and 66) is not modelled node by node.  Its result is modelled
      as [from_value] on the tree [Tape.as_value] reads from the tape.
      [tape_roundtrip] shows that tree is the payload the tape lays out, so
      this is the
      decode the spec describes (§4.3: decode against the single parsed
      tree).
    - The spec's O(depth of path) cost for the probe operations (§4.1) is
      not an assumption of [Contract]: [Probe] measures the code's real
      cost, and C24 shows it is not met. *)

From stdpp Require Import base list gmap strings fin_maps relations.
From Stdlib Require Import String.

(** ** Rust's [Result<T, E>] *)

Inductive Result (T E : Type) : Type :=
| Ok (t : T)
| Err (e : E).
Arguments Ok {T E} t.
Arguments Err {T E} e.

Definition and_then {T U E} (r : Result T E) (f : T -> Result U E) : Result U E :=
  match r with
  | Ok t => f t
  | Err e => Err e
  end.

Definition map_err {T E F} (g : E -> F) (r : Result T E) : Result T F :=
  match r with
  | Ok t => Ok t
  | Err e => Err (g e)
  end.

Definition is_ok {T E} (r : Result T E) : bool :=
  match r with Ok _ => true | Err _ => false end.

(** Rust's [Option::is_some] and [Option::is_none]. *)
Definition is_some {A} (o : option A) : bool :=
  match o with Some _ => true | None => false end.
Definition is_none {A} (o : option A) : bool := negb (is_some o).

Declare Scope result_scope.
Delimit Scope result_scope with result.
Notation "x <- m ;; k" := (and_then m (fun x => k))
  (at level 100, m at next level, right associativity) : result_scope.
Notation "m ?;; k" := (and_then m (fun _ => k))
  (at level 100, right associativity) : result_scope.
Open Scope result_scope.

(** [Iterator::try_fold]: a left fold that stops at the first error. *)
Fixpoint try_fold {A B E} (f : B -> A -> Result B E) (acc : B) (l : list A) : Result B E :=
  match l with
  | [] => Ok acc
  | a :: l' => b <- f acc a ;; try_fold f b l'
  end.

(** [iter().map(f).collect::<Result<Vec<_>, _>>()]. *)
Fixpoint collect {A B E} (f : A -> Result B E) (l : list A) : Result (list B) E :=
  match l with
  | [] => Ok []
  | a :: l' => b <- f a ;; bs <- collect f l' ;; Ok (b :: bs)
  end.

(** ** Lemmas on [Result] *)

Lemma and_then_Ok_l {T U E} (t : T) (f : T -> Result U E) : and_then (Ok t) f = f t.
Proof. reflexivity. Qed.

Lemma and_then_Err_l {T U E} (e : E) (f : T -> Result U E) : and_then (Err e) f = Err e.
Proof. reflexivity. Qed.

Lemma and_then_Ok_inv {T U E} (r : Result T E) (f : T -> Result U E) (u : U) :
  and_then r f = Ok u -> exists t, r = Ok t /\ f t = Ok u.
Proof. destruct r; simpl; [eauto | discriminate]. Qed.

Lemma and_then_Err_inv {T U E} (r : Result T E) (f : T -> Result U E) (e : E) :
  and_then r f = Err e -> r = Err e \/ exists t, r = Ok t /\ f t = Err e.
Proof. destruct r; simpl; [eauto | intros [= ->]; auto]. Qed.

Lemma map_err_Ok {T E F} (g : E -> F) (r : Result T E) (t : T) :
  map_err g r = Ok t <-> r = Ok t.
Proof. destruct r; simpl; split; congruence. Qed.

Lemma collect_map {A B E} (f : A -> Result B E) (g : B -> A) (l : list B) :
  (forall b, f (g b) = Ok b) -> collect f (map g l) = Ok l.
Proof. intros Hfg. induction l as [|b l IH]; simpl; [done|]. by rewrite Hfg, IH. Qed.

Lemma try_fold_map_Ok {A B C E} (f : B -> C -> Result B E) (g : A -> C) (h : B -> A -> B)
    (acc : B) (l : list A) :
  (forall b a, f b (g a) = Ok (h b a)) -> try_fold f acc (map g l) = Ok (foldl h acc l).
Proof. intros Hf. revert acc. induction l as [|a l IH]; intros acc; simpl; [done|]. rewrite Hf; simpl; apply IH. Qed.

Create HintDb result_db discriminated.
Create Rewrite HintDb result_rw.
#[export] Hint Rewrite @and_then_Ok_l @and_then_Err_l : result_rw.
#[export] Hint Resolve collect_map try_fold_map_Ok : result_db.

(** Take a [Result] equation apart: [and_then] successes become equations on
    each step, constructors are injected or discriminated. *)
Ltac result_inv :=
  repeat match goal with
  | H : and_then _ _ = Ok _ |- _ =>
      let t := fresh "t" in let Ht := fresh "Ht" in
      apply and_then_Ok_inv in H as (t & Ht & H)
  | H : Ok _ = Ok _ |- _ => injection H as H
  | H : Err _ = Err _ |- _ => injection H as H
  | H : Ok _ = Err _ |- _ => discriminate H
  | H : Err _ = Ok _ |- _ => discriminate H
  end; subst.

(** Close a decidable proposition about concrete data by evaluation. *)
Ltac decide_by_eval := apply (bool_decide_unpack _); vm_compute; exact I.

(** ** Lists *)

(** [Iterator::filter] commutes with reordering. *)
Lemma filter_Permutation {A} (f : A -> bool) (l1 l2 : list A) :
  l1 ≡ₚ l2 -> List.filter f l1 ≡ₚ List.filter f l2.
Proof.
  induction 1 as [|x l1 l2 _ IH|x y l|l1 l2 l3 _ IH1 _ IH2]; simpl.
  - done.
  - destruct (f x); [by constructor | done].
  - destruct (f x), (f y); [constructor | constructor | constructor | ]; done.
  - by rewrite IH1.
Qed.

Lemma filter_elem_of {A} (f : A -> bool) (l : list A) (x : A) :
  x ∈ List.filter f l <-> x ∈ l /\ f x = true.
Proof. rewrite !list_elem_of_In. apply filter_In. Qed.

(** ** Strings *)

Lemma string_length_app (s1 s2 : string) :
  String.length (s1 ++ s2) = String.length s1 + String.length s2.
Proof. induction s1 as [|c s1 IH]; simpl; [done | by rewrite IH]. Qed.

(** A string ending in [x] differs from any [t] whose character at the
    position where [x]'s [n]-th character would sit is another one. *)
Lemma string_suffix_ne (s x t : string) (n : nat) :
  String.get n x <> String.get (n + (String.length t - String.length x)) t ->
  (s ++ x)%string <> t.
Proof.
  intros Hne <-. apply Hne. rewrite (String.append_correct2 s x n), string_length_app.
  f_equal. lia.
Qed.

(** ** Maps built by successive inserts (Rust's [HashMap::insert] in a loop) *)

Section InsertFold.
Context {K : Type} `{Countable K} {V : Type}.

Definition insert_all (m : gmap K V) (l : list (K * V)) : gmap K V :=
  foldl (fun acc kv => <[kv.1 := kv.2]> acc) m l.

Lemma insert_all_union (m : gmap K V) (l : list (K * V)) :
  insert_all m l = list_to_map (reverse l) ∪ m.
Proof.
  unfold insert_all. revert m. induction l as [|[k v] l IH] using rev_ind; intros m.
  - simpl. by rewrite map_empty_union.
  - rewrite foldl_app, IH, reverse_snoc. simpl. by rewrite insert_union_l.
Qed.

Lemma insert_all_nodup (l : list (K * V)) :
  NoDup l.*1 -> insert_all ∅ l = list_to_map l.
Proof.
  intros Hnd. rewrite insert_all_union, map_union_empty.
  apply list_to_map_proper; [| apply reverse_Permutation].
  by rewrite fmap_reverse, reverse_Permutation.
Qed.
End InsertFold.

(** ** Step relations

    The step machine of [Exec] is deterministic and every step lowers a
    measure; these two facts give its liveness. *)

Section Steps.
Context {A : Type} (R : relation A).

(** A measure every step lowers: no run is infinite. *)
Lemma sn_of_measure (m : A -> nat) :
  (forall x y, R x y -> m y < m x) -> forall x, sn R x.
Proof.
  intros Hdec x. remember (m x) as n eqn:Hn. revert x Hn.
  induction (lt_wf n) as [n _ IH]. intros x ->.
  constructor. intros y Hy. by apply (IH (m y)); [apply Hdec|].
Qed.

Context (Hdet : forall x y z, R x y -> R x z -> y = z).

(** In a deterministic system every state on the way from [x] to a normal
    form [z] still reaches [z]. *)
Lemma det_rtc_nf x y z : rtc R x y -> rtc R x z -> nf R z -> rtc R y z.
Proof.
  intros Hy. revert z. induction Hy as [x|x x' y Hx _ IH]; intros z Hz Hnf; [done|].
  apply rtc_inv in Hz as [<-|(x'' & Hx'' & Hz)].
  - exfalso. apply Hnf. by exists x'.
  - apply IH; [|done]. by rewrite (Hdet _ _ _ Hx Hx'').
Qed.
End Steps.
