(* ===== verification/Json.v ===== *)
(** * Json: the parsed JSON tree ([simd_json]'s tape value) and the structural probe

    The dispatcher of [deserializer_simd_json.rs] turns its deserializer into a
    [simd_json] tape ([d.into_tape()], line 40) and reads it through
    [t.as_value()] (line 41).  This file models that tree as [Value.t] and the
    three read-only accessors the dispatcher calls on it: [get], [get_object]
    and [contains_key] (simd_json's [ValueAccess]/[ValueObjectAccess] traits).
    Objects are kept as the ordered list of entries of the tape; a lookup scans
    the entries and returns the first one with the key, as the tape's object
    accessor does. *)

From stdpp Require Import base list gmap strings fin_maps.
From Stdlib Require Import String ZArith SpecFloat.
From S2P Require Import Prelude.

(** simd_json's [StaticNode]: the scalar leaves of the tree. *)
Inductive StaticNode : Type :=
| I64 (i : Z)
| U64 (u : Z)
| F64 (f : spec_float)
| Bool (b : bool)
| Null.

Module Value.
Unset Elimination Schemes.
(** simd_json's [Value]: a scalar, a string, an array or an object. *)
Inductive t : Type :=
| Static (n : StaticNode)
| String (s : string)
| Array (a : list t)
| Object (o : list (string * t)).
Set Elimination Schemes.

(** Induction over the nested lists of arrays and objects. *)
Definition t_ind (P : t -> Prop)
    (fstatic : forall n, P (Static n))
    (fstring : forall s, P (String s))
    (farray : forall a, Forall P a -> P (Array a))
    (fobject : forall o, Forall (fun kv => P kv.2) o -> P (Object o)) :
    forall v, P v :=
  fix F (v : t) : P v :=
    match v with
    | Static n => fstatic n
    | String s => fstring s
    | Array a =>
        farray a ((fix G (l : list t) : Forall P l :=
                     match l with
                     | [] => Forall_nil_2 _
                     | x :: l' => Forall_cons_2 _ x l' (F x) (G l')
                     end) a)
    | Object o =>
        fobject o ((fix G (l : list (string * t)) : Forall (fun kv => P kv.2) l :=
                      match l with
                      | [] => Forall_nil_2 _
                      | kv :: l' => Forall_cons_2 _ kv l' (F kv.2) (G l')
                      end) o)
    end.
End Value.

Abbreviation Null_v := (Value.Static Null).

(** ** The probe: read-only accessors of the tree *)

(** [Object::get]: the first entry with key [k]. *)
Fixpoint obj_get (k : string) (o : list (string * Value.t)) : option Value.t :=
  match o with
  | [] => None
  | (k', v) :: o' => if String.eqb k' k then Some v else obj_get k o'
  end.

(** [ValueAccess::get]: [None] on anything that is not an object. *)
Definition get (k : string) (v : Value.t) : option Value.t :=
  match v with
  | Value.Object o => obj_get k o
  | _ => None
  end.

(** [ValueAsContainer::as_object]. *)
Definition as_object (v : Value.t) : option (list (string * Value.t)) :=
  match v with
  | Value.Object o => Some o
  | _ => None
  end.

(** [ValueObjectAccess::get_object]: [self.get(k).and_then(as_object)]. *)
Definition get_object (k : string) (v : Value.t) : option (list (string * Value.t)) :=
  match get k v with
  | Some w => as_object w
  | None => None
  end.

(** [ValueObjectAccess::contains_key]: [self.get(k).is_some()]. *)
Definition contains_key (k : string) (v : Value.t) : bool :=
  match get k v with
  | Some _ => true
  | None => false
  end.

(** ** Well-formedness of a tree produced by the parser

    Integers sit in their machine range ([i64], [u64]) and no object repeats a
    key.  Only the round-trip and map theorems need the second half. *)

Definition i64_min : Z := - 2 ^ 63.
Definition i64_max : Z := 2 ^ 63 - 1.
Definition u64_max : Z := 2 ^ 64 - 1.

Definition static_wf (n : StaticNode) : bool :=
  match n with
  | I64 i => (i64_min <=? i)%Z && (i <=? i64_max)%Z
  | U64 u => (0 <=? u)%Z && (u <=? u64_max)%Z
  | _ => true
  end.

Fixpoint value_wf (v : Value.t) : bool :=
  match v with
  | Value.Static n => static_wf n
  | Value.String _ => true
  | Value.Array a => forallb value_wf a
  | Value.Object o =>
      bool_decide (NoDup o.*1) && forallb (fun kv => value_wf kv.2) o
  end.

(** ** Lemmas of the probe *)

Lemma obj_get_Some k o v : obj_get k o = Some v -> (k, v) ∈ o.
Proof.
  induction o as [|[k' w] o IH]; simpl; [done|].
  destruct (String.eqb_spec k' k) as [->|]; [intros [= ->]; left|].
  intros H. right. by apply IH.
Qed.

Lemma obj_get_None k o : obj_get k o = None <-> k ∉ o.*1.
Proof.
  induction o as [|[k' w] o IH]; simpl; [set_solver|].
  destruct (String.eqb_spec k' k) as [->|Hne]; [split; [done|set_solver]|].
  rewrite IH. set_solver.
Qed.

(** On an object without repeated keys, the first-match lookup of the tape
    agrees with the lookup in the map the entries denote. *)
Lemma obj_get_list_to_map k o :
  NoDup o.*1 -> obj_get k o = (list_to_map o : gmap string Value.t) !! k.
Proof.
  intros Hnd. destruct (obj_get k o) as [v|] eqn:E.
  - symmetry. apply elem_of_list_to_map_1; [done|]. by apply obj_get_Some.
  - symmetry. apply not_elem_of_list_to_map_1. by apply obj_get_None.
Qed.

(** A key holds one value in [o]: each entry with the key carries it. *)
Definition key_functional (k : string) (o : list (string * Value.t)) : Prop :=
  forall v1 v2, (k, v1) ∈ o -> (k, v2) ∈ o -> v1 = v2.

Lemma obj_get_functional k o v :
  key_functional k o -> obj_get k o = Some v <-> (k, v) ∈ o.
Proof.
  intros Hf. split; [apply obj_get_Some|]. intros Hin.
  destruct (obj_get k o) as [w|] eqn:E.
  - f_equal. apply Hf; [by apply obj_get_Some | done].
  - apply obj_get_None in E. destruct E. apply list_elem_of_fmap. by exists (k, v).
Qed.

(** Reordering the entries of an object leaves the lookup of a key with one
    value unchanged: the tape's first match is then the map's lookup. *)
Lemma obj_get_perm k o1 o2 :
  o1 ≡ₚ o2 -> key_functional k o1 -> obj_get k o1 = obj_get k o2.
Proof.
  intros Hp Hf.
  assert (Hf2 : key_functional k o2) by (intros v1 v2; rewrite <- !Hp; apply Hf).
  destruct (obj_get k o1) as [v|] eqn:E.
  - symmetry. apply obj_get_functional; [done|]. rewrite <- Hp. by apply obj_get_Some.
  - symmetry. apply obj_get_None in E. apply obj_get_None. by rewrite <- Hp.
Qed.

Lemma contains_key_get k v : contains_key k v = true <-> is_Some (get k v).
Proof. unfold contains_key. destruct (get k v); split; intros H; by inversion H. Qed.

Lemma get_object_Some k v o :
  get_object k v = Some o <-> get k v = Some (Value.Object o).
Proof.
  unfold get_object. destruct (get k v) as [[]|]; simpl; split; congruence.
Qed.

Create HintDb probe_db discriminated.
#[export] Hint Resolve obj_get_Some : probe_db.
