(* ===== verification/Serde.v ===== *)
(** * Serde: decoding a JSON tree into typed values and encoding it back

    The event types of [aws_lambda_events] and the request variants of the
    dispatcher are decoded by serde's derived [Deserialize] impls running over
    a [simd_json] tree, and encoded by the derived [Serialize] impls.  This file
    models that machinery: the error type of [simd_json] ([DeError]), the
    [Deserialize]/[Serialize] classes with the round-trip law [Codec], the
    impls of the standard types ([String], [Option], [Vec], [HashMap], the
    untyped [Value]), the struct visitor that [#[derive(Deserialize)]]
    generates, and [custom_serde::deserialize_lambda_map]. *)

From stdpp Require Import base list gmap strings fin_maps.
From Stdlib Require Import String Ascii.
From S2P Require Import Prelude Json.

(** ** Errors *)

(** [simd_json::ErrorType], restricted to the kinds a decode of a parsed tree
    can raise; [Serde] carries the message of [serde::de::Error::custom]. *)
Inductive DeError : Type :=
| Serde (msg : string)
| ExpectedString
| ExpectedMap
| ExpectedArray
| ExpectedEnum.

Definition backtick : string := String (ascii_of_nat 96) EmptyString.
Definition dquote : string := String (ascii_of_nat 34) EmptyString.
Definition ticked (s : string) : string := (backtick ++ s ++ backtick)%string.

(** [serde::de::Error::custom]: [Error::generic(ErrorType::Serde(msg.to_string()))]. *)
Definition custom (msg : string) : DeError := Serde msg.

(** serde's default [Error::missing_field] and [Error::duplicate_field]. *)
Definition missing_field (f : string) : DeError :=
  custom ("missing field " ++ ticked f)%string.
Definition duplicate_field (f : string) : DeError :=
  custom ("duplicate field " ++ ticked f)%string.

(** serde's [OneOf] rendering of the expected variants. *)
Fixpoint join_ticked (l : list string) : string :=
  match l with
  | [] => EmptyString
  | [a] => ticked a
  | a :: l' => (ticked a ++ ", " ++ join_ticked l')%string
  end.

Definition one_of (names : list string) : string :=
  match names with
  | [] => "there are no variants"
  | [a] => ("expected " ++ ticked a)%string
  | [a; b] => ("expected " ++ ticked a ++ " or " ++ ticked b)%string
  | _ => ("expected one of " ++ join_ticked names)%string
  end.

(** serde's default [Error::unknown_variant]. *)
Definition unknown_variant (v : string) (names : list string) : DeError :=
  custom ("unknown variant " ++ ticked v ++ ", " ++ one_of names)%string.

(** [str::escape_debug] on the two characters a message can need escaped. *)
Fixpoint escape_debug (s : string) : string :=
  match s with
  | EmptyString => EmptyString
  | String c s' =>
      if Ascii.eqb c (ascii_of_nat 34) || Ascii.eqb c (ascii_of_nat 92)
      then String (ascii_of_nat 92) (String c (escape_debug s'))
      else String c (escape_debug s')
  end.

(** [impl Display for simd_json::Error]: ["{:?} at character {}"], the
    position of a generic error being 0. *)
Definition error_to_string (e : DeError) : string :=
  let dbg := match e with
             | Serde m => ("Serde(" ++ dquote ++ escape_debug m ++ dquote ++ ")")%string
             | ExpectedString => "ExpectedString"
             | ExpectedMap => "ExpectedMap"
             | ExpectedArray => "ExpectedArray"
             | ExpectedEnum => "ExpectedEnum"
             end in
  (dbg ++ " at character 0")%string.

(** ** The classes *)

Class Deserialize (T : Type) := { from_value : Value.t -> Result T DeError }.
Class Serialize (T : Type) := { to_value : T -> Value.t }.
Arguments from_value T {_} v.
Arguments to_value {T _} x.

(** The round-trip law the event tests check: decoding an encoding gives the
    value back. *)
Class Codec (T : Type) `{Serialize T} `{Deserialize T} := {
  codec_roundtrip : forall x : T, from_value T (to_value x) = Ok x
}.

(** Encodings that never produce [null]; [Option<T>] round-trips only for these. *)
Class NonNull (T : Type) `{Serialize T} := {
  non_null : forall x : T, to_value x <> Null_v
}.

(** ** Impls of the standard types *)

#[export] Instance deserialize_string : Deserialize string := {|
  from_value v := match v with Value.String s => Ok s | _ => Err ExpectedString end |}.
#[export] Instance serialize_string : Serialize string := {| to_value s := Value.String s |}.

(** The untyped value ([aws_lambda_json_impl::Value]) decodes to itself. *)
#[export] Instance deserialize_value : Deserialize Value.t := {| from_value v := Ok v |}.
#[export] Instance serialize_value : Serialize Value.t := {| to_value v := v |}.

#[export] Instance deserialize_option `{Deserialize T} : Deserialize (option T) := {|
  from_value v := match v with
                  | Value.Static Null => Ok None
                  | _ => x <- from_value T v ;; Ok (Some x)
                  end |}.
#[export] Instance serialize_option `{Serialize T} : Serialize (option T) := {|
  to_value o := match o with Some x => to_value x | None => Null_v end |}.

#[export] Instance deserialize_vec `{Deserialize T} : Deserialize (list T) := {|
  from_value v := match v with
                  | Value.Array a => collect (from_value T) a
                  | _ => Err ExpectedArray
                  end |}.
#[export] Instance serialize_vec `{Serialize T} : Serialize (list T) := {|
  to_value l := Value.Array (map to_value l) |}.

(** [HashMap<String, T>]: each entry is decoded and inserted in order, so a
    repeated key keeps its last value. *)
Definition hashmap_entry `{Deserialize T} (m : gmap string T) (kv : string * Value.t)
    : Result (gmap string T) DeError :=
  x <- from_value T kv.2 ;; Ok (<[kv.1 := x]> m).

#[export] Instance deserialize_hashmap `{Deserialize T} : Deserialize (gmap string T) := {|
  from_value v := match v with
                  | Value.Object o => try_fold hashmap_entry ∅ o
                  | _ => Err ExpectedMap
                  end |}.
#[export] Instance serialize_hashmap `{Serialize T} : Serialize (gmap string T) := {|
  to_value m := Value.Object (map (fun kv => (kv.1, to_value kv.2)) (map_to_list m)) |}.

(** [custom_serde::deserialize_lambda_map]: [Option<HashMap>] then
    [unwrap_or_default], so [null] gives the empty map. *)
Definition deserialize_lambda_map `{Deserialize T} (v : Value.t)
    : Result (gmap string T) DeError :=
  o <- from_value (option (gmap string T)) v ;;
  Ok (match o with Some m => m | None => ∅ end).

(** ** The struct visitor generated by [#[derive(Deserialize)]]

    [visit_map] walks the entries in order: an unknown key is skipped, a
    known key seen before is a [duplicate_field] error, and a known key is
    decoded at once with its field's type.  After the walk each field is
    taken from its entry, or, when the key never occurred, from its default
    ([#[serde(default)]], or [None] for an [Option]) or a [missing_field]
    error, in declaration order. *)

Record FieldSpec : Type := {
  fs_name : string;
  fs_check : Value.t -> Result unit DeError
}.

Definition field_spec {T} (name : string) (dec : Value.t -> Result T DeError) : FieldSpec :=
  {| fs_name := name; fs_check v := dec v ?;; Ok tt |}.

Fixpoint find_field (k : string) (fs : list FieldSpec) : option FieldSpec :=
  match fs with
  | [] => None
  | f :: fs' => if String.eqb (fs_name f) k then Some f else find_field k fs'
  end.

Definition visit_entry (fs : list FieldSpec) (seen : list string) (kv : string * Value.t)
    : Result (list string) DeError :=
  match find_field kv.1 fs with
  | None => Ok seen
  | Some f =>
      if existsb (String.eqb kv.1) seen then Err (duplicate_field kv.1)
      else fs_check f kv.2 ?;; Ok (kv.1 :: seen)
  end.

Definition visit_map (fs : list FieldSpec) (o : list (string * Value.t))
    : Result (list string) DeError :=
  try_fold (visit_entry fs) [] o.

(** A field without default: [missing_field] when absent. *)
Definition required {T} (name : string) (dec : Value.t -> Result T DeError)
    (o : list (string * Value.t)) : Result T DeError :=
  match obj_get name o with
  | Some v => dec v
  | None => Err (missing_field name)
  end.

(** A field with a default ([#[serde(default)]], or an [Option]). *)
Definition defaulted {T} (name : string) (dflt : T) (dec : Value.t -> Result T DeError)
    (o : list (string * Value.t)) : Result T DeError :=
  match obj_get name o with
  | Some v => dec v
  | None => Ok dflt
  end.

(** [deserialize_struct] on a tree: a map is visited, anything else is
    rejected with [ExpectedMap]. *)
Definition deserialize_struct {T} (fs : list FieldSpec)
    (build : list (string * Value.t) -> Result T DeError) (v : Value.t) : Result T DeError :=
  match v with
  | Value.Object o => visit_map fs o ?;; build o
  | _ => Err ExpectedMap
  end.

(** ** Round-trip laws of the standard impls *)

Create HintDb serde_db discriminated.

#[export] Instance codec_string : Codec string.
Proof. constructor. intros s. reflexivity. Qed.

#[export] Instance codec_value : Codec Value.t.
Proof. constructor. intros v. reflexivity. Qed.

#[export] Instance non_null_string : NonNull string.
Proof. constructor. intros s. discriminate. Qed.

#[export] Instance non_null_vec `{Serialize T} : NonNull (list T).
Proof. constructor. intros l. discriminate. Qed.

#[export] Instance non_null_hashmap `{Serialize T} : NonNull (gmap string T).
Proof. constructor. intros m. discriminate. Qed.

#[export] Instance codec_option `{Codec T} `{!NonNull T} : Codec (option T).
Proof.
  constructor. intros [x|]; [|reflexivity]. simpl.
  pose proof (non_null x) as Hn. pose proof (codec_roundtrip x) as Hrt.
  destruct (to_value x) as [[]| | |]; try congruence; simpl; by rewrite Hrt.
Qed.

#[export] Instance codec_vec `{Codec T} : Codec (list T).
Proof. constructor. intros l. simpl. apply collect_map, codec_roundtrip. Qed.

Lemma hashmap_entry_Ok `{Codec T} (m : gmap string T) (kv : string * T) :
  hashmap_entry m (kv.1, to_value kv.2) = Ok (<[kv.1 := kv.2]> m).
Proof. unfold hashmap_entry. simpl. by rewrite codec_roundtrip. Qed.

#[export] Instance codec_hashmap `{Codec T} : Codec (gmap string T).
Proof.
  constructor. intros m. simpl.
  rewrite (try_fold_map_Ok _ _ (fun acc kv => <[kv.1 := kv.2]> acc)); [|apply hashmap_entry_Ok].
  f_equal. change (insert_all ∅ (map_to_list m) = m).
  rewrite insert_all_nodup; [apply list_to_map_to_list | apply NoDup_fst_map_to_list].
Qed.

#[export] Hint Resolve codec_roundtrip : serde_db.

(** ** [deserialize_lambda_map] *)

Lemma lambda_map_null `{Deserialize T} :
  deserialize_lambda_map (T:=T) Null_v = Ok ∅.
Proof. reflexivity. Qed.

(** An object of untyped values becomes the map of its entries when no key
    repeats: each entry is kept with its value unchanged. *)
Lemma lambda_map_object_value (d : list (string * Value.t)) :
  NoDup d.*1 -> deserialize_lambda_map (T:=Value.t) (Value.Object d) = Ok (list_to_map d).
Proof.
  intros Hnd. unfold deserialize_lambda_map. simpl.
  assert (Hid : d = map (fun kv => (kv.1, to_value kv.2)) d).
  { rewrite <- (map_id d) at 1. apply map_ext. by intros []. }
  rewrite Hid, (try_fold_map_Ok _ _ (fun acc kv => <[kv.1 := kv.2]> acc));
    [|intros ? []; reflexivity].
  rewrite <- Hid. simpl. f_equal. by apply insert_all_nodup.
Qed.

(** ** The struct visitor *)

Lemma field_spec_check {T} (name : string) (dec : Value.t -> Result T DeError) v :
  fs_check (field_spec name dec) v = Ok tt <-> exists x, dec v = Ok x.
Proof. simpl. destruct (dec v); simpl; split; [eauto|done|done|intros [? [=]]]. Qed.

Lemma field_spec_Ok {T} (name : string) (dec : Value.t -> Result T DeError) v x :
  dec v = Ok x -> fs_check (field_spec name dec) v = Ok tt.
Proof. simpl. by intros ->. Qed.

Lemma existsb_eqb_false (k : string) (seen : list string) :
  existsb (String.eqb k) seen = false <-> k ∉ seen.
Proof.
  induction seen as [|s seen IH]; simpl; [set_solver|].
  rewrite orb_false_iff, IH, elem_of_cons.
  destruct (String.eqb_spec k s); naive_solver.
Qed.

Lemma visit_entry_fresh (fs : list FieldSpec) seen k v :
  k ∉ seen -> (forall f, find_field k fs = Some f -> fs_check f v = Ok tt) ->
  visit_entry fs seen (k, v) = Ok (if find_field k fs is Some _ then k :: seen else seen).
Proof.
  intros Hk Hchk. unfold visit_entry. simpl.
  destruct (find_field k fs) as [f|]; [|done].
  apply existsb_eqb_false in Hk. rewrite Hk, Hchk; done.
Qed.

(** The visitor accepts an object whose keys do not repeat and whose known
    fields all decode. *)
Lemma visit_map_Ok (fs : list FieldSpec) (o : list (string * Value.t)) :
  NoDup o.*1 ->
  (forall k v f, (k, v) ∈ o -> find_field k fs = Some f -> fs_check f v = Ok tt) ->
  exists seen, visit_map fs o = Ok seen.
Proof.
  intros Hnd Hchk. unfold visit_map.
  cut (forall seen, (forall k, k ∈ o.*1 -> k ∉ seen) ->
                    exists s', try_fold (visit_entry fs) seen o = Ok s');
    [intros Hgen; apply Hgen; set_solver|].
  induction o as [|[k v] o IH]; intros seen Hfresh; simpl; [eauto|].
  simpl in Hnd. apply NoDup_cons in Hnd as [Hk Hnd].
  rewrite visit_entry_fresh;
    [| apply Hfresh; left | intros f Hf; apply (Hchk k v f); [left | done]].
  simpl. apply IH; [done | intros k' v' f Hin; apply Hchk; by right |].
  intros k' Hk'. assert (k' ≠ k) by (intros ->; contradiction).
  assert (k' ∉ seen) by (apply Hfresh; by right).
  destruct (find_field k fs); [set_solver | done].
Qed.

(** A struct decoder applied to an object the visitor accepts is its
    [build] step. *)
Lemma deserialize_struct_Object {T} fs (build : list (string * Value.t) -> Result T DeError) o :
  NoDup o.*1 ->
  (forall k v f, (k, v) ∈ o -> find_field k fs = Some f -> fs_check f v = Ok tt) ->
  deserialize_struct fs build (Value.Object o) = build o.
Proof. intros Hnd Hchk. destruct (visit_map_Ok fs o Hnd Hchk) as [seen Hs]. simpl. by rewrite Hs. Qed.

(** The keys of [o] the struct declares, in order. *)
Definition known_keys (fs : list FieldSpec) (o : list (string * Value.t)) : list string :=
  List.filter (fun k => is_some (find_field k fs)) o.*1.

(** A successful walk checked every known entry and met no known key twice. *)
Lemma visit_fold_Ok (fs : list FieldSpec) (o : list (string * Value.t)) seen seen' :
  try_fold (visit_entry fs) seen o = Ok seen' -> NoDup seen ->
  seen' = reverse (known_keys fs o) ++ seen /\ NoDup seen' /\
  (forall k v f, (k, v) ∈ o -> find_field k fs = Some f -> fs_check f v = Ok tt).
Proof.
  revert seen. induction o as [|[k v] o IH]; intros seen Hfold Hnd; simpl in Hfold.
  { injection Hfold as <-. split_and!; [done | done | intros ??? Hin; by apply elem_of_nil in Hin]. }
  apply and_then_Ok_inv in Hfold as (seen1 & Hstep & Hfold).
  unfold visit_entry in Hstep. simpl in Hstep. unfold known_keys. simpl.
  destruct (find_field k fs) as [f|] eqn:Hf; simpl.
  - destruct (existsb (String.eqb k) seen) eqn:Hdup; [discriminate|].
    apply existsb_eqb_false in Hdup.
    destruct (fs_check f v) as [[]|] eqn:Hc; simpl in Hstep; [|discriminate].
    injection Hstep as <-.
    destruct (IH (k :: seen) Hfold) as (-> & Hnd' & Hchk); [by constructor|].
    rewrite reverse_cons, <- app_assoc. split_and!; [done | done |].
    intros k' v' f' [[= -> ->]|Hin]%elem_of_cons Hf'; [congruence | eauto].
  - injection Hstep as <-.
    destruct (IH seen Hfold Hnd) as (-> & Hnd' & Hchk).
    split_and!; [done | done |].
    intros k' v' f' [[= -> ->]|Hin]%elem_of_cons Hf'; [congruence | eauto].
Qed.

Lemma visit_map_checked (fs : list FieldSpec) (o : list (string * Value.t)) seen :
  visit_map fs o = Ok seen ->
  forall k v f, (k, v) ∈ o -> find_field k fs = Some f -> fs_check f v = Ok tt.
Proof. intros H. apply (visit_fold_Ok fs o [] seen H). constructor. Qed.

Lemma visit_map_known_nodup (fs : list FieldSpec) (o : list (string * Value.t)) seen :
  visit_map fs o = Ok seen -> NoDup (known_keys fs o).
Proof.
  intros H. destruct (visit_fold_Ok fs o [] seen H) as (-> & Hnd & _); [constructor|].
  rewrite app_nil_r in Hnd. by rewrite <- reverse_Permutation.
Qed.

Lemma known_keys_elem_of (fs : list FieldSpec) (o : list (string * Value.t)) k v :
  (k, v) ∈ o -> is_some (find_field k fs) = true -> k ∈ known_keys fs o.
Proof.
  intros Hin Hk. apply filter_elem_of. split; [|done].
  apply list_elem_of_fmap. by exists (k, v).
Qed.

Lemma known_keys_perm (fs : list FieldSpec) (o1 o2 : list (string * Value.t)) :
  o1 ≡ₚ o2 -> known_keys fs o1 ≡ₚ known_keys fs o2.
Proof. intros Hp. unfold known_keys. by apply filter_Permutation, fmap_Permutation. Qed.

Lemma find_field_name (fs : list FieldSpec) k :
  k ∈ fs_name <$> fs -> is_some (find_field k fs) = true.
Proof.
  induction fs as [|f fs IH]; simpl; [set_solver|].
  rewrite elem_of_cons. destruct (String.eqb_spec (fs_name f) k); [done|].
  intros [->|Hk]; [done | auto].
Qed.

(** The visitor's acceptance only asks that known keys do not repeat;
    unknown keys may. *)
Lemma visit_map_Ok_known (fs : list FieldSpec) (o : list (string * Value.t)) :
  NoDup (known_keys fs o) ->
  (forall k v f, (k, v) ∈ o -> find_field k fs = Some f -> fs_check f v = Ok tt) ->
  exists seen, visit_map fs o = Ok seen.
Proof.
  intros Hnd Hchk. unfold visit_map.
  cut (forall seen, (forall k, k ∈ known_keys fs o -> k ∉ seen) ->
                    exists s', try_fold (visit_entry fs) seen o = Ok s');
    [intros Hgen; apply Hgen; set_solver|].
  induction o as [|[k v] o IH]; intros seen Hfresh; simpl; [eauto|].
  unfold known_keys in Hnd, Hfresh. unfold visit_entry. simpl in *.
  destruct (find_field k fs) as [f|] eqn:Hf; simpl in *.
  - apply NoDup_cons in Hnd as [Hk Hnd].
    rewrite (proj2 (existsb_eqb_false k seen)) by (apply Hfresh; left).
    rewrite (Hchk k v f); [simpl | left | done].
    apply IH; [done | intros k' v' f' Hin; apply Hchk; by right |].
    intros k' Hk'. rewrite not_elem_of_cons. split; [by intros -> | apply Hfresh; by right].
  - apply IH; [done | intros k' v' f' Hin; apply Hchk; by right | done].
Qed.

(** On an accepted object a declared key holds one value. *)
Lemma known_key_functional (fs : list FieldSpec) (o : list (string * Value.t)) k :
  NoDup (known_keys fs o) -> is_some (find_field k fs) = true -> key_functional k o.
Proof.
  intros Hnd Hk. induction o as [|[k' w] o IH]; intros v1 v2 H1 H2;
    [by apply elem_of_nil in H1|].
  unfold known_keys in Hnd. simpl in Hnd.
  assert (Hnd' : NoDup (known_keys fs o)).
  { destruct (is_some (find_field k' fs)); [by apply NoDup_cons in Hnd as [_ ?] | done]. }
  apply elem_of_cons in H1, H2.
  destruct (String.eqb_spec k' k) as [<-|Hne].
  - rewrite Hk in Hnd. apply NoDup_cons in Hnd as [Hnot _].
    destruct H1 as [[= ->]|H1]; [|destruct Hnot; by eapply known_keys_elem_of].
    destruct H2 as [[= ->]|H2]; [done | destruct Hnot; by eapply known_keys_elem_of].
  - destruct H1 as [[= ->]|H1]; [done|]. destruct H2 as [[= ->]|H2]; [done|].
    by apply (IH Hnd').
Qed.

(** On an accepted object, a field the struct declares decodes from the
    first entry with its key. *)
Lemma visit_map_field_Ok {T} (fs : list FieldSpec) o seen name (dec : Value.t -> Result T DeError) v :
  visit_map fs o = Ok seen -> find_field name fs = Some (field_spec name dec) ->
  obj_get name o = Some v -> exists x, dec v = Ok x.
Proof.
  intros Hv Hf Hg. apply (field_spec_check name dec).
  eapply (visit_map_checked fs o seen Hv); [by apply obj_get_Some | done].
Qed.

Lemma visit_defaulted_Ok {T} (fs : list FieldSpec) o seen name (dflt : T)
    (dec : Value.t -> Result T DeError) :
  visit_map fs o = Ok seen -> find_field name fs = Some (field_spec name dec) ->
  exists x, defaulted name dflt dec o = Ok x.
Proof.
  intros Hv Hf. unfold defaulted. destruct (obj_get name o) eqn:Hg; [|eauto].
  by eapply visit_map_field_Ok.
Qed.

(** Evaluate, on an accepted object, every defaulted field of a build step. *)
Ltac visit_defaulted Hv :=
  repeat match goal with
  | |- context [defaulted ?n ?d ?dec ?o] =>
      let x := fresh "x" in
      destruct (visit_defaulted_Ok _ o _ n d dec Hv eq_refl) as [x ->]; cbn [and_then]
  end.

Lemma deserialize_struct_Ok_inv {T} fs (build : list (string * Value.t) -> Result T DeError) v x :
  deserialize_struct fs build v = Ok x ->
  exists o seen, v = Value.Object o /\ visit_map fs o = Ok seen /\ build o = Ok x.
Proof.
  destruct v as [| | |o]; simpl; try discriminate.
  intros H. apply and_then_Ok_inv in H as (seen & ? & ?). eauto.
Qed.

Lemma required_Ok_inv {T} name (dec : Value.t -> Result T DeError) o x :
  required name dec o = Ok x -> exists v, obj_get name o = Some v /\ dec v = Ok x.
Proof. unfold required. destruct (obj_get name o); [eauto | discriminate]. Qed.

Lemma defaulted_Ok_inv {T} name (dflt : T) (dec : Value.t -> Result T DeError) o x :
  defaulted name dflt dec o = Ok x ->
  (obj_get name o = None /\ x = dflt) \/ exists v, obj_get name o = Some v /\ dec v = Ok x.
Proof. unfold defaulted. destruct (obj_get name o); [eauto | intros [= ->]; auto]. Qed.

Lemma required_Some {T} name (dec : Value.t -> Result T DeError) o v :
  obj_get name o = Some v -> required name dec o = dec v.
Proof. unfold required. by intros ->. Qed.

Lemma defaulted_Some {T} name (dflt : T) (dec : Value.t -> Result T DeError) o v :
  obj_get name o = Some v -> defaulted name dflt dec o = dec v.
Proof. unfold defaulted. by intros ->. Qed.

(** *** Order of entries

    The spec reads an object as a mapping whose entry order is irrelevant.
    Two entry lists agree on [ks] when the first-match lookup of each key of
    [ks] is the same in both; a build step reads the entries only through
    [required] and [defaulted], so it respects that agreement on its
    declared keys. *)

Definition fields_agree (ks : list string) (o1 o2 : list (string * Value.t)) : Prop :=
  forall k, k ∈ ks -> obj_get k o1 = obj_get k o2.

#[export] Instance fields_agree_equiv ks : Equivalence (fields_agree ks).
Proof.
  split; [done | intros o1 o2 H k Hk; by rewrite H |].
  intros o1 o2 o3 H12 H23 k Hk. by rewrite H12, H23.
Qed.

Lemma TCElemOf_elem_of {A} (x : A) (l : list A) : TCElemOf x l -> x ∈ l.
Proof. induction 1; [left | by right]. Qed.

#[export] Instance required_proper {T} ks name (dec : Value.t -> Result T DeError) :
  TCElemOf name ks -> Proper (fields_agree ks ==> eq) (required name dec).
Proof. intros Hk%TCElemOf_elem_of o1 o2 H. unfold required. by rewrite H. Qed.

#[export] Instance defaulted_proper {T} ks name (dflt : T) (dec : Value.t -> Result T DeError) :
  TCElemOf name ks -> Proper (fields_agree ks ==> eq) (defaulted name dflt dec).
Proof. intros Hk%TCElemOf_elem_of o1 o2 H. unfold defaulted. by rewrite H. Qed.

(** Close [Proper (fields_agree ks ==> eq) build]: rewrite each field read
    with the agreement, the key's membership found by instance search. *)
Ltac build_proper :=
  let o1 := fresh "o1" in let o2 := fresh "o2" in let Hag := fresh "Hag" in
  intros o1 o2 Hag; cbn [fmap list_fmap fs_name field_spec] in Hag;
  repeat match goal with
  | |- context [required ?n ?dec o1] => rewrite (required_proper _ n dec _ o1 o2 Hag)
  | |- context [defaulted ?n ?d ?dec o1] => rewrite (defaulted_proper _ n d dec _ o1 o2 Hag)
  end; reflexivity.

(** A successful struct decode does not depend on the order of the
    object's entries: a reordering is accepted and builds the same value. *)
Lemma deserialize_struct_perm {T} fs (build : list (string * Value.t) -> Result T DeError) o1 o2 x :
  Proper (fields_agree (fs_name <$> fs) ==> eq) build ->
  o1 ≡ₚ o2 ->
  deserialize_struct fs build (Value.Object o1) = Ok x ->
  deserialize_struct fs build (Value.Object o2) = Ok x.
Proof.
  intros Hbuild Hp Hd. apply deserialize_struct_Ok_inv in Hd as (o & seen & [= <-] & Hv & Hb).
  pose proof (visit_map_known_nodup fs o1 seen Hv) as Hnd.
  destruct (visit_map_Ok_known fs o2) as [seen2 Hv2].
  - by rewrite <- (known_keys_perm fs o1 o2 Hp).
  - intros k v f Hin. rewrite <- Hp in Hin. by apply (visit_map_checked fs o1 seen Hv).
  - simpl. rewrite Hv2. simpl. rewrite <- Hb. symmetry. apply Hbuild.
    intros k Hk. apply obj_get_perm; [done|].
    apply (known_key_functional fs); [done | by apply find_field_name].
Qed.

Lemma from_value_string_inv v s : from_value string v = Ok s -> v = Value.String s.
Proof. destruct v; simpl; congruence. Qed.

#[export] Hint Resolve required_Ok_inv defaulted_Ok_inv from_value_string_inv : serde_db.

Lemma lambda_map_roundtrip `{Codec T} (m : gmap string T) :
  deserialize_lambda_map (to_value m) = Ok m.
Proof.
  assert (Hs : from_value (option (gmap string T)) (to_value m) = Ok (Some m))
    by exact (codec_roundtrip (Some m)).
  unfold deserialize_lambda_map. by rewrite Hs.
Qed.

(** An encoded struct lists its fields in declaration order, each under its
    own name; every field check then applies to its own entry. *)
Lemma fields_checked (fs : list FieldSpec) (o : list (string * Value.t)) :
  o.*1 = map fs_name fs -> NoDup (map fs_name fs) ->
  Forall2 (fun kv f => fs_check f kv.2 = Ok tt) o fs ->
  forall k v f, (k, v) ∈ o -> find_field k fs = Some f -> fs_check f v = Ok tt.
Proof.
  intros Hk Hnd Hall. induction Hall as [|[k0 v0] f0 o fs Hc Hall IH]; intros k v f Hin Hf.
  { by apply elem_of_nil in Hin. }
  simpl in Hk, Hnd. injection Hk as Hk0 Hk. apply NoDup_cons in Hnd as [Hn0 Hnd].
  simpl in Hf. apply elem_of_cons in Hin as [[= -> ->]|Hin].
  - rewrite Hk0, String.eqb_refl in Hf. by injection Hf as <-.
  - destruct (String.eqb_spec (fs_name f0) k) as [<-|Hne]; [|by eapply IH].
    exfalso. apply Hn0. rewrite <- Hk. apply list_elem_of_In, in_map_iff. exists (fs_name f0, v).
    split; [done | by apply list_elem_of_In].
Qed.

Lemma deserialize_struct_encoded {T} fs (build : list (string * Value.t) -> Result T DeError) o :
  o.*1 = map fs_name fs -> NoDup (map fs_name fs) ->
  Forall2 (fun kv f => fs_check f kv.2 = Ok tt) o fs ->
  deserialize_struct fs build (Value.Object o) = build o.
Proof.
  intros Hk Hnd Hall. apply deserialize_struct_Object; [by rewrite Hk | by apply fields_checked].
Qed.

(** Discharge the visitor's side conditions for an encoded struct whose
    fields round-trip. *)
Ltac struct_encoded :=
  rewrite deserialize_struct_encoded;
  [ | reflexivity | decide_by_eval
    | repeat (constructor 2;
              [eapply field_spec_Ok; first [apply codec_roundtrip | apply lambda_map_roundtrip] |]);
      constructor 1 ].

(** Read every field of an encoded struct back from its entry. *)
Ltac struct_fields :=
  repeat first [ erewrite required_Some by reflexivity | erewrite defaulted_Some by reflexivity ];
  rewrite ?lambda_map_roundtrip, ?codec_roundtrip.

(** ** [#[serde(flatten)]]

    A struct whose fields are all flattened buffers every entry of the map,
    then decodes each flattened field in order through serde's
    [FlatMapDeserializer]: [FlatStructAccess] hands the field's struct the
    entries whose key it declares (its derived [FIELDS]) and takes them out
    of the buffer, so a later flattened field sees only the rest.  On the
    way out, [FlatMapSerializer] writes each flattened struct's entries
    into the one outer map. *)

(** The [FIELDS] constant of a derived struct. *)
Class StructFields (T : Type) := { struct_fields : list string }.

Definition key_in (ks : list string) (k : string) : bool := existsb (String.eqb k) ks.

(** [FlatStructAccess]: the entries a struct with fields [ks] takes, and the
    buffer left for the next flattened field. *)
Definition flat_take (ks : list string) (o : list (string * Value.t))
    : list (string * Value.t) * list (string * Value.t) :=
  (List.filter (fun kv => key_in ks kv.1) o, List.filter (fun kv => negb (key_in ks kv.1)) o).

(** The entries [FlatMapSerializer] writes for a flattened struct. *)
Definition flat_entries (v : Value.t) : list (string * Value.t) :=
  match v with
  | Value.Object o => o
  | _ => []
  end.

(** What a type must satisfy to be flattened into another: it encodes to a
    map, under keys it declares. *)
Class FlatStruct (T : Type) `{Serialize T} `{StructFields T} := {
  flat_object : forall x : T, to_value x = Value.Object (flat_entries (to_value x));
  flat_keys_declared : forall x : T,
    Forall (fun kv => key_in struct_fields kv.1 = true) (flat_entries (to_value x))
}.

Lemma flat_take_declared (ks : list string) (o : list (string * Value.t)) :
  Forall (fun kv => key_in ks kv.1 = true) o -> flat_take ks o = (o, []).
Proof.
  unfold flat_take. induction 1 as [|kv o Hk _ IH]; [done|]. simpl. rewrite Hk. simpl.
  by injection IH as -> ->.
Qed.

Lemma flat_take_undeclared (ks : list string) (o : list (string * Value.t)) :
  Forall (fun kv => key_in ks kv.1 = false) o -> flat_take ks o = ([], o).
Proof.
  unfold flat_take. induction 1 as [|kv o Hk _ IH]; [done|]. simpl. rewrite Hk. simpl.
  by injection IH as -> ->.
Qed.

Lemma flat_take_app (ks : list string) (o1 o2 : list (string * Value.t)) :
  flat_take ks (o1 ++ o2) =
    ((flat_take ks o1).1 ++ (flat_take ks o2).1, (flat_take ks o1).2 ++ (flat_take ks o2).2).
Proof. unfold flat_take. simpl. by rewrite !List.filter_app. Qed.

(** ** Encoders emit well-formed trees *)

(** An encoding that always yields a well-formed tree ([value_wf]). *)
Class WfEncode (T : Type) `{Serialize T} := {
  wf_encode : forall x : T, value_wf (to_value x) = true
}.

Lemma value_wf_object (o : list (string * Value.t)) :
  value_wf (Value.Object o) = true <->
  NoDup o.*1 /\ Forall (fun kv => value_wf kv.2 = true) o.
Proof.
  simpl. rewrite andb_true_iff, bool_decide_eq_true, forallb_forall, Forall_forall.
  setoid_rewrite list_elem_of_In. done.
Qed.

#[export] Instance wf_encode_string : WfEncode string.
Proof. constructor. reflexivity. Qed.

#[export] Instance wf_encode_option `{WfEncode T} : WfEncode (option T).
Proof. constructor. intros [x|]; [exact (wf_encode x) | reflexivity]. Qed.

#[export] Instance wf_encode_vec `{WfEncode T} : WfEncode (list T).
Proof.
  constructor. intros l. simpl. apply forallb_forall. intros v [x [<- _]]%in_map_iff.
  apply wf_encode.
Qed.

(** A [HashMap] encodes to an object whose keys are its distinct keys. *)
#[export] Instance wf_encode_hashmap `{WfEncode T} : WfEncode (gmap string T).
Proof.
  constructor. intros m. apply value_wf_object. split.
  - rewrite <- list_fmap_compose. change (NoDup ((map_to_list m).*1)).
    apply NoDup_fst_map_to_list.
  - apply Forall_forall. intros kv [kx [<- _]]%list_elem_of_In%in_map_iff. apply wf_encode.
Qed.

(** The entries of an encoded struct: distinct keys, well-formed values. *)
Lemma struct_encoding_wf (o : list (string * Value.t)) :
  NoDup o.*1 -> Forall (fun kv => value_wf kv.2 = true) o -> value_wf (Value.Object o) = true.
Proof. intros. by apply value_wf_object. Qed.

(** Discharge [struct_encoding_wf] for an encoded struct. *)
Ltac struct_wf :=
  apply struct_encoding_wf;
  [ decide_by_eval | repeat (constructor 2; [exact (wf_encode _) |]); constructor 1 ].
