(* ===== verification/Deserializer.v ===== *)
(** * Deserializer: the [LambdaRequest] dispatcher of [deserializer_simd_json.rs]

    [impl Deserialize for LambdaRequest] (lines 28-78) decides which kind of
    HTTP event a payload is by probing the parsed tree, then decodes the whole
    tree as that event.  This file models it as [deserialize] over the cargo
    features of the build ([Features]), states the spec's abstract dispatcher
    (an ordered catalog of descriptors, [dispatch]) and proves that the nested
    conditionals of the code implement it. *)

From stdpp Require Import base list sets strings.
From Stdlib Require Import String.
From S2P Require Import Prelude Json Serde.

(** The cargo features the file tests with [#[cfg(feature = ...)]]. *)
Record Features : Type := {
  apigw_rest : bool;
  apigw_http : bool;
  alb : bool;
  apigw_websockets : bool;
  pass_through : bool
}.

(** Line 15. *)
Definition ERROR_CONTEXT : string :=
  "this function expects a JSON payload from Amazon API Gateway, Amazon Elastic Load Balancer, or AWS Lambda Function URLs, but the data doesn't match any of those services' events".

(** ** The structural fingerprints probed by the code *)

(** Lines 44-45: [request_context] is an object without [http], and the
    top level has [http_method]. *)
Definition is_apigw_rest (v : Value.t) : bool :=
  match get_object "request_context" v, contains_key "http_method" v with
  | Some rc, true => is_none (obj_get "http" rc)
  | _, _ => false
  end.

(** Lines 51-52: [request_context] is an object with [http]. *)
Definition is_apigw_http (v : Value.t) : bool :=
  match get_object "request_context" v with
  | Some rc => is_some (obj_get "http" rc)
  | None => false
  end.

(** Lines 58-59: [request_context] is an object with [elb]. *)
Definition is_alb (v : Value.t) : bool :=
  match get_object "request_context" v with
  | Some rc => is_some (obj_get "elb" rc)
  | None => false
  end.

(** Line 65: the top level has [connected_at]. *)
Definition is_websocket (v : Value.t) : bool :=
  contains_key "connected_at" v.

Section Dispatch.
(** The four request types of [aws_lambda_events::apigw] and [alb]; they are
    decoded from the same tree by their derived impls. *)
Context {ApiGatewayProxyRequest ApiGatewayV2httpRequest : Type}.
Context {AlbTargetGroupRequest ApiGatewayWebsocketProxyRequest : Type}.
Context `{!Deserialize ApiGatewayProxyRequest, !Deserialize ApiGatewayV2httpRequest}.
Context `{!Deserialize AlbTargetGroupRequest, !Deserialize ApiGatewayWebsocketProxyRequest}.

(** [lambda_http::request::LambdaRequest]. *)
Inductive LambdaRequest : Type :=
| ApiGatewayV1 (r : ApiGatewayProxyRequest)
| ApiGatewayV2 (r : ApiGatewayV2httpRequest)
| Alb (r : AlbTargetGroupRequest)
| WebSocket (r : ApiGatewayWebsocketProxyRequest)
| PassThrough (s : string).

(** [let res: T = t.deserialize().map_err(|e| Error::custom(e))?;
    return Ok(LambdaRequest::V(res));] *)
Definition decode_as {T} `{!Deserialize T} (k : T -> LambdaRequest) (v : Value.t)
    : Result LambdaRequest DeError :=
  res <- map_err (fun e => custom (error_to_string e)) (from_value T v) ;;
  Ok (k res).

(** Lines 28-77.  [data] is the payload text the pass-through variant
    carries (line 72). *)
Definition deserialize (feat : Features) (data : string) (v : Value.t)
    : Result LambdaRequest DeError :=
  if apigw_rest feat && is_apigw_rest v then decode_as ApiGatewayV1 v
  else if apigw_http feat && is_apigw_http v then decode_as ApiGatewayV2 v
  else if alb feat && is_alb v then decode_as Alb v
  else if apigw_websockets feat && is_websocket v then decode_as WebSocket v
  else if pass_through feat then Ok (PassThrough data)
  else Err (custom ERROR_CONTEXT).

(** ** The spec's dispatcher: an ordered catalog of variant descriptors *)

Record Descriptor : Type := {
  d_name : string;
  d_matches : Value.t -> bool;
  d_decode : Value.t -> Result LambdaRequest DeError
}.

(** The first descriptor whose predicate holds decodes the tree; with no
    match the payload passes through or is an unrecognized shape. *)
Fixpoint dispatch (cat : list Descriptor) (pass : bool) (data : string) (v : Value.t)
    : Result LambdaRequest DeError :=
  match cat with
  | [] => if pass then Ok (PassThrough data) else Err (custom ERROR_CONTEXT)
  | d :: cat' => if d_matches d v then d_decode d v else dispatch cat' pass data v
  end.

Definition rest_descriptor : Descriptor :=
  {| d_name := "apigw_rest"; d_matches := is_apigw_rest; d_decode := decode_as ApiGatewayV1 |}.
Definition http_descriptor : Descriptor :=
  {| d_name := "apigw_http"; d_matches := is_apigw_http; d_decode := decode_as ApiGatewayV2 |}.
Definition alb_descriptor : Descriptor :=
  {| d_name := "alb"; d_matches := is_alb; d_decode := decode_as Alb |}.
Definition websocket_descriptor : Descriptor :=
  {| d_name := "apigw_websockets"; d_matches := is_websocket; d_decode := decode_as WebSocket |}.

(** The catalog a build compiles in, in the code's priority order. *)
Definition catalog (feat : Features) : list Descriptor :=
  (if apigw_rest feat then [rest_descriptor] else []) ++
  (if apigw_http feat then [http_descriptor] else []) ++
  (if alb feat then [alb_descriptor] else []) ++
  (if apigw_websockets feat then [websocket_descriptor] else []).
End Dispatch.

(** ** Spec-level fingerprints (spec §4.2), stated on the probe accessors *)

Definition rest_fingerprint (v : Value.t) : Prop :=
  exists rc, get "request_context" v = Some (Value.Object rc) /\
             obj_get "http" rc = None /\ is_Some (get "http_method" v).
Definition http_fingerprint (v : Value.t) : Prop :=
  exists rc, get "request_context" v = Some (Value.Object rc) /\ is_Some (obj_get "http" rc).
Definition alb_fingerprint (v : Value.t) : Prop :=
  exists rc, get "request_context" v = Some (Value.Object rc) /\ is_Some (obj_get "elb" rc).
Definition websocket_fingerprint (v : Value.t) : Prop :=
  is_Some (get "connected_at" v).

(** No variant the build compiles in recognises the tree. *)
Definition unmatched (f : Features) (v : Value.t) : Prop :=
  ~ (apigw_rest f = true /\ rest_fingerprint v) /\
  ~ (apigw_http f = true /\ http_fingerprint v) /\
  ~ (alb f = true /\ alb_fingerprint v) /\
  ~ (apigw_websockets f = true /\ websocket_fingerprint v).

Lemma is_some_true {A} (o : option A) : is_some o = true <-> is_Some o.
Proof. destruct o; simpl; split; intros H; [eauto|done|done|by inversion H]. Qed.

Lemma is_apigw_rest_spec v : is_apigw_rest v = true <-> rest_fingerprint v.
Proof.
  unfold is_apigw_rest, rest_fingerprint, contains_key.
  destruct (get_object "request_context" v) as [rc|] eqn:Hrc.
  - apply get_object_Some in Hrc. destruct (get "http_method" v) eqn:Hm.
    + unfold is_none. destruct (obj_get "http" rc) eqn:E; simpl.
      * split; [done | intros (? & Hrc' & E' & _); congruence].
      * split; [intros _; exists rc; eauto | done].
    + split; [done | intros (? & _ & _ & H); by inversion H].
  - split; [done | intros (rc & H & _)].
    apply get_object_Some in H. congruence.
Qed.

Lemma probe_rc_spec key v :
  match get_object "request_context" v with
  | Some rc => is_some (obj_get key rc)
  | None => false
  end = true <->
  exists rc, get "request_context" v = Some (Value.Object rc) /\ is_Some (obj_get key rc).
Proof.
  unfold get_object. destruct (get "request_context" v) as [[| | |rc]|]; simpl;
    try (split; [done | intros (? & [=] & _)]).
  rewrite is_some_true. split; [eauto | intros (? & [= <-] & ?); done].
Qed.

Lemma is_apigw_http_spec v : is_apigw_http v = true <-> http_fingerprint v.
Proof. apply probe_rc_spec. Qed.

Lemma is_alb_spec v : is_alb v = true <-> alb_fingerprint v.
Proof. apply probe_rc_spec. Qed.

Lemma is_websocket_spec v : is_websocket v = true <-> websocket_fingerprint v.
Proof. unfold is_websocket, websocket_fingerprint. apply contains_key_get. Qed.

Lemma rest_http_exclusive v : rest_fingerprint v -> http_fingerprint v -> False.
Proof.
  intros (rc & Hrc & Hh & _) (rc' & Hrc' & [w Hw]). rewrite Hrc in Hrc'. congruence.
Qed.

(** A bool guard of the code as the fingerprint it decides. *)
Lemma guard_false (b : bool) (P : Prop) :
  (b = true <-> P) -> ~ P -> b = false.
Proof. destruct b; intros H HP; [exfalso; apply HP; by apply H | done]. Qed.

(** A feature flag and-ed with a probe decides "enabled and recognised". *)
Lemma guard_spec (flag b : bool) (P : Prop) :
  (b = true <-> P) -> (flag && b = true <-> flag = true /\ P).
Proof. intros H. by rewrite andb_true_iff, H. Qed.

(** Builds that agree on a flag, or a tree the probe does not recognise,
    give the same guard. *)
Lemma agree_guard (f1 f2 b : bool) (P : Prop) :
  (b = true <-> P) -> f1 = f2 \/ ~ P -> f1 && b = f2 && b.
Proof.
  intros H [->|HnP]; [done|].
  destruct b; [exfalso; by apply HnP, H | by rewrite !andb_false_r].
Qed.

Lemma guard_cases (b : bool) (P : Prop) :
  (b = true <-> P) -> (b = true /\ P) \/ (b = false /\ ~ P).
Proof. intros H. destruct b; [left; by split; [|apply H] | right; split; [done|]]. by rewrite <- H. Qed.

(** Case on an [if] of the code whose guard is decided by [H]. *)
Ltac split_guard H :=
  let E := fresh "E" in let HP := fresh "HP" in
  destruct (guard_cases _ _ H) as [[E HP]|[E HP]]; rewrite E.

(** A failed decode is reported through [error_to_string], which never
    produces the unrecognized-shape message. *)
Lemma error_to_string_ne e : error_to_string e <> ERROR_CONTEXT.
Proof. apply (string_suffix_ne _ _ _ 14). vm_compute. discriminate. Qed.

Lemma unmatched_of_guards (f : Features) (v : Value.t) :
  apigw_rest f && is_apigw_rest v = false -> apigw_http f && is_apigw_http v = false ->
  alb f && is_alb v = false -> apigw_websockets f && is_websocket v = false ->
  unmatched f v.
Proof.
  intros H1 H2 H3 H4.
  repeat split; intros HP;
    [ apply (guard_spec _ _ _ (is_apigw_rest_spec v)) in HP
    | apply (guard_spec _ _ _ (is_apigw_http_spec v)) in HP
    | apply (guard_spec _ _ _ (is_alb_spec v)) in HP
    | apply (guard_spec _ _ _ (is_websocket_spec v)) in HP ]; congruence.
Qed.

Section DispatchTheory.
Context {ApiGatewayProxyRequest ApiGatewayV2httpRequest : Type}.
Context {AlbTargetGroupRequest ApiGatewayWebsocketProxyRequest : Type}.
Context `{!Deserialize ApiGatewayProxyRequest, !Deserialize ApiGatewayV2httpRequest}.
Context `{!Deserialize AlbTargetGroupRequest, !Deserialize ApiGatewayWebsocketProxyRequest}.

Notation Req := (@LambdaRequest ApiGatewayProxyRequest ApiGatewayV2httpRequest
                   AlbTargetGroupRequest ApiGatewayWebsocketProxyRequest).
Notation Desc := (@Descriptor ApiGatewayProxyRequest ApiGatewayV2httpRequest
                    AlbTargetGroupRequest ApiGatewayWebsocketProxyRequest).

(** ** Refinement: the code implements the spec's dispatcher *)

(** C1. For every build, the nested conditionals of [deserialize] compute
    what the abstract dispatcher computes on the build's catalog: the
    first descriptor (in the order REST, HTTP, ALB, WebSocket) whose
    fingerprint holds decodes the tree, and with no match the payload
    passes through or is rejected. *)
Theorem deserialize_refines_catalog (f : Features) (data : string) (v : Value.t) :
  (deserialize f data v : Result Req DeError) = dispatch (catalog f) (pass_through f) data v.
Proof. destruct f as [[] [] [] [] []]; reflexivity. Qed.

Lemma decode_as_Ok_inv {T} `{!Deserialize T} (k : T -> Req) v x :
  decode_as k v = Ok x -> exists r, from_value T v = Ok r /\ x = k r.
Proof. unfold decode_as. destruct (from_value T v); simpl; intros; result_inv; eauto. Qed.

Lemma decode_as_of_Ok {T} `{!Deserialize T} (k : T -> Req) v r :
  from_value T v = Ok r -> decode_as k v = Ok (k r).
Proof. unfold decode_as. by intros ->. Qed.

Lemma decode_as_Err {T} `{!Deserialize T} (k : T -> Req) v e :
  from_value T v = Err e -> decode_as k v = Err (custom (error_to_string e)).
Proof. unfold decode_as. by intros ->. Qed.

Lemma decode_as_Err_inv {T} `{!Deserialize T} (k : T -> Req) v e :
  decode_as k v = Err e -> exists e', from_value T v = Err e' /\ e = custom (error_to_string e').
Proof. unfold decode_as. destruct (from_value T v); simpl; intros; result_inv; eauto. Qed.

(** The branches of [deserialize], each with the conditions under which the
    code takes it. *)
Inductive deserialize_view (f : Features) (data : string) (v : Value.t)
    : Result Req DeError -> Prop :=
| view_rest :
    apigw_rest f = true -> rest_fingerprint v ->
    deserialize_view f data v (decode_as ApiGatewayV1 v)
| view_http :
    ~ (apigw_rest f = true /\ rest_fingerprint v) ->
    apigw_http f = true -> http_fingerprint v ->
    deserialize_view f data v (decode_as ApiGatewayV2 v)
| view_alb :
    ~ (apigw_rest f = true /\ rest_fingerprint v) ->
    ~ (apigw_http f = true /\ http_fingerprint v) ->
    alb f = true -> alb_fingerprint v ->
    deserialize_view f data v (decode_as Alb v)
| view_websocket :
    ~ (apigw_rest f = true /\ rest_fingerprint v) ->
    ~ (apigw_http f = true /\ http_fingerprint v) ->
    ~ (alb f = true /\ alb_fingerprint v) ->
    apigw_websockets f = true -> websocket_fingerprint v ->
    deserialize_view f data v (decode_as WebSocket v)
| view_pass_through :
    unmatched f v -> pass_through f = true ->
    deserialize_view f data v (Ok (PassThrough data))
| view_unrecognized :
    unmatched f v -> pass_through f = false ->
    deserialize_view f data v (Err (custom ERROR_CONTEXT)).

Lemma deserialize_viewP f data v : deserialize_view f data v (deserialize f data v).
Proof.
  unfold deserialize.
  split_guard (guard_spec (apigw_rest f) _ _ (is_apigw_rest_spec v));
    [destruct HP; by apply view_rest|].
  split_guard (guard_spec (apigw_http f) _ _ (is_apigw_http_spec v));
    [destruct HP0; by apply view_http|].
  split_guard (guard_spec (alb f) _ _ (is_alb_spec v));
    [destruct HP1; by apply view_alb|].
  split_guard (guard_spec (apigw_websockets f) _ _ (is_websocket_spec v));
    [destruct HP2; by apply view_websocket|].
  destruct (pass_through f) eqn:?;
    [apply view_pass_through | apply view_unrecognized]; by repeat split.
Qed.

End DispatchTheory.

Ltac view_simpl :=
  repeat match goal with
  | H : decode_as _ _ = Ok _ |- _ => apply decode_as_Ok_inv in H as (? & ? & ?)
  | H : unmatched _ _ |- _ => destruct H as (? & ? & ? & ?)
  | H : _ /\ _ |- _ => destruct H
  end; simplify_eq.

(** Case on the branch [deserialize] takes, by its view lemma
    ([@deserialize_viewP]). *)
Ltac deserialize_cases view f data v :=
  let res := fresh "res" in let Hv := fresh "Hv" in
  match goal with
  | |- context [@deserialize ?A ?B ?C ?D ?i1 ?i2 ?i3 ?i4 f data v] =>
      pose proof (view A B C D i1 i2 i3 i4 f data v) as Hv; revert Hv;
      generalize (@deserialize A B C D i1 i2 i3 i4 f data v); intros res Hv; destruct Hv
  end.

Ltac view_close :=
  view_simpl;
  first [ done | by apply decode_as_of_Ok | exfalso; by eapply rest_http_exclusive
        | exfalso; tauto | tauto ].

Section DispatchClaims.
Context {ApiGatewayProxyRequest ApiGatewayV2httpRequest : Type}.
Context {AlbTargetGroupRequest ApiGatewayWebsocketProxyRequest : Type}.
Context `{!Deserialize ApiGatewayProxyRequest, !Deserialize ApiGatewayV2httpRequest}.
Context `{!Deserialize AlbTargetGroupRequest, !Deserialize ApiGatewayWebsocketProxyRequest}.

Notation Req := (@LambdaRequest ApiGatewayProxyRequest ApiGatewayV2httpRequest
                   AlbTargetGroupRequest ApiGatewayWebsocketProxyRequest).
Notation Desc := (@Descriptor ApiGatewayProxyRequest ApiGatewayV2httpRequest
                    AlbTargetGroupRequest ApiGatewayWebsocketProxyRequest).


(** ** Functional behaviour, one theorem per variant *)

(** C2. The REST (v1) gateway variant is produced exactly when that
    feature is built, [request_context] is an object without [http], the
    top level has [http_method], and the whole tree decodes as an
    [ApiGatewayProxyRequest] to the carried value. *)
Theorem deserialize_apigw_v1_iff (f : Features) (data : string) (v : Value.t)
    (r : ApiGatewayProxyRequest) :
  (deserialize f data v : Result Req DeError) = Ok (ApiGatewayV1 r) <->
  apigw_rest f = true /\ rest_fingerprint v /\ from_value _ v = Ok r.
Proof. deserialize_cases @deserialize_viewP f data v; split; intros; view_close. Qed.

(** C3. The HTTP (v2) gateway variant is produced exactly when that
    feature is built, [request_context] is an object with [http], and the
    tree decodes as an [ApiGatewayV2httpRequest]; the REST branch checked
    before it can never claim such a tree. *)
Theorem deserialize_apigw_v2_iff (f : Features) (data : string) (v : Value.t)
    (r : ApiGatewayV2httpRequest) :
  (deserialize f data v : Result Req DeError) = Ok (ApiGatewayV2 r) <->
  apigw_http f = true /\ http_fingerprint v /\ from_value _ v = Ok r.
Proof. deserialize_cases @deserialize_viewP f data v; split; intros; view_close. Qed.

(** C4. The load-balancer variant is produced exactly when that feature is
    built, [request_context] is an object with [elb], neither built gateway
    variant recognises the tree first, and the tree decodes as an
    [AlbTargetGroupRequest]. *)
Theorem deserialize_alb_iff (f : Features) (data : string) (v : Value.t)
    (r : AlbTargetGroupRequest) :
  (deserialize f data v : Result Req DeError) = Ok (Alb r) <->
  alb f = true /\ alb_fingerprint v /\
  ~ (apigw_rest f = true /\ rest_fingerprint v) /\
  ~ (apigw_http f = true /\ http_fingerprint v) /\
  from_value _ v = Ok r.
Proof. deserialize_cases @deserialize_viewP f data v; split; intros; view_close. Qed.

(** C5. The WebSocket variant is produced exactly when that feature is
    built, the top level has [connected_at], none of the three variants
    probed before it recognises the tree, and the tree decodes as an
    [ApiGatewayWebsocketProxyRequest]. *)
Theorem deserialize_websocket_iff (f : Features) (data : string) (v : Value.t)
    (r : ApiGatewayWebsocketProxyRequest) :
  (deserialize f data v : Result Req DeError) = Ok (WebSocket r) <->
  apigw_websockets f = true /\ websocket_fingerprint v /\
  ~ (apigw_rest f = true /\ rest_fingerprint v) /\
  ~ (apigw_http f = true /\ http_fingerprint v) /\
  ~ (alb f = true /\ alb_fingerprint v) /\
  from_value _ v = Ok r.
Proof. deserialize_cases @deserialize_viewP f data v; split; intros; view_close. Qed.

(** The pass-through variant is produced exactly when that feature is
    built and no built variant recognises the tree, and it carries the
    payload unmodified. *)
Theorem deserialize_pass_through_iff (f : Features) (data : string) (v : Value.t) (s : string) :
  (deserialize f data v : Result Req DeError) = Ok (PassThrough s) <->
  pass_through f = true /\ unmatched f v /\ s = data.
Proof.
  deserialize_cases @deserialize_viewP f data v; split; intros; view_simpl;
    first [done | by repeat split | exfalso; tauto | congruence].
Qed.

(** ** Errors *)

(** C6. With no built variant recognising the tree and pass-through not
    built, the result is the fixed unrecognized-shape error, whatever
    variants the build contains. *)
Theorem deserialize_unrecognized (f : Features) (data : string) (v : Value.t) :
  unmatched f v -> pass_through f = false ->
  (deserialize f data v : Result Req DeError) = Err (custom ERROR_CONTEXT).
Proof.
  intros Hun Hpt. deserialize_cases @deserialize_viewP f data v; try done;
    destruct Hun as (? & ? & ? & ?); first [congruence | exfalso; tauto].
Qed.

(** C7. An error is the unrecognized-shape error exactly when no built
    variant recognises the tree and pass-through is not built; every other
    error is the decode error of the variant the probe selected, rendered
    by [error_to_string], so the two failure modes never coincide. *)
Theorem deserialize_error_kinds (f : Features) (data : string) (v : Value.t) (e : DeError) :
  (deserialize f data v : Result Req DeError) = Err e ->
  (e = custom ERROR_CONTEXT <-> unmatched f v /\ pass_through f = false) /\
  (e <> custom ERROR_CONTEXT -> exists e', e = custom (error_to_string e')).
Proof.
  intros Herr.
  assert (Hne : forall e', custom (error_to_string e') <> custom ERROR_CONTEXT)
    by (intros e' [= He]; by apply (error_to_string_ne e')).
  revert Herr. deserialize_cases @deserialize_viewP f data v; intros Herr; try discriminate.
  all: try (apply decode_as_Err_inv in Herr as (e' & _ & ->);
            split; [split; [intros Hc; exfalso; by apply (Hne e')
                           | intros ((? & ? & ? & ?) & _); exfalso; tauto]
                   | intros _; by exists e']).
  injection Herr as <-. split; [tauto | intros []; done].
Qed.

(** C8. A payload without the [request_context] and [connected_at] keys
    the probe looks for is never decoded as any variant: it passes through
    or is rejected.  The real events spell those keys [requestContext] and
    [connectedAt], so the dispatcher recognises none of them. *)
Theorem deserialize_without_probed_keys (f : Features) (data : string) (v : Value.t) :
  get "request_context" v = None -> get "connected_at" v = None ->
  (deserialize f data v : Result Req DeError) =
    if pass_through f then Ok (PassThrough data) else Err (custom ERROR_CONTEXT).
Proof.
  intros Hrc Hca. deserialize_cases @deserialize_viewP f data v;
    try match goal with
        | H : rest_fingerprint _ |- _ => destruct H as (? & ? & _)
        | H : http_fingerprint _ |- _ => destruct H as (? & ? & _)
        | H : alb_fingerprint _ |- _ => destruct H as (? & ? & _)
        | H : websocket_fingerprint _ |- _ => destruct H as [? ?]
        end; try congruence; by rewrite H0.
Qed.

(** ** The abstract dispatcher *)

(** [dispatch] is "decode with the first descriptor that matches". *)
Lemma dispatch_find (cat : list Desc) pass data v :
  dispatch cat pass data v =
    match find (fun d => d_matches d v) cat with
    | Some d => d_decode d v
    | None => if pass then Ok (PassThrough data) else Err (custom ERROR_CONTEXT)
    end.
Proof. induction cat as [|d cat IH]; simpl; [done|]. by destruct (d_matches d v). Qed.

(** Priority: when several descriptors match, the one listed first decodes
    the tree; the later ones are never consulted. *)
Lemma dispatch_first_match (cat1 : list Desc) (d : Desc) (cat2 : list Desc) pass data v :
  Forall (fun d' => d_matches d' v = false) cat1 -> d_matches d v = true ->
  dispatch (cat1 ++ d :: cat2) pass data v = d_decode d v.
Proof.
  intros H1 Hd. induction H1 as [|d' cat1 Hd' _ IH]; simpl; [by rewrite Hd | by rewrite Hd'].
Qed.

(** Appending descriptors after a catalog does not change the result on a
    payload some existing descriptor already matches. *)
Lemma dispatch_app_matched (cat extra : list Desc) pass data v :
  (exists d, d ∈ cat /\ d_matches d v = true) ->
  dispatch (cat ++ extra) pass data v = dispatch cat pass data v.
Proof.
  intros (d & Hin & Hd). induction cat as [|d' cat IH]; simpl; [by apply elem_of_nil in Hin|].
  destruct (d_matches d' v) eqn:Hd'; [done|].
  apply IH. apply elem_of_cons in Hin as [->|]; [congruence | done].
Qed.

Ltac in_catalog Hf := unfold catalog; rewrite Hf; set_solver.

(** A tree some built variant recognises has a descriptor in the catalog. *)
Lemma matched_descriptor (f : Features) (v : Value.t) :
  ~ unmatched f v -> exists d : Desc, d ∈ catalog f /\ d_matches d v = true.
Proof.
  intros Hm.
  destruct (apigw_rest f && is_apigw_rest v) eqn:E1.
  { apply andb_true_iff in E1 as [Hf Hd]. exists rest_descriptor. split; [in_catalog Hf | done]. }
  destruct (apigw_http f && is_apigw_http v) eqn:E2.
  { apply andb_true_iff in E2 as [Hf Hd]. exists http_descriptor. split; [in_catalog Hf | done]. }
  destruct (alb f && is_alb v) eqn:E3.
  { apply andb_true_iff in E3 as [Hf Hd]. exists alb_descriptor. split; [in_catalog Hf | done]. }
  destruct (apigw_websockets f && is_websocket v) eqn:E4.
  { apply andb_true_iff in E4 as [Hf Hd]. exists websocket_descriptor. split; [in_catalog Hf | done]. }
  exfalso. apply Hm. by apply unmatched_of_guards.
Qed.

(** Priority between overlapping fingerprints: when the HTTP gateway
    variant is built and [request_context] has [http], the tree is decoded
    as an HTTP gateway request, whatever else it carries ([elb],
    [http_method], [connected_at]); its decode error, if any, is the result. *)
Theorem deserialize_http_priority (f : Features) (data : string) (v : Value.t) :
  apigw_http f = true -> http_fingerprint v ->
  (deserialize f data v : Result Req DeError) = decode_as ApiGatewayV2 v.
Proof.
  intros Hf Hv. deserialize_cases @deserialize_viewP f data v; view_simpl; try done;
    try (exfalso; by eapply rest_http_exclusive); exfalso; tauto.
Qed.

(** Extensibility: a catalog that adds new variants after the ones a
    build compiles in resolves every payload the build already recognised
    exactly as the build does, value or decode error alike. *)
Theorem deserialize_catalog_extension (f : Features) (extra : list Desc) (data : string)
    (v : Value.t) :
  ~ unmatched f v ->
  dispatch (catalog f ++ extra) (pass_through f) data v = deserialize f data v.
Proof.
  intros Hm. rewrite dispatch_app_matched by (by apply matched_descriptor).
  destruct f as [[] [] [] [] []]; reflexivity.
Qed.

(** Two builds agree on a variant for a tree when they both build it or the
    tree lacks its fingerprint. *)
Definition agree_on (b1 b2 : bool) (P : Prop) : Prop := b1 = b2 \/ ~ P.

(** C10. Variants are independent build-time choices: two builds that agree
    on pass-through and on every variant whose fingerprint the tree has
    dispatch it identically, so adding or removing a variant changes only
    the payloads that variant recognises. *)
Theorem deserialize_feature_independent (f g : Features) (data : string) (v : Value.t) :
  agree_on (apigw_rest f) (apigw_rest g) (rest_fingerprint v) ->
  agree_on (apigw_http f) (apigw_http g) (http_fingerprint v) ->
  agree_on (alb f) (alb g) (alb_fingerprint v) ->
  agree_on (apigw_websockets f) (apigw_websockets g) (websocket_fingerprint v) ->
  pass_through f = pass_through g ->
  (deserialize f data v : Result Req DeError) = deserialize g data v.
Proof.
  intros Hr Hh Ha Hw Hp. unfold deserialize.
  rewrite (agree_guard _ _ _ _ (is_apigw_rest_spec v) Hr),
          (agree_guard _ _ _ _ (is_apigw_http_spec v) Hh),
          (agree_guard _ _ _ _ (is_alb_spec v) Ha),
          (agree_guard _ _ _ _ (is_websocket_spec v) Hw), Hp.
  reflexivity.
Qed.
End DispatchClaims.

(** ** Concrete builds and payloads *)



(** Every request variant built, pass-through not built. *)
Definition all_variants : Features :=
  {| apigw_rest := true; apigw_http := true; alb := true;
     apigw_websockets := true; pass_through := false |}.

(** The request types taken as the untyped tree, so a concrete run computes. *)
Abbreviation UntypedRequest := (@LambdaRequest Value.t Value.t Value.t Value.t).
Abbreviation untyped_deserialize := (@deserialize Value.t Value.t Value.t Value.t _ _ _ _).

(** [{"foo":"bar"}] (spec §8, scenario D). *)
Definition payload_foo : Value.t := Value.Object [("foo", Value.String "bar")].

(** [{"requestContext":{"http":{}}}] (spec §8, scenario A), with the key
    spelled as the upstream services and the spec spell it. *)
Definition payload_camel_http : Value.t :=
  Value.Object [("requestContext", Value.Object [("http", Value.Object [])])].

(** The same payload with the key spelled as the probe looks for it. *)
Definition payload_snake_http : Value.t :=
  Value.Object [("request_context", Value.Object [("http", Value.Object [])])].

(** [{"request_context":{"elb":{"targetGroupArn":"arn:..."}}}] (scenario B). *)
Definition payload_alb : Value.t :=
  Value.Object [("request_context",
                 Value.Object [("elb", Value.Object [("targetGroupArn", Value.String "arn:...")])])].

(** [{"connected_at":1234}] (scenario C). *)
Definition payload_websocket : Value.t :=
  Value.Object [("connected_at", Value.Static (U64 1234))].

Example scenario_snake_http : untyped_deserialize all_variants "payload" payload_snake_http
  = Ok (ApiGatewayV2 payload_snake_http).
Proof. reflexivity. Qed.

Example scenario_alb : untyped_deserialize all_variants "payload" payload_alb = Ok (Alb payload_alb).
Proof. reflexivity. Qed.

Example scenario_websocket :
  untyped_deserialize all_variants "payload" payload_websocket = Ok (WebSocket payload_websocket).
Proof. reflexivity. Qed.

Lemma deserialize_unrecognized_witness :
  untyped_deserialize all_variants "foo=bar" payload_foo = Err (custom ERROR_CONTEXT).
Proof.
  apply deserialize_unrecognized; [apply unmatched_of_guards; reflexivity | reflexivity].
Defined.

Lemma deserialize_error_kinds_witness :
  (custom ERROR_CONTEXT = custom ERROR_CONTEXT <->
     unmatched all_variants payload_foo /\ pass_through all_variants = false) /\
  (custom ERROR_CONTEXT <> custom ERROR_CONTEXT ->
     exists e', custom ERROR_CONTEXT = custom (error_to_string e')).
Proof.
  apply (deserialize_error_kinds (ApiGatewayProxyRequest := Value.t)
           (ApiGatewayV2httpRequest := Value.t) (AlbTargetGroupRequest := Value.t)
           (ApiGatewayWebsocketProxyRequest := Value.t) all_variants "foo=bar").
  reflexivity.
Defined.

(** The spec's scenario A, as the upstream service spells it, is not
    recognised. *)
Lemma deserialize_without_probed_keys_witness :
  untyped_deserialize all_variants "camel" payload_camel_http = Err (custom ERROR_CONTEXT).
Proof. rewrite deserialize_without_probed_keys by reflexivity. reflexivity. Defined.

Abbreviation UntypedDescriptor := (@Descriptor Value.t Value.t Value.t Value.t).

(** [request_context] with both [http] and [elb]: the HTTP variant wins. *)
Definition payload_http_and_elb : Value.t :=
  Value.Object [("request_context", Value.Object [("elb", Value.Object []); ("http", Value.Object [])])].

Lemma deserialize_http_priority_witness :
  untyped_deserialize all_variants "payload" payload_http_and_elb
  = decode_as ApiGatewayV2 payload_http_and_elb.
Proof.
  apply deserialize_http_priority; [reflexivity|].
  exists [("elb", Value.Object []); ("http", Value.Object [])]. split; [reflexivity | by eexists].
Defined.

(** A catalog that appends a descriptor for a further event source. *)
Definition sqs_descriptor : UntypedDescriptor :=
  {| d_name := "sqs"; d_matches := contains_key "Records"; d_decode v := Ok (PassThrough "sqs") |}.

Lemma deserialize_catalog_extension_witness :
  dispatch (catalog all_variants ++ [sqs_descriptor]) false "payload" payload_alb
  = untyped_deserialize all_variants "payload" payload_alb.
Proof.
  apply deserialize_catalog_extension. intros (_ & _ & Halb & _). apply Halb.
  split; [reflexivity|]. apply is_alb_spec. reflexivity.
Defined.

(** A build without the load-balancer variant dispatches an HTTP gateway
    tree as the full build does. *)
Lemma deserialize_feature_independent_witness :
  untyped_deserialize all_variants "payload" payload_snake_http
  = untyped_deserialize
      {| apigw_rest := true; apigw_http := true; alb := false;
         apigw_websockets := true; pass_through := false |} "payload" payload_snake_http.
Proof.
  apply deserialize_feature_independent; try (left; reflexivity); [|reflexivity].
  right. intros Halb. apply is_alb_spec in Halb. vm_compute in Halb. discriminate.
Defined.
