(* ===== verification/SecretsManager.v ===== *)
(** * SecretsManager: [SecretsManagerSecretRotationEvent] ([event/secretsmanager/mod.rs])

    A struct of three [String] fields with [#[serde(rename_all = "PascalCase")]]
    and derived [Deserialize]/[Serialize].  The decoder is the derived struct
    visitor of [Serde] over the wire names [Step], [SecretId] and
    [ClientRequestToken]; the encoder emits those three entries in
    declaration order.  The theorems are the round trip the file's test
    checks, what a successful decode guarantees, and its errors. *)

From stdpp Require Import base list strings.
From Stdlib Require Import String.
From S2P Require Import Prelude Json Serde.

Record SecretsManagerSecretRotationEvent : Type := {
  step : string;
  secret_id : string;
  client_request_token : string
}.

(** The fields as [rename_all = "PascalCase"] names them on the wire. *)
Definition secretsmanager_fields : list FieldSpec :=
  [field_spec "Step" (from_value string);
   field_spec "SecretId" (from_value string);
   field_spec "ClientRequestToken" (from_value string)].

(** [#[derive(PartialEq, Eq)]]. *)
#[export] Instance secretsmanager_eq_dec : EqDecision SecretsManagerSecretRotationEvent.
Proof. solve_decision. Defined.

(** [#[derive(Deserialize)]]. *)
Definition build_secretsmanager (o : list (string * Value.t))
    : Result SecretsManagerSecretRotationEvent DeError :=
  step <- required "Step" (from_value string) o ;;
  secret_id <- required "SecretId" (from_value string) o ;;
  client_request_token <- required "ClientRequestToken" (from_value string) o ;;
  Ok {| step := step; secret_id := secret_id; client_request_token := client_request_token |}.

#[export] Instance deserialize_secretsmanager : Deserialize SecretsManagerSecretRotationEvent := {|
  from_value := deserialize_struct secretsmanager_fields build_secretsmanager |}.

(** [#[derive(Serialize)]]. *)
#[export] Instance serialize_secretsmanager : Serialize SecretsManagerSecretRotationEvent := {|
  to_value e := Value.Object [("Step", to_value (step e));
                              ("SecretId", to_value (secret_id e));
                              ("ClientRequestToken", to_value (client_request_token e))] |}.

(** ** Theorems *)

#[export] Instance codec_secretsmanager : Codec SecretsManagerSecretRotationEvent.
Proof.
  constructor. intros [s i t].
  cbn [from_value deserialize_secretsmanager to_value serialize_secretsmanager
       step secret_id client_request_token].
  rewrite deserialize_struct_Object; [reflexivity | |].
  - decide_by_eval.
  - intros k v f Hin Hf. repeat (apply elem_of_cons in Hin as [Hin|Hin]);
      [injection Hin as -> -> ..| by apply elem_of_nil in Hin];
      injection Hf as <-; reflexivity.
Qed.

(** C11. Encoding an event and decoding the result gives the event back
    (the round trip of [example_secretsmanager_secret_rotation_event]). *)
Theorem secretsmanager_roundtrip (e : SecretsManagerSecretRotationEvent) :
  from_value SecretsManagerSecretRotationEvent (to_value e) = Ok e.
Proof. apply codec_roundtrip. Qed.

(** C12. A successful decode reads each field from the entry with its wire
    name, which holds exactly that string, and the object repeats none of
    the three keys. *)
Theorem secretsmanager_decode_sound (v : Value.t) (e : SecretsManagerSecretRotationEvent) :
  from_value SecretsManagerSecretRotationEvent v = Ok e ->
  exists o, v = Value.Object o /\
    obj_get "Step" o = Some (Value.String (step e)) /\
    obj_get "SecretId" o = Some (Value.String (secret_id e)) /\
    obj_get "ClientRequestToken" o = Some (Value.String (client_request_token e)) /\
    NoDup (known_keys secretsmanager_fields o).
Proof.
  intros (o & seen & -> & Hvisit & Hbuild)%deserialize_struct_Ok_inv.
  unfold build_secretsmanager in Hbuild. result_inv.
  repeat match goal with
         | H : required _ _ _ = Ok _ |- _ =>
             apply required_Ok_inv in H as (? & ? & ?%from_value_string_inv)
         end; subst.
  exists o. split_and!; eauto using visit_map_known_nodup.
Qed.

(** C13. An object the visitor accepts, with [Step] present and [SecretId]
    absent, is rejected with serde's [missing field `SecretId`] error. *)
Theorem secretsmanager_missing_secret_id (o : list (string * Value.t)) seen (s : string) :
  visit_map secretsmanager_fields o = Ok seen ->
  obj_get "Step" o = Some (Value.String s) -> obj_get "SecretId" o = None ->
  from_value SecretsManagerSecretRotationEvent (Value.Object o) = Err (missing_field "SecretId").
Proof.
  intros Hv Hs Hi. cbn [from_value deserialize_secretsmanager deserialize_struct].
  rewrite Hv. cbn. unfold build_secretsmanager, required. by rewrite Hs, Hi.
Qed.

(** A second [Step] entry is rejected with serde's [duplicate field]
    error, even when both entries hold strings. *)
Theorem secretsmanager_duplicate_step (a b : string) (rest : list (string * Value.t)) :
  from_value SecretsManagerSecretRotationEvent
    (Value.Object (("Step", Value.String a) :: ("Step", Value.String b) :: rest))
  = Err (duplicate_field "Step").
Proof. reflexivity. Qed.

#[export] Instance build_secretsmanager_proper :
  Proper (fields_agree (fs_name <$> secretsmanager_fields) ==> eq) build_secretsmanager.
Proof. unfold build_secretsmanager, secretsmanager_fields. build_proper. Qed.

(** The decoder reads the object as a mapping: an accepted object whose
    entries are reordered is accepted and decodes to the same event. *)
Theorem secretsmanager_decode_perm (o1 o2 : list (string * Value.t))
    (e : SecretsManagerSecretRotationEvent) :
  o1 ≡ₚ o2 ->
  from_value SecretsManagerSecretRotationEvent (Value.Object o1) = Ok e ->
  from_value SecretsManagerSecretRotationEvent (Value.Object o2) = Ok e.
Proof. apply deserialize_struct_perm. apply _. Qed.

Lemma secretsmanager_missing_secret_id_witness :
  from_value SecretsManagerSecretRotationEvent
    (Value.Object [("Step", Value.String "createSecret")]) = Err (missing_field "SecretId").
Proof. by eapply (secretsmanager_missing_secret_id _ ["Step"] "createSecret"). Defined.

Definition rotation_event : Value.t :=
  Value.Object [("Step", Value.String "createSecret");
                ("SecretId", Value.String "arn:aws:secretsmanager:us-east-1:111122223333:secret:id");
                ("ClientRequestToken", Value.String "ae7a2d4c");
                ("Stage", Value.String "unknown-key")].

Lemma secretsmanager_decode_sound_witness :
  exists o, rotation_event = Value.Object o /\
    obj_get "Step" o = Some (Value.String "createSecret") /\
    obj_get "SecretId" o =
      Some (Value.String "arn:aws:secretsmanager:us-east-1:111122223333:secret:id") /\
    obj_get "ClientRequestToken" o = Some (Value.String "ae7a2d4c") /\
    NoDup (known_keys secretsmanager_fields o).
Proof.
  apply (secretsmanager_decode_sound rotation_event
           {| step := "createSecret";
              secret_id := "arn:aws:secretsmanager:us-east-1:111122223333:secret:id";
              client_request_token := "ae7a2d4c" |}).
  reflexivity.
Defined.

Lemma secretsmanager_decode_perm_witness :
  from_value SecretsManagerSecretRotationEvent
    (Value.Object [("SecretId", Value.String "arn:aws:secretsmanager:us-east-1:111122223333:secret:id");
                   ("Step", Value.String "createSecret");
                   ("ClientRequestToken", Value.String "ae7a2d4c");
                   ("Stage", Value.String "unknown-key")])
  = Ok {| step := "createSecret";
          secret_id := "arn:aws:secretsmanager:us-east-1:111122223333:secret:id";
          client_request_token := "ae7a2d4c" |}.
Proof.
  apply (secretsmanager_decode_perm
           [("Step", Value.String "createSecret");
            ("SecretId", Value.String "arn:aws:secretsmanager:us-east-1:111122223333:secret:id");
            ("ClientRequestToken", Value.String "ae7a2d4c");
            ("Stage", Value.String "unknown-key")]).
  - apply perm_swap.
  - reflexivity.
Defined.
