(* ===== verification/AutoScaling.v ===== *)
(** * AutoScaling: [AutoScalingEvent<T1 = Value>] ([event/autoscaling/mod.rs])

    The event envelope of the spec (§3, §4.4): optional metadata fields, a
    required timestamp and resource list, and an open-ended [detail] map
    whose value type [T1] the caller chooses (the untyped [Value] by
    default).  [detail] is read with [deserialize_lambda_map] and defaults to
    the empty map.  The chrono [DateTime<Utc>] of [time] is kept abstract: a
    type [Time] with its serde impls, on which the round trip assumes only
    chrono's own round trip. *)

From stdpp Require Import base list gmap strings fin_maps.
From Stdlib Require Import String.
From S2P Require Import Prelude Json Serde.

Record AutoScalingEvent (T1 Time : Type) : Type := {
  version : option string;
  id : option string;
  detail_type : option string;
  source : option string;
  account_id : option string;
  time : Time;
  region : option string;
  resources : list string;
  detail : gmap string T1
}.
Arguments version {T1 Time} _.
Arguments id {T1 Time} _.
Arguments detail_type {T1 Time} _.
Arguments source {T1 Time} _.
Arguments account_id {T1 Time} _.
Arguments time {T1 Time} _.
Arguments region {T1 Time} _.
Arguments resources {T1 Time} _.
Arguments detail {T1 Time} _.

(** [#[derive(PartialEq, Eq)]]. *)
#[export] Instance autoscaling_eq_dec {T1 Time} `{EqDecision T1} `{EqDecision Time} :
  EqDecision (AutoScalingEvent T1 Time).
Proof. solve_decision. Defined.

Section Serde_impls.
Context {T1 Time : Type} `{!Deserialize T1, !Serialize T1, !Deserialize Time, !Serialize Time}.

(** The wire names: [rename_all = "camelCase"] and the two [rename]s. *)
Definition autoscaling_fields : list FieldSpec :=
  [field_spec "version" (from_value (option string));
   field_spec "id" (from_value (option string));
   field_spec "detail-type" (from_value (option string));
   field_spec "source" (from_value (option string));
   field_spec "account" (from_value (option string));
   field_spec "time" (from_value Time);
   field_spec "region" (from_value (option string));
   field_spec "resources" (from_value (list string));
   field_spec "detail" (deserialize_lambda_map (T := T1))].

(** [#[derive(Deserialize)]]: [#[serde(default)]] on the [Option]s and on
    [detail], no default on [time] and [resources]. *)
Definition build_autoscaling (o : list (string * Value.t))
    : Result (AutoScalingEvent T1 Time) DeError :=
  version <- defaulted "version" None (from_value (option string)) o ;;
  id <- defaulted "id" None (from_value (option string)) o ;;
  detail_type <- defaulted "detail-type" None (from_value (option string)) o ;;
  source <- defaulted "source" None (from_value (option string)) o ;;
  account_id <- defaulted "account" None (from_value (option string)) o ;;
  time <- required "time" (from_value Time) o ;;
  region <- defaulted "region" None (from_value (option string)) o ;;
  resources <- required "resources" (from_value (list string)) o ;;
  detail <- defaulted "detail" ∅ (deserialize_lambda_map (T := T1)) o ;;
  Ok {| version := version; id := id; detail_type := detail_type; source := source;
        account_id := account_id; time := time; region := region;
        resources := resources; detail := detail |}.

#[export] Instance deserialize_autoscaling : Deserialize (AutoScalingEvent T1 Time) := {|
  from_value := deserialize_struct autoscaling_fields build_autoscaling |}.

(** The entries [#[derive(Serialize)]] writes before [detail]. *)
Definition autoscaling_prefix (e : AutoScalingEvent T1 Time) : list (string * Value.t) :=
  [("version", to_value (version e)); ("id", to_value (id e));
   ("detail-type", to_value (detail_type e)); ("source", to_value (source e));
   ("account", to_value (account_id e)); ("time", to_value (time e));
   ("region", to_value (region e)); ("resources", to_value (resources e))].

(** [#[derive(Serialize)]]: every field, in declaration order. *)
#[export] Instance serialize_autoscaling : Serialize (AutoScalingEvent T1 Time) := {|
  to_value e := Value.Object (autoscaling_prefix e ++ [("detail", to_value (detail e))]) |}.
End Serde_impls.

Section Theorems.
Context {T1 Time : Type} `{Codec T1} `{Codec Time}.

#[export] Instance codec_autoscaling : Codec (AutoScalingEvent T1 Time).
Proof.
  constructor. intros [ver i dt src acc t reg res det].
  cbn [from_value deserialize_autoscaling to_value serialize_autoscaling autoscaling_prefix app
       version id detail_type source account_id time region resources detail].
  struct_encoded. unfold build_autoscaling. struct_fields. reflexivity.
Qed.

(** C14. Encoding an event and decoding the result gives the event back,
    whenever the detail type and the timestamp type round-trip (the tests
    of [event/autoscaling/mod.rs]). *)
Theorem autoscaling_roundtrip (e : AutoScalingEvent T1 Time) :
  from_value (AutoScalingEvent T1 Time) (to_value e) = Ok e.
Proof. apply codec_roundtrip. Qed.
(** Every entry of an encoded event passes its field's check. *)
Lemma autoscaling_encoded_checked (e : AutoScalingEvent T1 Time) k v f :
  (k, v) ∈ autoscaling_prefix e ++ [("detail", to_value (detail e))] ->
  find_field k (autoscaling_fields (T1 := T1) (Time := Time)) = Some f -> fs_check f v = Ok tt.
Proof.
  apply fields_checked; [reflexivity | decide_by_eval |].
  repeat (constructor 2; [eapply field_spec_Ok; first [apply codec_roundtrip | apply lambda_map_roundtrip] |]).
  constructor 1.
Qed.

(** C15. [detail] may be left out ([#[serde(default)]], line 41, with
    [deserialize_lambda_map] for [null]): the encoding of any event
    without its [detail] entry, or with [detail] set to [null], decodes
    successfully to the same event with an empty [detail] map. *)
Theorem autoscaling_detail_default (e : AutoScalingEvent T1 Time) (tail : list (string * Value.t)) :
  tail = [] \/ tail = [("detail", Null_v)] ->
  from_value (AutoScalingEvent T1 Time) (Value.Object (autoscaling_prefix e ++ tail)) =
  Ok {| version := version e; id := id e; detail_type := detail_type e; source := source e;
        account_id := account_id e; time := time e; region := region e;
        resources := resources e; detail := ∅ |}.
Proof.
  intros Htail. cbn [from_value deserialize_autoscaling]. rewrite deserialize_struct_Object.
  - destruct e as [ver i dt src acc t reg res det].
    cbn [autoscaling_prefix app version id detail_type source account_id time region resources detail].
    unfold build_autoscaling. struct_fields.
    destruct Htail as [->| ->]; [reflexivity|]. by erewrite defaulted_Some by reflexivity.
  - destruct Htail as [->| ->]; decide_by_eval.
  - intros k v f Hin Hf. destruct Htail as [->| ->].
    + rewrite app_nil_r in Hin. eapply autoscaling_encoded_checked; [|exact Hf].
      apply elem_of_app. by left.
    + apply elem_of_app in Hin as [Hin|Hin].
      * eapply autoscaling_encoded_checked; [|exact Hf]. apply elem_of_app. by left.
      * apply list_elem_of_singleton in Hin. injection Hin as -> ->.
        simpl in Hf. injection Hf as <-. reflexivity.
Qed.

End Theorems.

Section Detail.
Context {T1 Time : Type} `{!Deserialize T1, !Serialize T1, !Deserialize Time, !Serialize Time}.

Lemma autoscaling_decode_inv (o : list (string * Value.t)) (e : AutoScalingEvent T1 Time) :
  from_value (AutoScalingEvent T1 Time) (Value.Object o) = Ok e ->
  defaulted "detail" ∅ (deserialize_lambda_map (T := T1)) o = Ok (detail e).
Proof.
  intros Hd. cbn [from_value deserialize_autoscaling] in Hd.
  apply deserialize_struct_Ok_inv in Hd as (o' & seen & [= <-] & _ & Hb).
  unfold build_autoscaling in Hb. by result_inv.
Qed.

(** A decoded event has an empty [detail] map when the input has no
    [detail] key, or has it with [null]. *)
Lemma autoscaling_detail_default_inv (o : list (string * Value.t)) (e : AutoScalingEvent T1 Time) :
  from_value (AutoScalingEvent T1 Time) (Value.Object o) = Ok e ->
  obj_get "detail" o = None \/ obj_get "detail" o = Some Null_v ->
  detail e = ∅.
Proof.
  intros Hd%autoscaling_decode_inv Habs. unfold defaulted in Hd.
  destruct Habs as [Hn|Hn]; rewrite Hn in Hd; [|rewrite lambda_map_null in Hd]; congruence.
Qed.


(** A decoded event whose timestamp is absent cannot exist: an object
    the visitor accepts without a [time] key is rejected with serde's
    [missing field `time`] error, since every field declared before [time]
    has a default. *)
Theorem autoscaling_missing_time (o : list (string * Value.t)) seen :
  visit_map (autoscaling_fields (T1 := T1) (Time := Time)) o = Ok seen ->
  obj_get "time" o = None ->
  from_value (AutoScalingEvent T1 Time) (Value.Object o) = Err (missing_field "time").
Proof.
  intros Hv Ht. cbn [from_value deserialize_autoscaling deserialize_struct].
  rewrite Hv. cbn [and_then]. unfold build_autoscaling.
  visit_defaulted Hv. unfold required. by rewrite Ht.
Qed.

#[export] Instance build_autoscaling_proper :
  Proper (fields_agree (fs_name <$> autoscaling_fields (T1 := T1) (Time := Time)) ==> eq)
    (build_autoscaling (T1 := T1) (Time := Time)).
Proof. unfold build_autoscaling, autoscaling_fields. build_proper. Qed.

(** The envelope's decoder reads the object as a mapping: an accepted
    object whose entries are reordered is accepted and decodes to the same
    event. *)
Theorem autoscaling_decode_perm (o1 o2 : list (string * Value.t)) (e : AutoScalingEvent T1 Time) :
  o1 ≡ₚ o2 ->
  from_value (AutoScalingEvent T1 Time) (Value.Object o1) = Ok e ->
  from_value (AutoScalingEvent T1 Time) (Value.Object o2) = Ok e.
Proof. apply deserialize_struct_perm. apply _. Qed.
End Detail.

(** C17. With untyped detail values, the [detail] map of a decoded event is
    the map of the input's [detail] object when that object repeats no key:
    every provider key is kept with its value unchanged. *)
Theorem autoscaling_detail_entries {Time : Type} `{!Deserialize Time, !Serialize Time}
    (o d : list (string * Value.t)) (e : AutoScalingEvent Value.t Time) :
  from_value (AutoScalingEvent Value.t Time) (Value.Object o) = Ok e ->
  obj_get "detail" o = Some (Value.Object d) -> NoDup d.*1 ->
  detail e = list_to_map d /\ forall k, detail e !! k = obj_get k d.
Proof.
  intros Hd%autoscaling_decode_inv Hg Hnd. unfold defaulted in Hd.
  rewrite Hg, lambda_map_object_value in Hd by done. injection Hd as <-.
  split; [done | intros k; by rewrite obj_get_list_to_map].
Qed.

Section Encoding.
Context {T1 Time : Type} `{WfEncode T1} `{WfEncode Time}.

(** C18. The encoder emits a well-formed tree for every event: no object of
    the output repeats a key, the provider's [detail] map included, as long
    as the detail values and the timestamp encode to well-formed trees. *)
Theorem autoscaling_encode_wf (e : AutoScalingEvent T1 Time) :
  value_wf (to_value e) = true.
Proof.
  destruct e. cbn [to_value serialize_autoscaling version id detail_type source account_id
                   time region resources detail].
  struct_wf.
Qed.
End Encoding.

(** ** Concrete events (timestamps kept as their RFC 3339 text) *)

Definition launch_no_detail : list (string * Value.t) :=
  [("time", Value.String "2016-02-13T15:57:56Z"); ("resources", Value.Array [])].

Definition launch_event : AutoScalingEvent Value.t string :=
  {| version := None; id := None; detail_type := None; source := None; account_id := None;
     time := "2016-02-13T15:57:56Z"; region := None; resources := []; detail := ∅ |}.

Lemma autoscaling_detail_default_witness :
  from_value (AutoScalingEvent Value.t string)
    (Value.Object (autoscaling_prefix launch_event ++ [("detail", Null_v)])) =
  Ok {| version := version launch_event; id := id launch_event;
        detail_type := detail_type launch_event; source := source launch_event;
        account_id := account_id launch_event; time := time launch_event;
        region := region launch_event; resources := resources launch_event; detail := ∅ |}.
Proof. apply autoscaling_detail_default. right. reflexivity. Defined.

Lemma autoscaling_detail_default_inv_witness : detail launch_event = ∅.
Proof.
  apply (autoscaling_detail_default_inv launch_no_detail); [reflexivity | left; reflexivity].
Defined.

Lemma autoscaling_missing_time_witness :
  from_value (AutoScalingEvent Value.t string) (Value.Object [("version", Value.String "0")])
  = Err (missing_field "time").
Proof. by apply (autoscaling_missing_time _ ["version"]). Defined.

Definition launch_detail : list (string * Value.t) :=
  [("EC2InstanceId", Value.String "i-1234567890abcdef0")].

Definition launch_with_detail : list (string * Value.t) :=
  launch_no_detail ++ [("detail", Value.Object launch_detail)].

Lemma autoscaling_detail_entries_witness :
  detail {| version := None; id := None; detail_type := None; source := None; account_id := None;
            time := "2016-02-13T15:57:56Z"; region := None; resources := [];
            detail := list_to_map launch_detail |} = list_to_map launch_detail /\
  forall k, (list_to_map launch_detail : gmap string Value.t) !! k = obj_get k launch_detail.
Proof.
  apply (autoscaling_detail_entries (Time := string) launch_with_detail);
    [reflexivity | reflexivity | decide_by_eval].
Defined.

Lemma autoscaling_roundtrip_witness :
  from_value (AutoScalingEvent Value.t string) (to_value launch_event) = Ok launch_event.
Proof. apply autoscaling_roundtrip. Defined.

Lemma autoscaling_encode_wf_witness :
  value_wf (to_value ({| version := Some "0"; id := None; detail_type := None; source := None;
                         account_id := None; time := "2016-02-13T15:57:56Z"; region := None;
                         resources := ["arn:aws:autoscaling:us-east-1:123456789012:group"];
                         detail := {[ "StatusCode" := "InProgress" ]} |}
                      : AutoScalingEvent string string)) = true.
Proof. apply autoscaling_encode_wf. Defined.

Lemma autoscaling_decode_perm_witness :
  from_value (AutoScalingEvent Value.t string)
    (Value.Object (("detail", Value.Object launch_detail) :: launch_no_detail))
  = Ok {| version := None; id := None; detail_type := None; source := None; account_id := None;
          time := "2016-02-13T15:57:56Z"; region := None; resources := [];
          detail := list_to_map launch_detail |}.
Proof.
  apply (autoscaling_decode_perm launch_with_detail).
  - symmetry. apply Permutation_cons_append.
  - reflexivity.
Defined.
