(* ===== verification/Kinesis.v ===== *)
(** * Kinesis: the Kinesis stream events ([event/kinesis/event.rs])

    [KinesisEvent] is a list of [KinesisEventRecord]s under [Records]; each
    record carries optional metadata and a [KinesisRecord] whose
    [encryption_type] is the enum [KinesisEncryptionType] (wire names
    [NONE]/[KMS], default [None]) and whose [partition_key] and
    [sequence_number] default to the empty string.  The timestamp
    ([SecondTimestamp]) and payload ([Base64Data]) types of
    [crate::encodings] are abstract types with their serde impls. *)

From stdpp Require Import base list strings.
From Stdlib Require Import String.
From S2P Require Import Prelude Json Serde.

(** ** [KinesisEncryptionType] *)

Module KinesisEncryptionType.
Inductive t : Type :=
| None
| Kms.
End KinesisEncryptionType.

(** [#[serde(rename_all = "SCREAMING_SNAKE_CASE")]]. *)
Definition kinesis_encryption_variants : list string := ["NONE"; "KMS"].

(** [#[derive(Deserialize)]] on a unit-variant enum: a string names the
    variant; any other name is [unknown_variant]. *)
#[export] Instance deserialize_kinesis_encryption : Deserialize KinesisEncryptionType.t := {|
  from_value v :=
    match v with
    | Value.String s =>
        if String.eqb s "NONE" then Ok KinesisEncryptionType.None
        else if String.eqb s "KMS" then Ok KinesisEncryptionType.Kms
        else Err (unknown_variant s kinesis_encryption_variants)
    | _ => Err ExpectedEnum
    end |}.

#[export] Instance serialize_kinesis_encryption : Serialize KinesisEncryptionType.t := {|
  to_value t := match t with
                | KinesisEncryptionType.None => Value.String "NONE"
                | KinesisEncryptionType.Kms => Value.String "KMS"
                end |}.

(** ** Records *)

Section Records.
Context {SecondTimestamp Base64Data : Type}.

Record KinesisRecord : Type := {
  approximate_arrival_timestamp : SecondTimestamp;
  data : Base64Data;
  encryption_type : KinesisEncryptionType.t;
  partition_key : string;
  sequence_number : string;
  kinesis_schema_version : option string
}.

Record KinesisEventRecord : Type := {
  aws_region : option string;
  event_id : option string;
  event_name : option string;
  event_source : option string;
  event_source_arn : option string;
  event_version : option string;
  invoke_identity_arn : option string;
  kinesis : KinesisRecord
}.

Record KinesisEvent : Type := {
  records : list KinesisEventRecord
}.
End Records.
Arguments KinesisRecord : clear implicits.
Arguments KinesisEventRecord : clear implicits.
Arguments KinesisEvent : clear implicits.

(** [#[derive(PartialEq, Eq)]] on the enum and the three records. *)
#[export] Instance kinesis_encryption_eq_dec : EqDecision KinesisEncryptionType.t.
Proof. solve_decision. Defined.

Section Equality.
Context {SecondTimestamp Base64Data : Type} `{EqDecision SecondTimestamp} `{EqDecision Base64Data}.
#[export] Instance kinesis_record_eq_dec : EqDecision (KinesisRecord SecondTimestamp Base64Data).
Proof. solve_decision. Defined.
#[export] Instance kinesis_event_record_eq_dec :
  EqDecision (KinesisEventRecord SecondTimestamp Base64Data).
Proof. solve_decision. Defined.
#[export] Instance kinesis_event_eq_dec : EqDecision (KinesisEvent SecondTimestamp Base64Data).
Proof. solve_decision. Defined.
End Equality.

Section Serde_impls.
Context {SecondTimestamp Base64Data : Type}.
Context `{!Deserialize SecondTimestamp, !Serialize SecondTimestamp}.
Context `{!Deserialize Base64Data, !Serialize Base64Data}.

Notation Record_ := (KinesisRecord SecondTimestamp Base64Data).
Notation EventRecord := (KinesisEventRecord SecondTimestamp Base64Data).
Notation Event := (KinesisEvent SecondTimestamp Base64Data).

(** [KinesisRecord]: [rename_all = "camelCase"]; [#[serde(default)]] on the
    last four fields. *)
Definition kinesis_record_fields : list FieldSpec :=
  [field_spec "approximateArrivalTimestamp" (from_value SecondTimestamp);
   field_spec "data" (from_value Base64Data);
   field_spec "encryptionType" (from_value KinesisEncryptionType.t);
   field_spec "partitionKey" (from_value string);
   field_spec "sequenceNumber" (from_value string);
   field_spec "kinesisSchemaVersion" (from_value (option string))].

Definition build_kinesis_record (o : list (string * Value.t)) : Result Record_ DeError :=
  approximate_arrival_timestamp <-
    required "approximateArrivalTimestamp" (from_value SecondTimestamp) o ;;
  data <- required "data" (from_value Base64Data) o ;;
  encryption_type <-
    defaulted "encryptionType" KinesisEncryptionType.None (from_value KinesisEncryptionType.t) o ;;
  partition_key <- defaulted "partitionKey" EmptyString (from_value string) o ;;
  sequence_number <- defaulted "sequenceNumber" EmptyString (from_value string) o ;;
  kinesis_schema_version <- defaulted "kinesisSchemaVersion" None (from_value (option string)) o ;;
  Ok {| approximate_arrival_timestamp := approximate_arrival_timestamp; data := data;
        encryption_type := encryption_type; partition_key := partition_key;
        sequence_number := sequence_number; kinesis_schema_version := kinesis_schema_version |}.

#[export] Instance deserialize_kinesis_record : Deserialize Record_ := {|
  from_value := deserialize_struct kinesis_record_fields build_kinesis_record |}.

#[export] Instance serialize_kinesis_record : Serialize Record_ := {|
  to_value r := Value.Object
    [("approximateArrivalTimestamp", to_value (approximate_arrival_timestamp r));
     ("data", to_value (data r));
     ("encryptionType", to_value (encryption_type r));
     ("partitionKey", to_value (partition_key r));
     ("sequenceNumber", to_value (sequence_number r));
     ("kinesisSchemaVersion", to_value (kinesis_schema_version r))] |}.

(** [KinesisEventRecord]: camelCase with the renames [eventID] and
    [eventSourceARN]; every [Option] has [#[serde(default)]]. *)
Definition kinesis_event_record_fields : list FieldSpec :=
  [field_spec "awsRegion" (from_value (option string));
   field_spec "eventID" (from_value (option string));
   field_spec "eventName" (from_value (option string));
   field_spec "eventSource" (from_value (option string));
   field_spec "eventSourceARN" (from_value (option string));
   field_spec "eventVersion" (from_value (option string));
   field_spec "invokeIdentityArn" (from_value (option string));
   field_spec "kinesis" (from_value Record_)].

Definition build_kinesis_event_record (o : list (string * Value.t)) : Result EventRecord DeError :=
  aws_region <- defaulted "awsRegion" None (from_value (option string)) o ;;
  event_id <- defaulted "eventID" None (from_value (option string)) o ;;
  event_name <- defaulted "eventName" None (from_value (option string)) o ;;
  event_source <- defaulted "eventSource" None (from_value (option string)) o ;;
  event_source_arn <- defaulted "eventSourceARN" None (from_value (option string)) o ;;
  event_version <- defaulted "eventVersion" None (from_value (option string)) o ;;
  invoke_identity_arn <- defaulted "invokeIdentityArn" None (from_value (option string)) o ;;
  kinesis <- required "kinesis" (from_value Record_) o ;;
  Ok {| aws_region := aws_region; event_id := event_id; event_name := event_name;
        event_source := event_source; event_source_arn := event_source_arn;
        event_version := event_version; invoke_identity_arn := invoke_identity_arn;
        kinesis := kinesis |}.

#[export] Instance deserialize_kinesis_event_record : Deserialize EventRecord := {|
  from_value := deserialize_struct kinesis_event_record_fields build_kinesis_event_record |}.

#[export] Instance serialize_kinesis_event_record : Serialize EventRecord := {|
  to_value r := Value.Object
    [("awsRegion", to_value (aws_region r)); ("eventID", to_value (event_id r));
     ("eventName", to_value (event_name r)); ("eventSource", to_value (event_source r));
     ("eventSourceARN", to_value (event_source_arn r));
     ("eventVersion", to_value (event_version r));
     ("invokeIdentityArn", to_value (invoke_identity_arn r));
     ("kinesis", to_value (kinesis r))] |}.

(** [KinesisEvent]: the single field renamed [Records]. *)
Definition kinesis_event_fields : list FieldSpec :=
  [field_spec "Records" (from_value (list EventRecord))].

Definition build_kinesis_event (o : list (string * Value.t)) : Result Event DeError :=
  records <- required "Records" (from_value (list EventRecord)) o ;;
  Ok {| records := records |}.

#[export] Instance deserialize_kinesis_event : Deserialize Event := {|
  from_value := deserialize_struct kinesis_event_fields build_kinesis_event |}.

#[export] Instance serialize_kinesis_event : Serialize Event := {|
  to_value e := Value.Object [("Records", to_value (records e))] |}.
End Serde_impls.

(** ** The time-window events: two flattened structs *)

Section TimeWindowRecords.
Context {SecondTimestamp Base64Data TimeWindowProperties TimeWindowEventResponseProperties : Type}.

Record KinesisTimeWindowEvent : Type := {
  kinesis_event : KinesisEvent SecondTimestamp Base64Data;
  time_window_properties : TimeWindowProperties
}.

Record KinesisTimeWindowEventResponse : Type := {
  time_window_event_response_properties : TimeWindowEventResponseProperties
}.
End TimeWindowRecords.
Arguments KinesisTimeWindowEvent : clear implicits.
Arguments KinesisTimeWindowEventResponse : clear implicits.

Section TimeWindow_impls.
Context {SecondTimestamp Base64Data TimeWindowProperties TimeWindowEventResponseProperties : Type}.
Context `{!Deserialize SecondTimestamp, !Serialize SecondTimestamp}.
Context `{!Deserialize Base64Data, !Serialize Base64Data}.
Context `{!Deserialize TimeWindowProperties, !Serialize TimeWindowProperties,
          !StructFields TimeWindowProperties}.
Context `{!Deserialize TimeWindowEventResponseProperties, !Serialize TimeWindowEventResponseProperties,
          !StructFields TimeWindowEventResponseProperties}.

Notation Event := (KinesisEvent SecondTimestamp Base64Data).
Notation WindowEvent :=
  (KinesisTimeWindowEvent SecondTimestamp Base64Data TimeWindowProperties).
Notation WindowResponse := (KinesisTimeWindowEventResponse TimeWindowEventResponseProperties).

(** The [FIELDS] of [KinesisEvent]. *)
#[export] Instance struct_fields_kinesis_event : StructFields Event := {|
  struct_fields := map fs_name kinesis_event_fields |}.

(** [#[derive(Deserialize)]] with both fields [#[serde(flatten)]] (their
    [rename]s have no effect): [KinesisEvent] takes its entries first, the
    time-window properties decode from what is left. *)
Definition deserialize_time_window_event (v : Value.t) : Result WindowEvent DeError :=
  match v with
  | Value.Object o =>
      let '(mine, rest) := flat_take (struct_fields (T := Event)) o in
      kinesis_event <- from_value Event (Value.Object mine) ;;
      let '(window, _) := flat_take (struct_fields (T := TimeWindowProperties)) rest in
      time_window_properties <- from_value TimeWindowProperties (Value.Object window) ;;
      Ok {| kinesis_event := kinesis_event; time_window_properties := time_window_properties |}
  | _ => Err ExpectedMap
  end.

#[export] Instance deserialize_kinesis_time_window_event : Deserialize WindowEvent := {|
  from_value := deserialize_time_window_event |}.

(** [#[derive(Serialize)]]: both structs' entries in one map. *)
#[export] Instance serialize_kinesis_time_window_event : Serialize WindowEvent := {|
  to_value e := Value.Object (flat_entries (to_value (kinesis_event e)) ++
                              flat_entries (to_value (time_window_properties e))) |}.

Definition deserialize_time_window_response (v : Value.t) : Result WindowResponse DeError :=
  match v with
  | Value.Object o =>
      let '(mine, _) := flat_take (struct_fields (T := TimeWindowEventResponseProperties)) o in
      props <- from_value TimeWindowEventResponseProperties (Value.Object mine) ;;
      Ok {| time_window_event_response_properties := props |}
  | _ => Err ExpectedMap
  end.

#[export] Instance deserialize_kinesis_time_window_response : Deserialize WindowResponse := {|
  from_value := deserialize_time_window_response |}.

#[export] Instance serialize_kinesis_time_window_response : Serialize WindowResponse := {|
  to_value r := Value.Object (flat_entries (to_value (time_window_event_response_properties r))) |}.
End TimeWindow_impls.

(** ** Theorems *)

(** C19. The encryption type decodes exactly from its two wire names, each
    to its own variant: a value decodes to [t] iff it is [t]'s encoding. *)
Theorem kinesis_encryption_decode_iff (v : Value.t) (t : KinesisEncryptionType.t) :
  from_value KinesisEncryptionType.t v = Ok t <-> v = to_value t.
Proof.
  split; [|intros ->; by destruct t].
  destruct v as [| s | |]; simpl; try discriminate.
  destruct (String.eqb_spec s "NONE") as [->|]; [intros [= <-]; done|].
  destruct (String.eqb_spec s "KMS") as [->|]; [intros [= <-]; done | discriminate].
Qed.

#[export] Instance codec_kinesis_encryption : Codec KinesisEncryptionType.t.
Proof. constructor. intros []; reflexivity. Qed.

Section Theorems.
Context {SecondTimestamp Base64Data : Type} `{Codec SecondTimestamp} `{Codec Base64Data}.

Notation Record_ := (KinesisRecord SecondTimestamp Base64Data).
Notation EventRecord := (KinesisEventRecord SecondTimestamp Base64Data).
Notation Event := (KinesisEvent SecondTimestamp Base64Data).

#[export] Instance codec_kinesis_record : Codec Record_.
Proof.
  constructor. intros [ts d enc pk sn ver].
  cbn [from_value deserialize_kinesis_record to_value serialize_kinesis_record
       approximate_arrival_timestamp data encryption_type partition_key sequence_number
       kinesis_schema_version].
  struct_encoded. unfold build_kinesis_record. struct_fields. reflexivity.
Qed.

#[export] Instance codec_kinesis_event_record : Codec EventRecord.
Proof.
  constructor. intros [reg eid en es earn ev iia k].
  cbn [from_value deserialize_kinesis_event_record to_value serialize_kinesis_event_record
       aws_region event_id event_name event_source event_source_arn event_version
       invoke_identity_arn kinesis].
  struct_encoded. unfold build_kinesis_event_record. struct_fields. reflexivity.
Qed.

#[export] Instance codec_kinesis_event : Codec (KinesisEvent SecondTimestamp Base64Data).
Proof.
  constructor. intros [rs].
  cbn [from_value deserialize_kinesis_event to_value serialize_kinesis_event records].
  struct_encoded. unfold build_kinesis_event. struct_fields. reflexivity.
Qed.

(** C20. Encoding a Kinesis event and decoding the result gives the event
    back, whenever the timestamp and payload encodings round-trip (the
    tests [example_kinesis_event] and [example_kinesis_event_encrypted]). *)
Theorem kinesis_event_roundtrip (e : KinesisEvent SecondTimestamp Base64Data) :
  from_value (KinesisEvent SecondTimestamp Base64Data) (to_value e) = Ok e.
Proof. apply codec_roundtrip. Qed.
End Theorems.

Lemma key_in_single_false (ks : list string) (k r : string) :
  key_in ks k = true -> key_in ks r = false -> key_in [r] k = false.
Proof.
  unfold key_in. simpl. rewrite orb_false_r.
  destruct (String.eqb_spec k r) as [->|]; congruence.
Qed.

Section TimeWindowTheorems.
Context {SecondTimestamp Base64Data TimeWindowProperties TimeWindowEventResponseProperties : Type}.
Context `{Codec SecondTimestamp} `{Codec Base64Data}.
Context `{Codec TimeWindowProperties} `{!StructFields TimeWindowProperties}.
Context `{!FlatStruct TimeWindowProperties}.

(** C22. Encoding a time-window event and decoding the result gives the
    event back, provided the time-window properties encode to a map under
    keys they declare and do not declare [Records]: [KinesisEvent] takes
    back exactly its [Records] entry and the properties the rest. *)
Theorem kinesis_time_window_roundtrip
    (e : KinesisTimeWindowEvent SecondTimestamp Base64Data TimeWindowProperties) :
  key_in (struct_fields (T := TimeWindowProperties)) "Records" = false ->
  from_value (KinesisTimeWindowEvent SecondTimestamp Base64Data TimeWindowProperties) (to_value e)
  = Ok e.
Proof.
  intros Hdisj. destruct e as [[rs] tw].
  cbn [from_value deserialize_kinesis_time_window_event to_value
       serialize_kinesis_time_window_event kinesis_event time_window_properties
       serialize_kinesis_event records flat_entries app deserialize_time_window_event].
  pose proof (flat_keys_declared tw) as Hk.
  assert (Hnot : Forall (fun kv => key_in (struct_fields (T := KinesisEvent SecondTimestamp Base64Data)) kv.1 = false)
                   (flat_entries (to_value tw))).
  { eapply Forall_impl; [exact Hk|]. intros kv Hkv. exact (key_in_single_false _ _ "Records" Hkv Hdisj). }
  change (("Records", to_value rs) :: flat_entries (to_value tw))
    with ([("Records", to_value rs)] ++ flat_entries (to_value tw)).
  rewrite flat_take_app, (flat_take_undeclared _ (flat_entries (to_value tw)) Hnot).
  rewrite (flat_take_declared _ [("Records", to_value rs)]) by (repeat constructor).
  cbn [fst snd app].
  replace (from_value (KinesisEvent SecondTimestamp Base64Data) (Value.Object [("Records", to_value rs)]))
    with (@Ok _ DeError {| records := rs |}).
  2:{ symmetry. cbn [from_value deserialize_kinesis_event].
      struct_encoded. unfold build_kinesis_event. struct_fields. reflexivity. }
  cbn [and_then]. rewrite flat_take_declared by done. cbn [and_then].
  rewrite <- flat_object, codec_roundtrip. reflexivity.
Qed.

Context `{Codec TimeWindowEventResponseProperties} `{!StructFields TimeWindowEventResponseProperties}.
Context `{!FlatStruct TimeWindowEventResponseProperties}.

(** Encoding a time-window response and decoding the result gives the
    response back, provided its properties encode to a map under keys they
    declare. *)
Theorem kinesis_time_window_response_roundtrip
    (r : KinesisTimeWindowEventResponse TimeWindowEventResponseProperties) :
  from_value (KinesisTimeWindowEventResponse TimeWindowEventResponseProperties) (to_value r) = Ok r.
Proof.
  destruct r as [p].
  cbn [from_value deserialize_kinesis_time_window_response to_value
       serialize_kinesis_time_window_response time_window_event_response_properties
       deserialize_time_window_response].
  rewrite (flat_take_declared _ _ (flat_keys_declared p)). cbn [and_then].
  rewrite <- flat_object, codec_roundtrip. reflexivity.
Qed.
End TimeWindowTheorems.

Section Defaults.
Context {SecondTimestamp Base64Data : Type}.
Context `{!Deserialize SecondTimestamp, !Serialize SecondTimestamp}.
Context `{!Deserialize Base64Data, !Serialize Base64Data}.

End Defaults.

(** ** Concrete records (timestamps as the untyped number, payloads as their
    base64 text) *)

Abbreviation UntypedKinesisRecord := (KinesisRecord Value.t string).


Definition kinesis_record_minimal_decoded : UntypedKinesisRecord :=
  {| approximate_arrival_timestamp := Value.Static (U64 1428537600);
     data := "SGVsbG8sIHRoaXMgaXMgYSB0ZXN0IDEyMy4=";
     encryption_type := KinesisEncryptionType.None;
     partition_key := EmptyString; sequence_number := EmptyString;
     kinesis_schema_version := None |}.


Definition kinesis_event_encrypted : KinesisEvent Value.t string :=
  {| records := [{| aws_region := Some "us-east-1"; event_id := Some "shardId-000000000000:4959";
                    event_name := Some "aws:kinesis:record"; event_source := Some "aws:kinesis";
                    event_source_arn := Some "arn:aws:kinesis:us-east-1:123456789012:stream/simple";
                    event_version := Some "1.0"; invoke_identity_arn := None;
                    kinesis := {| kinesis_record_minimal_decoded with
                                  encryption_type := KinesisEncryptionType.Kms;
                                  partition_key := "partitionKey-03" |} |}] |}.

Lemma kinesis_event_roundtrip_witness :
  from_value (KinesisEvent Value.t string) (to_value kinesis_event_encrypted)
  = Ok kinesis_event_encrypted.
Proof. apply kinesis_event_roundtrip. Defined.

(** A Kinesis record flattened in place of the time-window structs, whose
    definitions lie outside these sources: a concrete struct with the
    properties the round trips ask of them. *)
#[export] Instance struct_fields_untyped_record : StructFields UntypedKinesisRecord := {|
  struct_fields := map fs_name kinesis_record_fields |}.

#[export] Instance flat_untyped_record : FlatStruct UntypedKinesisRecord.
Proof. split; intros x; [reflexivity | repeat constructor]. Qed.

Definition window_event : KinesisTimeWindowEvent Value.t string UntypedKinesisRecord :=
  {| kinesis_event := kinesis_event_encrypted;
     time_window_properties := kinesis_record_minimal_decoded |}.

Lemma kinesis_time_window_roundtrip_witness :
  from_value (KinesisTimeWindowEvent Value.t string UntypedKinesisRecord) (to_value window_event)
  = Ok window_event.
Proof.
  apply (kinesis_time_window_roundtrip (TimeWindowProperties := UntypedKinesisRecord) window_event).
  reflexivity.
Defined.

Lemma kinesis_time_window_response_roundtrip_witness :
  from_value (KinesisTimeWindowEventResponse UntypedKinesisRecord)
    (to_value {| time_window_event_response_properties := kinesis_record_minimal_decoded |})
  = Ok {| time_window_event_response_properties := kinesis_record_minimal_decoded |}.
Proof.
  exact (kinesis_time_window_response_roundtrip
           (TimeWindowEventResponseProperties := UntypedKinesisRecord) _).
Defined.
