(* ===== verification/Probe.v ===== *)
(** * Probe: the cost of the dispatcher's structural probes

    Lines 43-66 of [deserializer_simd_json.rs] run at most eight lookups on
    the parsed tree before any decode.  Every lookup is simd_json's
    [Object::get] on the tape: a scan of the object's entries that compares
    keys until the first match.  This file replays those probes in a small
    cost monad ([Cost]: a result and the number of key comparisons),
    evaluating exactly what the code evaluates:
    - the tuple of line 44 evaluates both [get_object] and [contains_key];
    - each later block looks [request_context] up again;
    - a block that is not compiled in costs nothing.
    The theorems show three things:
    - the instrumented probes select the branch [deserialize] takes;
    - their cost is bounded by the width of the top-level object and of
      [request_context], whatever the size of the rest of the document;
    - on an unrecognised payload the top-level scan is complete, so the cost
      grows with the number of top-level keys, where the spec asks for
      O(depth of path). *)

From stdpp Require Import base list strings.
From Stdlib Require Import String.
From S2P Require Import Prelude Json Serde Deserializer.

(** ** The cost monad *)

Definition Cost (A : Type) : Type := A * nat.

Definition ret {A} (a : A) : Cost A := (a, 0).

Definition bind_c {A B} (m : Cost A) (k : A -> Cost B) : Cost B :=
  ((k m.1).1, m.2 + (k m.1).2).

Declare Scope cost_scope.
Delimit Scope cost_scope with cost.
Notation "x <-$ m ;; k" := (bind_c m (fun x => k))
  (at level 100, m at next level, right associativity) : cost_scope.
Open Scope cost_scope.

(** ** The accessors, counting key comparisons *)

(** [Object::get] on the tape: one comparison per entry scanned. *)
Fixpoint obj_get_c (k : string) (o : list (string * Value.t)) : Cost (option Value.t) :=
  match o with
  | [] => ret None
  | (k', v) :: o' =>
      if String.eqb k' k then (Some v, 1) else let (r, n) := obj_get_c k o' in (r, S n)
  end.

Definition get_c (k : string) (v : Value.t) : Cost (option Value.t) :=
  match v with
  | Value.Object o => obj_get_c k o
  | _ => ret None
  end.

Definition get_object_c (k : string) (v : Value.t) : Cost (option (list (string * Value.t))) :=
  w <-$ get_c k v ;; ret (match w with Some w => as_object w | None => None end).

Definition contains_key_c (k : string) (v : Value.t) : Cost bool :=
  w <-$ get_c k v ;; ret (is_some w).

(** ** The probes of lines 43-66 *)

(** Line 44 builds the tuple [(v.get_object(..), v.contains_key(..))]
    before matching it: both lookups run. *)
Definition probe_rest_c (v : Value.t) : Cost bool :=
  rc <-$ get_object_c "request_context" v ;;
  hm <-$ contains_key_c "http_method" v ;;
  match rc, hm with
  | Some rc, true => h <-$ obj_get_c "http" rc ;; ret (is_none h)
  | _, _ => ret false
  end.

Definition probe_rc_c (key : string) (v : Value.t) : Cost bool :=
  rc <-$ get_object_c "request_context" v ;;
  match rc with
  | Some rc => h <-$ obj_get_c key rc ;; ret (is_some h)
  | None => ret false
  end.

Definition probe_http_c (v : Value.t) : Cost bool := probe_rc_c "http" v.
Definition probe_alb_c (v : Value.t) : Cost bool := probe_rc_c "elb" v.
Definition probe_websocket_c (v : Value.t) : Cost bool := contains_key_c "connected_at" v.

(** The branch of lines 43-75 the code takes. *)
Inductive Choice : Type := CRest | CHttp | CAlb | CWebSocket | CNone.

(** A block under [#[cfg(feature)]]: absent from the build, it costs nothing. *)
Definition cfg_c (flag : bool) (probe : Cost bool) : Cost bool :=
  if flag then probe else ret false.

Definition select_c (f : Features) (v : Value.t) : Cost Choice :=
  b1 <-$ cfg_c (apigw_rest f) (probe_rest_c v) ;;
  if b1 then ret CRest else
  b2 <-$ cfg_c (apigw_http f) (probe_http_c v) ;;
  if b2 then ret CHttp else
  b3 <-$ cfg_c (alb f) (probe_alb_c v) ;;
  if b3 then ret CAlb else
  b4 <-$ cfg_c (apigw_websockets f) (probe_websocket_c v) ;;
  if b4 then ret CWebSocket else ret CNone.

Section Run.
Context {ApiGatewayProxyRequest ApiGatewayV2httpRequest : Type}.
Context {AlbTargetGroupRequest ApiGatewayWebsocketProxyRequest : Type}.
Context `{!Deserialize ApiGatewayProxyRequest, !Deserialize ApiGatewayV2httpRequest}.
Context `{!Deserialize AlbTargetGroupRequest, !Deserialize ApiGatewayWebsocketProxyRequest}.

Notation Req := (@LambdaRequest ApiGatewayProxyRequest ApiGatewayV2httpRequest
                   AlbTargetGroupRequest ApiGatewayWebsocketProxyRequest).

(** The body of the branch taken: a decode, or the fallback of lines 70-75. *)
Definition run_choice (f : Features) (data : string) (v : Value.t) (c : Choice)
    : Result Req DeError :=
  match c with
  | CRest => decode_as ApiGatewayV1 v
  | CHttp => decode_as ApiGatewayV2 v
  | CAlb => decode_as Alb v
  | CWebSocket => decode_as WebSocket v
  | CNone => if pass_through f then Ok (PassThrough data) else Err (custom ERROR_CONTEXT)
  end.
End Run.

(** The sizes the cost is measured against. *)
Definition width (v : Value.t) : nat :=
  match as_object v with Some o => List.length o | None => 0 end.

Definition rc_width (v : Value.t) : nat :=
  match get_object "request_context" v with Some rc => List.length rc | None => 0 end.

(** ** The instrumented accessors compute the accessors *)

Lemma obj_get_c_fst k o : (obj_get_c k o).1 = obj_get k o.
Proof.
  induction o as [|[k' w] o IH]; simpl; [done|].
  destruct (String.eqb k' k); [done|]. destruct (obj_get_c k o); exact IH.
Qed.

Lemma obj_get_c_le k o : (obj_get_c k o).2 <= List.length o.
Proof.
  induction o as [|[k' w] o IH]; simpl; [lia|].
  destruct (String.eqb k' k); simpl; [lia|]. destruct (obj_get_c k o); simpl in *; lia.
Qed.

(** A key that is absent is compared against every entry. *)
Lemma obj_get_c_miss k o : obj_get k o = None -> (obj_get_c k o).2 = List.length o.
Proof.
  induction o as [|[k' w] o IH]; simpl; [done|].
  destruct (String.eqb k' k); simpl; [done|]. intros H. destruct (obj_get_c k o); simpl in *; auto.
Qed.

Lemma get_c_fst k v : (get_c k v).1 = get k v.
Proof. destruct v; [done..|apply obj_get_c_fst]. Qed.

Lemma get_c_le k v : (get_c k v).2 <= width v.
Proof. destruct v; simpl; [lia..|apply obj_get_c_le]. Qed.

Lemma get_object_c_fst k v : (get_object_c k v).1 = get_object k v.
Proof. unfold get_object_c, bind_c, get_object. simpl. by rewrite get_c_fst. Qed.

Lemma contains_key_c_fst k v : (contains_key_c k v).1 = contains_key k v.
Proof. unfold contains_key_c, bind_c, contains_key. simpl. rewrite get_c_fst. by destruct (get k v). Qed.

Lemma probe_rest_c_fst v : (probe_rest_c v).1 = is_apigw_rest v.
Proof.
  unfold probe_rest_c, bind_c, is_apigw_rest. cbn -[get_object_c contains_key_c obj_get_c].
  rewrite get_object_c_fst, contains_key_c_fst.
  destruct (get_object "request_context" v), (contains_key "http_method" v);
    cbn -[obj_get_c]; try done.
  by rewrite obj_get_c_fst.
Qed.

Lemma probe_rc_c_fst key v :
  (probe_rc_c key v).1 =
  match get_object "request_context" v with Some rc => is_some (obj_get key rc) | None => false end.
Proof.
  unfold probe_rc_c, bind_c. cbn -[get_object_c obj_get_c]. rewrite get_object_c_fst.
  destruct (get_object "request_context" v); cbn -[obj_get_c]; [by rewrite obj_get_c_fst | done].
Qed.

Lemma cfg_c_fst flag p : (cfg_c flag p).1 = flag && p.1.
Proof. by destruct flag. Qed.

Lemma cfg_c_snd flag p : (cfg_c flag p).2 <= p.2.
Proof. destruct flag; simpl; lia. Qed.

#[export] Hint Rewrite obj_get_c_fst get_c_fst get_object_c_fst contains_key_c_fst
  probe_rest_c_fst probe_rc_c_fst cfg_c_fst : probe_rw.

Lemma get_object_c_snd k v : (get_object_c k v).2 = (get_c k v).2.
Proof. unfold get_object_c, bind_c. cbn -[get_c]. lia. Qed.

Lemma contains_key_c_snd k v : (contains_key_c k v).2 = (get_c k v).2.
Proof. unfold contains_key_c, bind_c. cbn -[get_c]. lia. Qed.

Lemma rc_scan_le key v rc :
  get_object "request_context" v = Some rc -> (obj_get_c key rc).2 <= rc_width v.
Proof. unfold rc_width. intros ->. apply obj_get_c_le. Qed.

(** ** The selection: the instrumented probes choose the code's branch *)

Lemma select_c_fst f v :
  (select_c f v).1 =
  if apigw_rest f && is_apigw_rest v then CRest
  else if apigw_http f && is_apigw_http v then CHttp
  else if alb f && is_alb v then CAlb
  else if apigw_websockets f && is_websocket v then CWebSocket
  else CNone.
Proof.
  unfold select_c, bind_c. cbn -[cfg_c probe_rest_c probe_http_c probe_alb_c probe_websocket_c].
  unfold probe_http_c, probe_alb_c, probe_websocket_c.
  autorewrite with probe_rw. unfold is_apigw_http, is_alb, is_websocket.
  by repeat case_match.
Qed.

(** Every probe that runs is paid for; a selection stops the later ones. *)
Lemma select_c_snd_le f v :
  (select_c f v).2 <=
  (cfg_c (apigw_rest f) (probe_rest_c v)).2 + (cfg_c (apigw_http f) (probe_http_c v)).2 +
  (cfg_c (alb f) (probe_alb_c v)).2 + (cfg_c (apigw_websockets f) (probe_websocket_c v)).2.
Proof.
  unfold select_c, bind_c. cbn -[cfg_c probe_rest_c probe_http_c probe_alb_c probe_websocket_c].
  repeat case_match; simpl; lia.
Qed.

Lemma select_c_none f v :
  (select_c f v).1 = CNone ->
  (cfg_c (apigw_websockets f) (probe_websocket_c v)).1 = false /\
  (cfg_c (apigw_websockets f) (probe_websocket_c v)).2 <= (select_c f v).2.
Proof.
  unfold select_c, bind_c. cbn -[cfg_c probe_rest_c probe_http_c probe_alb_c probe_websocket_c].
  repeat case_match; simpl; intros; try discriminate; split; [done | lia].
Qed.

Lemma probe_rest_c_snd v : (probe_rest_c v).2 <= 2 * width v + rc_width v.
Proof.
  unfold probe_rest_c, bind_c. cbn -[get_object_c contains_key_c obj_get_c].
  rewrite get_object_c_fst, contains_key_c_fst, get_object_c_snd, contains_key_c_snd.
  pose proof (get_c_le "request_context" v). pose proof (get_c_le "http_method" v).
  destruct (get_object "request_context" v) as [rc|] eqn:Hrc, (contains_key "http_method" v);
    cbn -[obj_get_c]; try lia.
  pose proof (rc_scan_le "http" v rc Hrc). lia.
Qed.

Lemma probe_rc_c_snd key v : (probe_rc_c key v).2 <= width v + rc_width v.
Proof.
  unfold probe_rc_c, bind_c. cbn -[get_object_c obj_get_c].
  rewrite get_object_c_fst, get_object_c_snd. pose proof (get_c_le "request_context" v).
  destruct (get_object "request_context" v) as [rc|] eqn:Hrc; cbn -[obj_get_c]; [|lia].
  pose proof (rc_scan_le key v rc Hrc). lia.
Qed.

Section Selection.
Context {ApiGatewayProxyRequest ApiGatewayV2httpRequest : Type}.
Context {AlbTargetGroupRequest ApiGatewayWebsocketProxyRequest : Type}.
Context `{!Deserialize ApiGatewayProxyRequest, !Deserialize ApiGatewayV2httpRequest}.
Context `{!Deserialize AlbTargetGroupRequest, !Deserialize ApiGatewayWebsocketProxyRequest}.

Notation Req := (@LambdaRequest ApiGatewayProxyRequest ApiGatewayV2httpRequest
                   AlbTargetGroupRequest ApiGatewayWebsocketProxyRequest).

(** The branch the instrumented probes select, run, is the dispatcher. *)
Lemma run_choice_select_c (f : Features) (data : string) (v : Value.t) :
  (run_choice f data v (select_c f v).1 : Result Req DeError) = deserialize f data v.
Proof.
  rewrite select_c_fst. unfold deserialize.
  by repeat (case_match; [reflexivity|]).
Qed.

End Selection.

(** C23. The probes cost at most five scans of the top-level object and
    three of [request_context]: the number of key comparisons before any
    decode is bounded by the widths of those two objects, whatever the
    size or depth of the rest of the payload. *)
Theorem select_c_cost_bound (f : Features) (v : Value.t) :
  (select_c f v).2 <= 5 * width v + 3 * rc_width v.
Proof.
  pose proof (select_c_snd_le f v).
  pose proof (probe_rest_c_snd v). pose proof (probe_rc_c_snd "http" v).
  pose proof (probe_rc_c_snd "elb" v). pose proof (get_c_le "connected_at" v).
  pose proof (cfg_c_snd (apigw_rest f) (probe_rest_c v)).
  pose proof (cfg_c_snd (apigw_http f) (probe_http_c v)).
  pose proof (cfg_c_snd (alb f) (probe_alb_c v)).
  pose proof (cfg_c_snd (apigw_websockets f) (probe_websocket_c v)).
  unfold probe_http_c, probe_alb_c, probe_websocket_c in *.
  rewrite contains_key_c_snd in *. lia.
Qed.

(** C24. On a payload no variant recognises, a build with WebSocket support
    compares [connected_at] against every top-level key: the probe's cost
    is at least the number of top-level entries, not O(depth of path) as
    the spec's probe contract asks. *)
Theorem select_c_unmatched_scans_all (f : Features) (v : Value.t) :
  (select_c f v).1 = CNone -> apigw_websockets f = true ->
  width v <= (select_c f v).2.
Proof.
  intros Hn Hws. destruct (select_c_none f v Hn) as [Hmiss Hle].
  rewrite Hws in Hmiss, Hle. unfold probe_websocket_c in Hmiss, Hle. cbn [cfg_c] in Hmiss, Hle.
  rewrite contains_key_c_fst in Hmiss. rewrite contains_key_c_snd in Hle.
  unfold contains_key in Hmiss. destruct v as [| | |o]; [cbn [width as_object]; lia..|].
  cbn [get] in Hmiss. cbn [get_c] in Hle. cbn [width as_object].
  destruct (obj_get "connected_at" o) eqn:E; [done|].
  rewrite obj_get_c_miss in Hle by done. lia.
Qed.

(** ** Concrete payloads *)

(** Scenario A spelled with the wire name [requestContext]: no variant
    recognises it, and every probe scans the whole top-level object. *)
Lemma select_c_unmatched_scans_all_witness :
  width payload_camel_http <= (select_c all_variants payload_camel_http).2.
Proof. apply select_c_unmatched_scans_all; reflexivity. Defined.

(** The REST block's tuple scans the single top-level entry twice (two
    comparisons, [http_method] missing); the HTTP block scans it again and
    finds [http] at the first entry of [request_context] (two more). *)
Example select_c_snake_http_cost :
  select_c all_variants payload_snake_http = (CHttp, 4).
Proof. reflexivity. Qed.
