(* ===== verification/Tape.v ===== *)
(** * Tape: simd_json's tape, the flat node array the dispatcher reads

    [d.into_tape()] (line 40 of [deserializer_simd_json.rs]) hands the code
    simd_json's tape: the parsed document as one array of [Node]s in
    document order.  A string or a scalar is one node.  An array or an
    object is a header node carrying its number of elements ([len]) and the
    number of nodes its body occupies ([count]), followed by that body: the
    elements, or for an object each key as a string node followed by its
    value.  [t.as_value()] (line 41) views the whole tape as the root value,
    and every probe and decode of the function walks this array.

    The rest of the development reasons on the tree [Value.t]; this file
    shows the tree is a faithful abstraction of the tape:
    - [flatten] lays a tree out as simd_json's parser does;
    - [read_value] walks a tape back into a tree, with fuel, and provably
      never needs more fuel than one more than the tape's length;
    - reading the layout of a tree gives the tree back, whatever follows it
      on the tape;
    - the tape's [Object::get] skips each value in one step using the
      header's [count], so it returns the layout of the tree lookup's result
      after exactly the key comparisons [Probe] counts;
    - [as_value] is line 41: the root read with that fuel, so it always
      terminates;
    - [tape_select] is the probe sequence of lines 43-66 run on the tape,
      as the code runs it, and it selects the branch [Probe.select_c]
      selects at the same cost. *)

From stdpp Require Import base list strings.
From Stdlib Require Import String.
From S2P Require Import Prelude Json Serde Deserializer Probe.

(** simd_json's [Node]. *)
Inductive Node : Type :=
| NStatic (n : StaticNode)
| NString (s : string)
| NArray (len count : nat)
| NObject (len count : nat).

(** [Node::count]: the nodes of the value a node starts. *)
Definition node_count (n : Node) : nat :=
  match n with
  | NArray _ c | NObject _ c => S c
  | _ => 1
  end.

(** The body of an object: each key, then its value. *)
Definition entry_nodes (flat : Value.t -> list Node) (kv : string * Value.t) : list Node :=
  NString kv.1 :: flat kv.2.

(** The tape simd_json's parser builds for a tree. *)
Fixpoint flatten (v : Value.t) : list Node :=
  match v with
  | Value.Static n => [NStatic n]
  | Value.String s => [NString s]
  | Value.Array a =>
      let body := flat_map flatten a in NArray (List.length a) (List.length body) :: body
  | Value.Object o =>
      let body := flat_map (entry_nodes flatten) o in
      NObject (List.length o) (List.length body) :: body
  end.

(** ** Walking a tape back into a tree *)

(** Running out of fuel is kept apart from a tape that is not a layout. *)
Inductive ReadError : Type := OutOfFuel | Malformed.

(** Read [n] values, or [n] key/value entries, off the front of a tape,
    returning them with the nodes that follow.  Each call spends one unit
    of fuel. *)
Fixpoint read_values (fuel n : nat) (t : list Node)
    : Result (list Value.t * list Node) ReadError :=
  match fuel with
  | 0 => Err OutOfFuel
  | S f =>
      match n with
      | 0 => Ok ([], t)
      | S n' =>
          match t with
          | [] => Err Malformed
          | NStatic s :: r => vr <- read_values f n' r ;; Ok (Value.Static s :: vr.1, vr.2)
          | NString s :: r => vr <- read_values f n' r ;; Ok (Value.String s :: vr.1, vr.2)
          | NArray len _ :: r =>
              ar <- read_values f len r ;;
              vr <- read_values f n' ar.2 ;;
              Ok (Value.Array ar.1 :: vr.1, vr.2)
          | NObject len _ :: r =>
              er <- read_entries f len r ;;
              vr <- read_values f n' er.2 ;;
              Ok (Value.Object er.1 :: vr.1, vr.2)
          end
      end
  end
with read_entries (fuel n : nat) (t : list Node)
    : Result (list (string * Value.t) * list Node) ReadError :=
  match fuel with
  | 0 => Err OutOfFuel
  | S f =>
      match n with
      | 0 => Ok ([], t)
      | S n' =>
          match t with
          | NString k :: r =>
              vr <- read_values f 1 r ;;
              match vr.1 with
              | [v] => er <- read_entries f n' vr.2 ;; Ok ((k, v) :: er.1, er.2)
              | _ => Err Malformed
              end
          | _ => Err Malformed
          end
      end
  end.

(** The value at the front of a tape, and the nodes after it. *)
Definition read_value (fuel : nat) (t : list Node) : Result (Value.t * list Node) ReadError :=
  vr <- read_values fuel 1 t ;;
  match vr.1 with
  | [v] => Ok (v, vr.2)
  | _ => Err Malformed
  end.

(** The fuel that always suffices (proved below). *)
Definition tape_fuel (t : list Node) : nat := S (List.length t).

(** Line 41, [let v = t.as_value()]: the value the tape's root denotes. *)
Definition as_value (t : list Node) : Result (Value.t * list Node) ReadError :=
  read_value (tape_fuel t) t.

(** ** The tape's [Object::get] *)

(** The nodes of the value at the front of a slice. *)
Definition value_len (t : list Node) : nat :=
  match t with n :: _ => node_count n | [] => 0 end.

(** [value::tape::Object::get]: compare each of the [len] keys in turn and
    skip its value in one step by [Node::count]. *)
Fixpoint tape_obj_get (k : string) (len : nat) (body : list Node) : Cost (option (list Node)) :=
  match len with
  | 0 => ret None
  | S len' =>
      match body with
      | NString k' :: r =>
          if String.eqb k' k then (Some (take (value_len r) r), 1)
          else let (res, n) := tape_obj_get k len' (drop (value_len r) r) in (res, S n)
      | _ => ret None
      end
  end.

(** [value::tape::Value::get]: [None] unless the slice starts an object. *)
Definition tape_get (k : string) (t : list Node) : Cost (option (list Node)) :=
  match t with
  | NObject len _ :: body => tape_obj_get k len body
  | _ => ret None
  end.

(** ** The probes of lines 43-66 on the tape

    [v] of line 41 is the tape's root value, so the code's probes are
    these: the same sequence as [Probe.select_c], each accessor the tape's. *)

(** [get_object]: the slice of the object found under [k]. *)
Definition tape_get_object (k : string) (t : list Node) : Cost (option (list Node)) :=
  w <-$ tape_get k t ;;
  ret (match w with Some ((NObject _ _ :: _) as o) => Some o | _ => None end).

Definition tape_contains_key (k : string) (t : list Node) : Cost bool :=
  w <-$ tape_get k t ;; ret (is_some w).

Definition tape_probe_rest (t : list Node) : Cost bool :=
  rc <-$ tape_get_object "request_context" t ;;
  hm <-$ tape_contains_key "http_method" t ;;
  match rc, hm with
  | Some rc, true => h <-$ tape_get "http" rc ;; ret (is_none h)
  | _, _ => ret false
  end.

Definition tape_probe_rc (key : string) (t : list Node) : Cost bool :=
  rc <-$ tape_get_object "request_context" t ;;
  match rc with
  | Some rc => h <-$ tape_get key rc ;; ret (is_some h)
  | None => ret false
  end.

Definition tape_select (f : Features) (t : list Node) : Cost Choice :=
  b1 <-$ cfg_c (apigw_rest f) (tape_probe_rest t) ;;
  if b1 then ret CRest else
  b2 <-$ cfg_c (apigw_http f) (tape_probe_rc "http" t) ;;
  if b2 then ret CHttp else
  b3 <-$ cfg_c (alb f) (tape_probe_rc "elb" t) ;;
  if b3 then ret CAlb else
  b4 <-$ cfg_c (apigw_websockets f) (tape_contains_key "connected_at" t) ;;
  if b4 then ret CWebSocket else ret CNone.

(** ** Lines 40-77 on the tape

    The whole function after the prelude, on the tape [d.into_tape()]
    returns: line 41 views the root, the probes run on the tape, and the
    branch taken decodes with [t.deserialize()].  simd_json's tape
    deserializer yields what [from_value] yields on the tree the tape
    denotes, so a branch decodes the root value.  The outer [ReadError] is
    a tape that is not a layout, which the parser never hands over. *)
Section TapeRun.
Context {ApiGatewayProxyRequest ApiGatewayV2httpRequest : Type}.
Context {AlbTargetGroupRequest ApiGatewayWebsocketProxyRequest : Type}.
Context `{!Deserialize ApiGatewayProxyRequest, !Deserialize ApiGatewayV2httpRequest}.
Context `{!Deserialize AlbTargetGroupRequest, !Deserialize ApiGatewayWebsocketProxyRequest}.

Notation Req := (@LambdaRequest ApiGatewayProxyRequest ApiGatewayV2httpRequest
                   AlbTargetGroupRequest ApiGatewayWebsocketProxyRequest).

Definition lambda_request_tape (f : Features) (data : string) (t : list Node)
    : Result (Result Req DeError) ReadError :=
  vr <- as_value t ;;
  Ok (run_choice f data vr.1 (tape_select f t).1 : Result Req DeError).
End TapeRun.

(** ** The reader: what a call leaves, and that it never runs dry *)

Lemma and_then_not_oof {A B} (m : Result A ReadError) (k : A -> Result B ReadError) :
  m <> Err OutOfFuel -> (forall x, m = Ok x -> k x <> Err OutOfFuel) ->
  and_then m k <> Err OutOfFuel.
Proof. intros Hm Hk. destruct m; simpl; [by apply Hk | congruence]. Qed.

(** A read leaves a suffix of the tape: never more nodes than it started with. *)
Lemma read_suffix f :
  (forall n t res, read_values f n t = Ok res -> List.length res.2 <= List.length t) /\
  (forall n t res, read_entries f n t = Ok res -> List.length res.2 <= List.length t).
Proof.
  induction f as [|f [IHv IHe]]; split; intros n t res H; try discriminate H;
    simpl in H; (destruct n; [by injection H as <-|]).
  - destruct t as [|[] r]; try discriminate H; result_inv; simpl;
      repeat match goal with
      | Hr : read_values f _ _ = Ok _ |- _ => apply IHv in Hr
      | Hr : read_entries f _ _ = Ok _ |- _ => apply IHe in Hr
      end; simpl in *; lia.
  - destruct t as [|[] r]; try discriminate H. result_inv.
    destruct t.1 as [|v [|]]; try discriminate H. result_inv.
    apply IHv in Ht. apply IHe in Ht0. simpl in *. lia.
Qed.

(** With more fuel than nodes, no read runs out of fuel. *)
Lemma read_enough_fuel f :
  (forall n t, List.length t < f -> read_values f n t <> Err OutOfFuel) /\
  (forall n t, List.length t < f -> read_entries f n t <> Err OutOfFuel).
Proof.
  induction f as [|f [IHv IHe]]; split; intros n t Hlen; [lia | lia | |];
    simpl; (destruct n; [done|]).
  - destruct t as [|[] r]; [done | ..]; simpl in Hlen;
      repeat (apply and_then_not_oof; [first [apply IHv | apply IHe]; lia|];
              let x := fresh "x" in let Hx := fresh "Hx" in intros x Hx;
              first [apply (proj1 (read_suffix _)) in Hx | apply (proj2 (read_suffix _)) in Hx]);
      done.
  - destruct t as [|[] r]; try done. simpl in Hlen.
    apply and_then_not_oof; [apply IHv; lia|]. intros vr Hvr.
    apply (proj1 (read_suffix _)) in Hvr.
    destruct vr.1 as [|v [|]]; try done.
    apply and_then_not_oof; [apply IHe; lia | done].
Qed.

(** ** Reading a layout back *)

(** [t] holds [n] values [res.1] followed by [res.2], read with any fuel
    above the length of [t]. *)
Definition reads_values (n : nat) (t : list Node) (res : list Value.t * list Node) : Prop :=
  forall f, List.length t < f -> read_values f n t = Ok res.
Definition reads_entries (n : nat) (t : list Node)
    (res : list (string * Value.t) * list Node) : Prop :=
  forall f, List.length t < f -> read_entries f n t = Ok res.

Lemma reads_values_nil t : reads_values 0 t ([], t).
Proof. intros [|f] Hf; [lia | done]. Qed.

Lemma reads_entries_nil t : reads_entries 0 t ([], t).
Proof. intros [|f] Hf; [lia | done]. Qed.

(** One case of the reader, given its sub-reads on shorter tapes. *)
Ltac reads_step :=
  let f := fresh "f" in let Hf := fresh "Hf" in
  intros [|f] Hf; [lia|]; cbn [read_values read_entries List.length] in *;
  repeat match goal with
  | H : reads_values _ ?t _ |- context [read_values f _ ?t] => rewrite (H f) by lia; cbn [and_then fst snd]
  | H : reads_entries _ ?t _ |- context [read_entries f _ ?t] => rewrite (H f) by lia; cbn [and_then fst snd]
  end; reflexivity.

Lemma reads_static n s r vs r' :
  reads_values n r (vs, r') -> reads_values (S n) (NStatic s :: r) (Value.Static s :: vs, r').
Proof. intros H. reads_step. Qed.

Lemma reads_string n s r vs r' :
  reads_values n r (vs, r') -> reads_values (S n) (NString s :: r) (Value.String s :: vs, r').
Proof. intros H. reads_step. Qed.

Lemma reads_array n len c r a r1 vs r' :
  reads_values len r (a, r1) -> reads_values n r1 (vs, r') -> List.length r1 <= List.length r ->
  reads_values (S n) (NArray len c :: r) (Value.Array a :: vs, r').
Proof. intros H1 H2 Hl. reads_step. Qed.

Lemma reads_object n len c r o r1 vs r' :
  reads_entries len r (o, r1) -> reads_values n r1 (vs, r') -> List.length r1 <= List.length r ->
  reads_values (S n) (NObject len c :: r) (Value.Object o :: vs, r').
Proof. intros H1 H2 Hl. reads_step. Qed.

Lemma reads_entry n k r v r1 es r' :
  reads_values 1 r ([v], r1) -> reads_entries n r1 (es, r') -> List.length r1 <= List.length r ->
  reads_entries (S n) (NString k :: r) ((k, v) :: es, r').
Proof. intros H1 H2 Hl. reads_step. Qed.

Lemma length_app_le {A} (l r : list A) : List.length r <= List.length (l ++ r).
Proof. rewrite length_app. lia. Qed.

(** The layout of a value followed by [n] more values reads as [n + 1]
    values. *)
Lemma flatten_reads (v : Value.t) :
  forall n rest vs r', reads_values n rest (vs, r') ->
  reads_values (S n) (flatten v ++ rest) (v :: vs, r').
Proof.
  induction v as [s|s|a IH|o IH] using Value.t_ind; intros n rest vs r' H; cbn [flatten app].
  - by apply reads_static.
  - by apply reads_string.
  - apply (reads_array _ _ _ _ a rest); [|done | apply length_app_le].
    clear H. induction IH as [|x a Hx _ IHa]; cbn [flat_map List.length]; [apply reads_values_nil|].
    rewrite <- app_assoc. by apply Hx.
  - apply (reads_object _ _ _ _ o rest); [|done | apply length_app_le].
    clear H. induction IH as [|[k x] o Hx _ IHo]; cbn [flat_map List.length]; [apply reads_entries_nil|].
    unfold entry_nodes at 1. cbn [fst snd app]. rewrite <- app_assoc.
    apply (reads_entry _ _ _ _ (flat_map (entry_nodes flatten) o ++ rest));
      [by apply Hx, reads_values_nil | done | apply length_app_le].
Qed.

(** ** The tape's lookup against the tree's *)

(** A layout's header counts every node of the layout. *)
Lemma value_len_flatten v rest : value_len (flatten v ++ rest) = List.length (flatten v).
Proof. by destruct v. Qed.

Lemma take_value_flatten v rest :
  take (value_len (flatten v ++ rest)) (flatten v ++ rest) = flatten v.
Proof. by rewrite value_len_flatten, take_app_length. Qed.

Lemma drop_value_flatten v rest :
  drop (value_len (flatten v ++ rest)) (flatten v ++ rest) = rest.
Proof. by rewrite value_len_flatten, drop_app_length. Qed.

(** On the body of an object, the tape's scan returns the layout of the
    first value with the key, after as many comparisons as [obj_get_c]. *)
Lemma tape_obj_get_flatten k o :
  tape_obj_get k (List.length o) (flat_map (entry_nodes flatten) o) =
  (option_map flatten (obj_get k o), (obj_get_c k o).2).
Proof.
  induction o as [|[k' x] o IH]; [done|]. cbn [flat_map List.length tape_obj_get].
  unfold entry_nodes at 1. cbn [fst snd app obj_get obj_get_c].
  destruct (String.eqb k' k).
  - by rewrite take_value_flatten.
  - rewrite drop_value_flatten, IH. by destruct (obj_get_c k o).
Qed.

(** ** Theorems *)

(** Reading the layout of any value back, with any fuel above the tape's
    length, gives the value and leaves the nodes that followed it. *)
Lemma read_value_flatten (v : Value.t) (rest : list Node) (f : nat) :
  List.length (flatten v ++ rest) < f ->
  read_value f (flatten v ++ rest) = Ok (v, rest).
Proof.
  intros Hf. unfold read_value.
  by rewrite (flatten_reads v 0 rest [] rest (reads_values_nil rest) f Hf).
Qed.

(** With more fuel than the tape has nodes the reader never runs dry. *)
Lemma read_value_not_oof (t : list Node) (f : nat) :
  List.length t < f -> read_value f t <> Err OutOfFuel.
Proof.
  intros Hf. unfold read_value. apply and_then_not_oof; [by apply read_enough_fuel|].
  intros vr _. by destruct vr.1 as [|? []].
Qed.

(** The tape is a faithful layout of the tree: the value line 41 views
    on the layout of any value is that value, and the nodes that followed
    its layout are left untouched. *)
Theorem tape_roundtrip (v : Value.t) (rest : list Node) :
  as_value (flatten v ++ rest) = Ok (v, rest).
Proof. apply read_value_flatten. unfold tape_fuel. lia. Qed.

(** Viewing the root of any tape terminates: [as_value] never runs out
    of fuel, on every tape, a layout or not; it returns a value or reports
    a malformed tape. *)
Theorem tape_read_terminates (t : list Node) : as_value t <> Err OutOfFuel.
Proof. apply read_value_not_oof. unfold tape_fuel. lia. Qed.

(** The tape's [get] on the layout of any value returns the layout of the
    value the tree's [get] finds, after exactly the comparisons [get_c]
    counts. *)
Lemma tape_get_flatten (k : string) (v : Value.t) :
  tape_get k (flatten v) = (option_map flatten (get k v), (get_c k v).2).
Proof. destruct v as [| | |o]; [done..|]. apply tape_obj_get_flatten. Qed.

Lemma tape_get_object_flatten k v :
  tape_get_object k (flatten v) =
  (option_map (fun o => flatten (Value.Object o)) (get_object_c k v).1, (get_object_c k v).2).
Proof.
  unfold tape_get_object, get_object_c, bind_c. rewrite tape_get_flatten, <- get_c_fst.
  destruct (get_c k v) as [[[]|] n]; cbn; by rewrite ?Nat.add_0_r.
Qed.

Lemma tape_contains_key_flatten k v : tape_contains_key k (flatten v) = contains_key_c k v.
Proof.
  unfold tape_contains_key, contains_key_c, bind_c. rewrite tape_get_flatten, <- get_c_fst.
  by destruct (get_c k v) as [[] n].
Qed.

Lemma tape_probe_rest_flatten v : tape_probe_rest (flatten v) = probe_rest_c v.
Proof.
  unfold tape_probe_rest, probe_rest_c, bind_c.
  rewrite tape_get_object_flatten, tape_contains_key_flatten.
  destruct (get_object_c "request_context" v) as [[rc|] n], (contains_key_c "http_method" v) as [[] m];
    cbn -[flatten tape_get obj_get_c]; [|done..].
  rewrite (tape_get_flatten "http" (Value.Object rc)), <- get_c_fst. cbn [get_c].
  by destruct (obj_get_c "http" rc) as [[] ?].
Qed.

Lemma tape_probe_rc_flatten key v : tape_probe_rc key (flatten v) = probe_rc_c key v.
Proof.
  unfold tape_probe_rc, probe_rc_c, bind_c. rewrite tape_get_object_flatten.
  destruct (get_object_c "request_context" v) as [[rc|] n]; cbn -[flatten tape_get obj_get_c]; [|done].
  rewrite (tape_get_flatten key (Value.Object rc)), <- get_c_fst. cbn [get_c].
  by destruct (obj_get_c key rc) as [[] ?].
Qed.

(** The probes on the layout of a tree decide and cost as [select_c]. *)
Lemma tape_select_flatten (f : Features) (v : Value.t) :
  tape_select f (flatten v) = select_c f v.
Proof.
  unfold tape_select, select_c.
  rewrite tape_probe_rest_flatten, !tape_probe_rc_flatten, tape_contains_key_flatten.
  reflexivity.
Qed.

(** The code's probes, run on the tape the code actually reads, make
    the decision and spend the key comparisons of the tree-level model
    [select_c]: on the layout of any payload, in any build, they select the
    same branch at the same cost, since each skipped value costs one step. *)
Theorem tape_select_refines (f : Features) (v : Value.t) :
  tape_select f (flatten v) = select_c f v.
Proof. apply tape_select_flatten. Qed.

Section TapeRunTheory.
Context {ApiGatewayProxyRequest ApiGatewayV2httpRequest : Type}.
Context {AlbTargetGroupRequest ApiGatewayWebsocketProxyRequest : Type}.
Context `{!Deserialize ApiGatewayProxyRequest, !Deserialize ApiGatewayV2httpRequest}.
Context `{!Deserialize AlbTargetGroupRequest, !Deserialize ApiGatewayWebsocketProxyRequest}.

Notation Req := (@LambdaRequest ApiGatewayProxyRequest ApiGatewayV2httpRequest
                   AlbTargetGroupRequest ApiGatewayWebsocketProxyRequest).

(** The function as the code runs it on simd_json's tape (lines 40-77:
    [as_value], the probes through the tape's [get], [t.deserialize()] in
    the branch taken) computes the tree-level dispatcher [deserialize] on
    the payload whose layout the tape is: every theorem about [deserialize]
    holds of the code's data path. *)
Theorem lambda_request_tape_refines (f : Features) (data : string) (v : Value.t) :
  lambda_request_tape f data (flatten v) = Ok (deserialize f data v : Result Req DeError).
Proof.
  unfold lambda_request_tape, as_value.
  rewrite <- (app_nil_r (flatten v)), read_value_flatten by (unfold tape_fuel; lia).
  rewrite app_nil_r, tape_select_flatten. cbn [and_then fst].
  f_equal. apply run_choice_select_c.
Qed.
End TapeRunTheory.

(** ** Concrete tapes *)

(** The layout of scenario B's payload. *)
Example flatten_payload_alb :
  flatten (Value.Object [("request_context",
             Value.Object [("elb", Value.Object [("targetGroupArn", Value.String "arn:...")])])]) =
  [NObject 1 6; NString "request_context"; NObject 1 4; NString "elb"; NObject 1 2;
   NString "targetGroupArn"; NString "arn:..."].
Proof. reflexivity. Qed.

Example as_value_array_next :
  as_value (flatten (Value.Array [Value.String "a"; Value.Object [("k", Null_v)]]) ++
            [NString "next"])
  = Ok (Value.Array [Value.String "a"; Value.Object [("k", Null_v)]], [NString "next"]).
Proof. reflexivity. Qed.

(** A truncated tape: the header promises two elements, one is there. *)
Example as_value_truncated : as_value [NArray 2 1; NString "a"] = Err Malformed.
Proof. reflexivity. Qed.
