(* ===== verification/Contract.v ===== *)
(** * Contract: the spec's structural probe (§4.1) as an interface

    The spec asks for a queryable tree with three read-only operations
    over key paths: [has_key], [get_object] and [contains_key_anywhere_at].
    Here they are derived from one interface, [StructuralProbe]: the node
    at a key path, and whether a node is an object.  [StructuralProbeLaws]
    says a path is walked one key at a time.  The interface has two
    instances:
    - the tree ([Value.t], walked by [Json.get]);
    - simd_json's tape ([list Node], walked by [Tape.tape_get]).

    The spec's fingerprints (§4.2) are written once against the
    interface.  They are parameterised by the key names ([Keys]), since
    the spec spells them as the services do and the code as the Rust
    fields.  A representation that commutes with the interface preserves
    every fingerprint ([Transport]), and [flatten] is one.  So the spec's
    predicates mean the same on the tape the code reads as on the tree.
    The code's own probes ([Deserializer.is_apigw_rest], ...) are then
    compared with the spec's. *)

From stdpp Require Import base list strings.
From Stdlib Require Import String.
From S2P Require Import Prelude Json Deserializer Probe Tape.

(** §4.1: the node at a key path, and whether a node is an object. *)
Class StructuralProbe (T : Type) := {
  node_at : list string -> T -> option T;
  is_object_node : T -> bool
}.

(** The three operations of §4.1. *)
Definition has_key {T} `{!StructuralProbe T} (p : list string) (t : T) : bool :=
  is_some (node_at p t).

Definition get_object_at {T} `{!StructuralProbe T} (p : list string) (t : T) : option T :=
  match node_at p t with
  | Some n => if is_object_node n then Some n else None
  | None => None
  end.

Definition contains_key_anywhere_at {T} `{!StructuralProbe T} (p : list string) (k : string)
    (t : T) : bool :=
  has_key (p ++ [k]) t.

(** A path is the root when empty, and is walked one key at a time. *)
Class StructuralProbeLaws (T : Type) `{!StructuralProbe T} := {
  node_at_nil t : node_at [] t = Some t;
  node_at_cons k p t : node_at (k :: p) t = node_at [k] t ≫= node_at p
}.

(** The keys the fingerprints read. *)
Record Keys : Type := {
  k_request_context : string;
  k_http : string;
  k_http_method : string;
  k_elb : string;
  k_connected_at : string
}.

(** The Rust field names the code probes (lines 44-65). *)
Definition rust_keys : Keys :=
  {| k_request_context := "request_context"; k_http := "http"; k_http_method := "http_method";
     k_elb := "elb"; k_connected_at := "connected_at" |}.

(** The services' wire names the spec's fingerprints use (§4.2). *)
Definition wire_keys : Keys :=
  {| k_request_context := "requestContext"; k_http := "http"; k_http_method := "httpMethod";
     k_elb := "elb"; k_connected_at := "connectedAt" |}.

(** ** §4.2: the fingerprints, against the interface *)

Section Fingerprints.
Context {T : Type} `{!StructuralProbe T} (ks : Keys).

(** An object at [requestContext] without [http], and a top-level [httpMethod]. *)
Definition spec_rest (t : T) : bool :=
  is_some (get_object_at [k_request_context ks] t) &&
  negb (contains_key_anywhere_at [k_request_context ks] (k_http ks) t) &&
  has_key [k_http_method ks] t.

(** An object at [requestContext] with an [http] child. *)
Definition spec_http (t : T) : bool :=
  is_some (get_object_at [k_request_context ks] t) &&
  contains_key_anywhere_at [k_request_context ks] (k_http ks) t.

(** An object at [requestContext.elb]. *)
Definition spec_alb (t : T) : bool :=
  is_some (get_object_at [k_request_context ks; k_elb ks] t).

(** A top-level [connectedAt]. *)
Definition spec_websocket (t : T) : bool := has_key [k_connected_at ks] t.
End Fingerprints.

(** ** The two instances *)

(** The tree, walked by [get]. *)
Fixpoint tree_at (p : list string) (v : Value.t) : option Value.t :=
  match p with
  | [] => Some v
  | k :: p' => match get k v with Some w => tree_at p' w | None => None end
  end.

#[export] Instance probe_tree : StructuralProbe Value.t :=
  {| node_at := tree_at; is_object_node v := is_some (as_object v) |}.

(** The tape, walked by the tape's [Object::get]; a node is the slice of
    its layout. *)
Fixpoint tape_at (p : list string) (t : list Node) : option (list Node) :=
  match p with
  | [] => Some t
  | k :: p' => match (tape_get k t).1 with Some s => tape_at p' s | None => None end
  end.

Definition tape_is_object (t : list Node) : bool :=
  match t with NObject _ _ :: _ => true | _ => false end.

#[export] Instance probe_tape : StructuralProbe (list Node) :=
  {| node_at := tape_at; is_object_node := tape_is_object |}.

(** A payload whose [request_context.elb] is not an object. *)
Definition payload_elb_scalar : Value.t :=
  Value.Object [("request_context", Value.Object [("elb", Value.String "arn")])].

(** ** Laws of the instances *)

#[export] Instance probe_tree_laws : StructuralProbeLaws Value.t.
Proof. split; [done|]. intros k p t. simpl. by destruct (get k t). Qed.

#[export] Instance probe_tape_laws : StructuralProbeLaws (list Node).
Proof. split; [done|]. intros k p t. simpl. by destruct (tape_get k t).1. Qed.

(** ** Clients of the interface: a representation that commutes with it
    keeps every fingerprint *)

Section Transport.
Context {A B : Type} `{!StructuralProbe A, !StructuralProbe B} (rep : A -> B).
Hypothesis rep_node_at : forall p a, node_at p (rep a) = rep <$> node_at p a.
Hypothesis rep_is_object : forall a, is_object_node (rep a) = is_object_node a.

Lemma has_key_rep p a : has_key p (rep a) = has_key p a.
Proof. unfold has_key. rewrite rep_node_at. by destruct (node_at p a). Qed.

Lemma get_object_at_rep p a : is_some (get_object_at p (rep a)) = is_some (get_object_at p a).
Proof.
  unfold get_object_at. rewrite rep_node_at.
  destruct (node_at p a) as [n|]; simpl; [|done]. rewrite rep_is_object. by destruct (is_object_node n).
Qed.

Lemma contains_key_anywhere_at_rep p k a :
  contains_key_anywhere_at p k (rep a) = contains_key_anywhere_at p k a.
Proof. apply has_key_rep. Qed.

Lemma fingerprints_rep ks a :
  spec_rest ks (rep a) = spec_rest ks a /\ spec_http ks (rep a) = spec_http ks a /\
  spec_alb ks (rep a) = spec_alb ks a /\ spec_websocket ks (rep a) = spec_websocket ks a.
Proof.
  unfold spec_rest, spec_http, spec_alb, spec_websocket.
  by rewrite !get_object_at_rep, !contains_key_anywhere_at_rep, !has_key_rep.
Qed.
End Transport.

(** ** [flatten] commutes with the interface *)

Lemma tape_at_flatten p v : tape_at p (flatten v) = flatten <$> tree_at p v.
Proof.
  revert v. induction p as [|k p IH]; intros v; [done|]. simpl.
  rewrite tape_get_flatten. simpl. destruct (get k v); simpl; [apply IH|done].
Qed.

Lemma tape_is_object_flatten v : tape_is_object (flatten v) = is_some (as_object v).
Proof. by destruct v. Qed.

(** The spec's fingerprints read the same on the tape as on the tree. *)
Lemma fingerprints_flatten ks v :
  spec_rest ks (flatten v) = spec_rest ks v /\ spec_http ks (flatten v) = spec_http ks v /\
  spec_alb ks (flatten v) = spec_alb ks v /\ spec_websocket ks (flatten v) = spec_websocket ks v.
Proof. apply (fingerprints_rep flatten); [apply tape_at_flatten|apply tape_is_object_flatten]. Qed.

(** ** The code's probes against the spec's fingerprints *)

(** On the tree, under the Rust key names, the code's REST, HTTP and
    WebSocket probes are the spec's fingerprints. *)
Lemma code_fingerprints_spec v :
  is_apigw_rest v = spec_rest rust_keys v /\ is_apigw_http v = spec_http rust_keys v /\
  is_websocket v = spec_websocket rust_keys v.
Proof.
  unfold is_apigw_rest, is_apigw_http, is_websocket, spec_rest, spec_http, spec_websocket,
    contains_key_anywhere_at, has_key, get_object_at, get_object, contains_key; simpl.
  destruct (get "request_context" v) as [[| | |o]|]; simpl;
    destruct (get "http_method" v), (get "connected_at" v); simpl; try done.
  all: by destruct (obj_get "http" o).
Qed.

(** C9. The probes the code runs on simd_json's tape (lines 44-45, 51-52
    and 65) are the spec's structural fingerprints (§4.2), evaluated
    through the spec's probe interface (§4.1) on that same tape, under the
    Rust field names: REST gateway, HTTP gateway and WebSocket, for every
    payload. *)
Theorem tape_probes_meet_spec v :
  (tape_probe_rest (flatten v)).1 = spec_rest rust_keys (flatten v) /\
  (tape_probe_rc "http" (flatten v)).1 = spec_http rust_keys (flatten v) /\
  (tape_contains_key "connected_at" (flatten v)).1 = spec_websocket rust_keys (flatten v).
Proof.
  destruct (fingerprints_flatten rust_keys v) as (-> & -> & _ & ->).
  destruct (code_fingerprints_spec v) as (Hr & Hh & Hw).
  rewrite tape_probe_rest_flatten, tape_probe_rc_flatten, tape_contains_key_flatten,
    probe_rest_c_fst, probe_rc_c_fst, contains_key_c_fst, <- Hr, <- Hh, <- Hw.
  done.
Qed.

(** C16. The load-balancer probe (lines 58-59, [if let Some(_) =
    rc.get("elb")]) tests only that [request_context.elb] exists.  It
    accepts every payload the spec's fingerprint accepts (an object at
    that path), and also payloads where [elb] holds a string, a number
    or null, which the spec does not. *)
Theorem alb_probe_has_key v :
  is_alb v = has_key [k_request_context rust_keys; k_elb rust_keys] v /\
  (spec_alb rust_keys v = true -> is_alb v = true).
Proof.
  unfold is_alb, spec_alb, has_key, get_object_at, get_object; simpl.
  destruct (get "request_context" v) as [[| | |o]|]; simpl; try done.
  destruct (obj_get "elb" o) as [w|]; simpl; [|done]. by destruct w.
Qed.

Lemma alb_probe_has_key_witness : spec_alb rust_keys payload_alb = true /\ is_alb payload_alb = true.
Proof. split; [reflexivity|]. apply (proj2 (alb_probe_has_key payload_alb)). reflexivity. Defined.

(** The divergence: [request_context.elb] holding a string passes the
    code's probe and fails the spec's fingerprint. *)
Example alb_spec_divergence :
  is_alb payload_elb_scalar = true /\ spec_alb rust_keys payload_elb_scalar = false.
Proof. split; reflexivity. Qed.
