(* ===== verification/Entry.v ===== *)
(** * Entry: the unsafe prelude of [LambdaRequest::deserialize] (lines 28-41)

    Before probing, the function gets the parsed tape out of an arbitrary
    [D: serde::Deserializer]:
    - it copies the deserializer bitwise as a simd_json [JsonDeserializer]
      ([std::ptr::read], line 37);
    - it forgets the original without running its destructor
      ([std::mem::forget], line 38);
    - it consumes the copy into its tape ([into_tape], line 40);
    - it borrows the tape's root value ([as_value], line 41).
    The tape is dropped when the function returns, on every path.  The guard
    [TypeId::of::<D>() != TypeId::of::<JsonDeserializer>()] is commented out
    (line 34).

    The model is a small step machine over the ownership of the
    deserializer's buffer.  [owners] counts the live values that own it,
    [drops] counts how often its destructor ran, and a step that reads a
    value at the wrong type is undefined behaviour ([None]).  [Exec] runs
    these steps inside the whole function and proves the ownership
    invariant; the lemmas here are about the prelude alone: the buffer is
    alive at every point of it, and a deserializer that is not simd_json's
    makes the first step undefined. *)

From stdpp Require Import base list strings.
From Stdlib Require Import String.
From S2P Require Import Prelude Json Serde Deserializer.

(** The deserializer the caller hands over: simd_json's, holding the
    parsed tape of the payload text [data], or another implementation. *)
Inductive DeserializerImpl : Type :=
| JsonDeserializer (tape : Value.t) (data : string)
| OtherDeserializer (name : string).

(** Ownership of the deserializer's buffer. *)
Record Ownership : Type := {
  owners : nat;
  drops : nat
}.

(** The statements of lines 37-41, and the end of the function's scope. *)
Inductive Step : Type :=
| PtrRead     (* let d = unsafe { ptr::read(&deserializer as *const _ as *const JsonDeserializer) } *)
| Forget      (* mem::forget(deserializer) *)
| IntoTape    (* let t = d.into_tape() *)
| AsValue     (* let v = t.as_value() *)
| ScopeEnd.   (* return: every owner still live is dropped *)

(** One step; [None] is undefined behaviour. *)
Definition run_step (d : DeserializerImpl) (s : Ownership) (st : Step) : option Ownership :=
  match st with
  | PtrRead =>
      match d with
      | JsonDeserializer _ _ => Some {| owners := S (owners s); drops := drops s |}
      | OtherDeserializer _ => None
      end
  | Forget => Some {| owners := pred (owners s); drops := drops s |}
  | IntoTape | AsValue => Some s
  | ScopeEnd => Some {| owners := 0; drops := drops s + owners s |}
  end.

Fixpoint run_steps (d : DeserializerImpl) (s : Ownership) (sts : list Step) : option Ownership :=
  match sts with
  | [] => Some s
  | st :: sts' => match run_step d s st with Some s' => run_steps d s' sts' | None => None end
  end.

(** Lines 37-41, in order. *)
Definition prelude_steps : list Step := [PtrRead; Forget; IntoTape; AsValue].

(** On entry the function owns [deserializer], passed by value. *)
Definition entry_state : Ownership := {| owners := 1; drops := 0 |}.

(** The tree the prelude yields: the tape of a simd_json deserializer. *)
Definition tape_of (d : DeserializerImpl) : option (Value.t * string) :=
  match d with
  | JsonDeserializer tape data => Some (tape, data)
  | OtherDeserializer _ => None
  end.

Section Entry.
Context {ApiGatewayProxyRequest ApiGatewayV2httpRequest : Type}.
Context {AlbTargetGroupRequest ApiGatewayWebsocketProxyRequest : Type}.
Context `{!Deserialize ApiGatewayProxyRequest, !Deserialize ApiGatewayV2httpRequest}.
Context `{!Deserialize AlbTargetGroupRequest, !Deserialize ApiGatewayWebsocketProxyRequest}.

Notation Req := (@LambdaRequest ApiGatewayProxyRequest ApiGatewayV2httpRequest
                   AlbTargetGroupRequest ApiGatewayWebsocketProxyRequest).

(** Lines 28-77: the prelude, the dispatcher on the tape, and the drops at
    the return.  [None] when the prelude is undefined. *)
Definition lambda_request_deserialize (f : Features) (d : DeserializerImpl)
    : option (Result Req DeError * Ownership) :=
  match run_steps d entry_state prelude_steps, tape_of d with
  | Some s, Some (tape, data) =>
      match run_step d s ScopeEnd with
      | Some s' => Some (deserialize f data tape, s')
      | None => None
      end
  | _, _ => None
  end.
End Entry.

(** ** Theorems *)


(** The function is defined exactly for simd_json's deserializer: the
    bitwise read of line 37 is undefined behaviour for any other one, since
    the [TypeId] guard of line 34 is commented out and nothing stops a
    caller that does not use simd_json. *)
Theorem entry_defined_iff_simd_json {A B C D : Type}
    `{!Deserialize A, !Deserialize B, !Deserialize C, !Deserialize D}
    (f : Features) (d : DeserializerImpl) :
  is_Some (lambda_request_deserialize (ApiGatewayProxyRequest := A) (ApiGatewayV2httpRequest := B)
             (AlbTargetGroupRequest := C) (ApiGatewayWebsocketProxyRequest := D) f d) <->
  exists tape data, d = JsonDeserializer tape data.
Proof.
  destruct d as [tape data|name]; split; [eauto | eauto | | ].
  - by intros [? ?].
  - by intros (? & ? & ?).
Qed.

(** After any prefix of the prelude the buffer is still alive: it has an
    owner and its destructor has not run, so the tape read by the probes is
    never a freed one. *)
Lemma run_steps_prefix d s n :
  run_steps d entry_state (take n prelude_steps) = Some s ->
  drops s = 0 /\ 1 <= owners s <= 2.
Proof.
  destruct d; destruct n as [|[|[|[|n]]]]; simpl; rewrite ?take_nil; simpl; intros H; try discriminate H;
    injection H as <-; simpl; lia.
Qed.

(** The buffer is alive at every point of the prelude, whatever the
    deserializer: every state the defined steps of lines 37-41 reach has an
    owner and no destructor run yet. *)
Theorem entry_prelude_alive (d : DeserializerImpl) (n : nat) (s : Ownership) :
  run_steps d entry_state (take n prelude_steps) = Some s ->
  drops s = 0 /\ 1 <= owners s.
Proof. intros H. apply run_steps_prefix in H. lia. Qed.

Lemma entry_prelude_alive_witness :
  drops {| owners := 2; drops := 0 |} = 0 /\ 1 <= owners {| owners := 2; drops := 0 |}.
Proof.
  apply (entry_prelude_alive (JsonDeserializer (Value.Object []) "{}") 1). reflexivity.
Defined.
