(* ===== verification/Exec.v ===== *)
(** * Exec: [LambdaRequest::deserialize] as a small-step machine

    [Entry] runs the function in one go and [Tape] runs its body on the
    tape.  This file runs the whole function (lines 28-77) one statement at
    a time.  Its configuration is the program point, the ownership of the
    deserializer's buffer, the tape [t] (line 40) and the root value [v]
    (line 41).  Its program points are:
    - [AtPrelude sts]: the statements of lines 37-41 still to run;
    - [AtBlocks bs]: the [#[cfg]] blocks of lines 43-68 still to try;
    - [AtDecode c]: the [t.deserialize()] of the block that matched;
    - [AtFallback]: lines 70-76;
    - [AtReturn r]: the function returns [r], by [return], by [?] or at
      its end, and every value still live is dropped;
    - [Done r]: the caller has [r].

    [estep] has one rule per construct, with the code's conditions as
    premises.  [exec_step] is the same step as a function, and the two
    are proved equal.  The theorems:
    - every reachable state owns the buffer as the code intends (an
      invariant by rule induction);
    - no run is infinite, and every reachable state reaches the return
      (liveness);
    - the returned result and final ownership are those of [Entry]'s
      one-step model (refinement). *)

From stdpp Require Import base list relations strings.
From Stdlib Require Import String.
From S2P Require Import Prelude Json Serde Deserializer Probe Tape Entry.

(** The four [#[cfg(feature)]] blocks of lines 43-68, in source order. *)
Inductive Block : Type := BRest | BHttp | BAlb | BWebSocket.

Definition blocks : list Block := [BRest; BHttp; BAlb; BWebSocket].

Definition block_enabled (f : Features) (b : Block) : bool :=
  match b with
  | BRest => apigw_rest f
  | BHttp => apigw_http f
  | BAlb => alb f
  | BWebSocket => apigw_websockets f
  end.

(** The condition of each block, evaluated on the tape. *)
Definition block_probe (b : Block) (t : list Node) : bool :=
  match b with
  | BRest => (tape_probe_rest t).1
  | BHttp => (tape_probe_rc "http" t).1
  | BAlb => (tape_probe_rc "elb" t).1
  | BWebSocket => (tape_contains_key "connected_at" t).1
  end.

Definition block_choice (b : Block) : Choice :=
  match b with
  | BRest => CRest
  | BHttp => CHttp
  | BAlb => CAlb
  | BWebSocket => CWebSocket
  end.

(** What each block tests, on the tree. *)
Definition block_matches (b : Block) (v : Value.t) : bool :=
  match b with
  | BRest => is_apigw_rest v
  | BHttp => is_apigw_http v
  | BAlb => is_alb v
  | BWebSocket => is_websocket v
  end.

(** The payload text the pass-through variant copies (line 72). *)
Definition payload_text (d : DeserializerImpl) : string :=
  match d with JsonDeserializer _ data => data | OtherDeserializer _ => EmptyString end.

Section Machine.
Context {ApiGatewayProxyRequest ApiGatewayV2httpRequest : Type}.
Context {AlbTargetGroupRequest ApiGatewayWebsocketProxyRequest : Type}.
Context `{!Deserialize ApiGatewayProxyRequest, !Deserialize ApiGatewayV2httpRequest}.
Context `{!Deserialize AlbTargetGroupRequest, !Deserialize ApiGatewayWebsocketProxyRequest}.

Notation Req := (@LambdaRequest ApiGatewayProxyRequest ApiGatewayV2httpRequest
                   AlbTargetGroupRequest ApiGatewayWebsocketProxyRequest).

Inductive Pc : Type :=
| AtPrelude (sts : list Step)
| AtBlocks (bs : list Block)
| AtDecode (c : Choice)
| AtFallback
| AtReturn (r : Result Req DeError)
| Done (r : Result Req DeError).

Record Config : Type := mkConfig {
  pc : Pc;
  own : Ownership;
  tape : option (list Node);
  root : option Value.t
}.

Definition set_pc (p : Pc) (c : Config) : Config := mkConfig p (own c) (tape c) (root c).

(** Lines 70-76. *)
Definition fallback (f : Features) (data : string) : Result Req DeError :=
  if pass_through f then Ok (PassThrough data) else Err (custom ERROR_CONTEXT).

Section Step.
Variables (f : Features) (d : DeserializerImpl).

Inductive estep : Config -> Config -> Prop :=
| es_ptr_read c sts o :
    pc c = AtPrelude (PtrRead :: sts) -> run_step d (own c) PtrRead = Some o ->
    estep c (mkConfig (AtPrelude sts) o (tape c) (root c))
| es_forget c sts o :
    pc c = AtPrelude (Forget :: sts) -> run_step d (own c) Forget = Some o ->
    estep c (mkConfig (AtPrelude sts) o (tape c) (root c))
| es_into_tape c sts o tree data :
    pc c = AtPrelude (IntoTape :: sts) -> run_step d (own c) IntoTape = Some o ->
    tape_of d = Some (tree, data) ->
    estep c (mkConfig (AtPrelude sts) o (Some (flatten tree)) (root c))
| es_as_value c sts o t v rest :
    pc c = AtPrelude (AsValue :: sts) -> run_step d (own c) AsValue = Some o ->
    tape c = Some t -> as_value t = Ok (v, rest) ->
    estep c (mkConfig (AtPrelude sts) o (Some t) (Some v))
| es_prelude_done c :
    pc c = AtPrelude [] -> estep c (set_pc (AtBlocks blocks) c)
| es_block_absent c b bs :
    pc c = AtBlocks (b :: bs) -> block_enabled f b = false ->
    estep c (set_pc (AtBlocks bs) c)
| es_block_miss c b bs t :
    pc c = AtBlocks (b :: bs) -> block_enabled f b = true ->
    tape c = Some t -> block_probe b t = false ->
    estep c (set_pc (AtBlocks bs) c)
| es_block_hit c b bs t :
    pc c = AtBlocks (b :: bs) -> block_enabled f b = true ->
    tape c = Some t -> block_probe b t = true ->
    estep c (set_pc (AtDecode (block_choice b)) c)
| es_blocks_done c :
    pc c = AtBlocks [] -> estep c (set_pc AtFallback c)
| es_decode c ch v :
    pc c = AtDecode ch -> root c = Some v ->
    estep c (set_pc (AtReturn (run_choice f (payload_text d) v ch)) c)
| es_fallback c :
    pc c = AtFallback -> estep c (set_pc (AtReturn (fallback f (payload_text d))) c)
| es_return c r o :
    pc c = AtReturn r -> run_step d (own c) ScopeEnd = Some o ->
    estep c (mkConfig (Done r) o (tape c) (root c)).

(** The same step, computed. *)
Definition exec_step (c : Config) : option Config :=
  match pc c with
  | AtPrelude [] => Some (set_pc (AtBlocks blocks) c)
  | AtPrelude (st :: sts) =>
      match run_step d (own c) st, st with
      | None, _ | _, ScopeEnd => None
      | Some o, IntoTape =>
          match tape_of d with
          | Some (tree, _) => Some (mkConfig (AtPrelude sts) o (Some (flatten tree)) (root c))
          | None => None
          end
      | Some o, AsValue =>
          match tape c with
          | Some t =>
              match as_value t with
              | Ok (v, _) => Some (mkConfig (AtPrelude sts) o (Some t) (Some v))
              | Err _ => None
              end
          | None => None
          end
      | Some o, _ => Some (mkConfig (AtPrelude sts) o (tape c) (root c))
      end
  | AtBlocks [] => Some (set_pc AtFallback c)
  | AtBlocks (b :: bs) =>
      if block_enabled f b then
        match tape c with
        | Some t => Some (set_pc (if block_probe b t then AtDecode (block_choice b) else AtBlocks bs) c)
        | None => None
        end
      else Some (set_pc (AtBlocks bs) c)
  | AtDecode ch =>
      match root c with
      | Some v => Some (set_pc (AtReturn (run_choice f (payload_text d) v ch)) c)
      | None => None
      end
  | AtFallback => Some (set_pc (AtReturn (fallback f (payload_text d))) c)
  | AtReturn r =>
      match run_step d (own c) ScopeEnd with
      | Some o => Some (mkConfig (Done r) o (tape c) (root c))
      | None => None
      end
  | Done _ => None
  end.
End Step.

(** The function's entry: [deserializer] owned, nothing read yet. *)
Definition exec_init : Config := mkConfig (AtPrelude prelude_steps) entry_state None None.

(** Steps left before [Done]: every step lowers it. *)
Definition exec_measure (c : Config) : nat :=
  match pc c with
  | AtPrelude sts => List.length sts + 8
  | AtBlocks bs => List.length bs + 3
  | AtDecode _ | AtFallback => 2
  | AtReturn _ => 1
  | Done _ => 0
  end.

(** Who owns the buffer at each program point: two owners between
    [ptr::read] and [forget], none after the return, one otherwise. *)
Definition own_at (p : Pc) : Ownership :=
  match p with
  | AtPrelude (Forget :: _) => {| owners := 2; drops := 0 |}
  | Done _ => {| owners := 0; drops := 1 |}
  | _ => {| owners := 1; drops := 0 |}
  end.
(** Where a run through simd_json's deserializer ends: the dispatcher's
    result returned, the buffer freed once. *)
Definition exec_final (f : Features) (tree : Value.t) (data : string) : Config :=
  mkConfig (Done (deserialize f data tree)) {| owners := 0; drops := 1 |}
    (Some (flatten tree)) (Some tree).

(** What the blocks [bs] and the fallback return on the tape [t] of [v]. *)
Fixpoint blocks_result (f : Features) (data : string) (v : Value.t) (t : list Node)
    (bs : list Block) : Result Req DeError :=
  match bs with
  | [] => fallback f data
  | b :: bs' =>
      if block_enabled f b && block_probe b t then run_choice f data v (block_choice b)
      else blocks_result f data v t bs'
  end.

(** The invariant behind [own_at]: the prelude still to run is a suffix of
    lines 37-41. *)
Definition exec_inv (c : Config) : Prop :=
  own c = own_at (pc c) /\
  match pc c with AtPrelude sts => exists n, sts = drop n prelude_steps | _ => True end.
End Machine.

Arguments Pc : clear implicits.
Arguments Config : clear implicits.

(** ** The machine's basic facts *)

Lemma block_probe_flatten b v : block_probe b (flatten v) = block_matches b v.
Proof.
  destruct b; cbn [block_probe block_matches].
  - by rewrite tape_probe_rest_flatten, probe_rest_c_fst.
  - by rewrite tape_probe_rc_flatten, probe_rc_c_fst.
  - by rewrite tape_probe_rc_flatten, probe_rc_c_fst.
  - by rewrite tape_contains_key_flatten, contains_key_c_fst.
Qed.

Section MachineTheory.
Context {ApiGatewayProxyRequest ApiGatewayV2httpRequest : Type}.
Context {AlbTargetGroupRequest ApiGatewayWebsocketProxyRequest : Type}.
Context `{!Deserialize ApiGatewayProxyRequest, !Deserialize ApiGatewayV2httpRequest}.
Context `{!Deserialize AlbTargetGroupRequest, !Deserialize ApiGatewayWebsocketProxyRequest}.

Notation Req := (@LambdaRequest ApiGatewayProxyRequest ApiGatewayV2httpRequest
                   AlbTargetGroupRequest ApiGatewayWebsocketProxyRequest).
Notation Cfg := (Config ApiGatewayProxyRequest ApiGatewayV2httpRequest
                   AlbTargetGroupRequest ApiGatewayWebsocketProxyRequest).

Implicit Types (f : Features) (d : DeserializerImpl) (c : Cfg).

(** The relation and the function agree. *)
Lemma estep_exec_step f d c c' : estep f d c c' <-> exec_step f d c = Some c'.
Proof.
  split.
  - intros []; unfold exec_step; repeat match goal with H : _ = _ |- _ => rewrite H; clear H end;
      cbn; try done.
  - unfold exec_step. destruct (pc c) as [[|st sts]|[|b bs]|ch| |r|r] eqn:Hpc; intros Hs;
      repeat case_match; simplify_eq/=; eauto using estep.
Qed.

Lemma estep_det f d c c1 c2 : estep f d c c1 -> estep f d c c2 -> c1 = c2.
Proof. rewrite !estep_exec_step. congruence. Qed.

Lemma estep_measure f d c c' : estep f d c c' -> exec_measure c' < exec_measure c.
Proof. intros []; unfold exec_measure, set_pc; simpl; repeat match goal with H : pc _ = _ |- _ => rewrite H end; simpl; lia. Qed.

Lemma done_nf f d (r : Result Req DeError) o t v : nf (estep f d) (mkConfig (Done r) o t v).
Proof. intros [c' Hs]. by apply estep_exec_step in Hs. Qed.

Lemma as_value_flatten v : as_value (flatten v) = Ok (v, []).
Proof.
  unfold as_value. pose proof (read_value_flatten v [] (tape_fuel (flatten v))) as H.
  rewrite app_nil_r in H. apply H. unfold tape_fuel. lia.
Qed.

(** The blocks and the fallback run to the return of [blocks_result]. *)
Lemma blocks_reach f d bs c t v :
  pc c = AtBlocks bs -> tape c = Some t -> root c = Some v ->
  rtc (estep f d) c (set_pc (AtReturn (blocks_result f (payload_text d) v t bs)) c).
Proof.
  revert c. induction bs as [|b bs IH]; intros c Hpc Ht Hv; simpl.
  - eapply rtc_l; [by apply es_blocks_done|]. apply rtc_once.
    by apply (es_fallback f d (set_pc AtFallback c)).
  - destruct (block_enabled f b) eqn:He; [destruct (block_probe b t) eqn:Hp|]; simpl.
    + eapply rtc_l; [by eapply es_block_hit|]. apply rtc_once.
      by apply (es_decode f d (set_pc (AtDecode (block_choice b)) c) _ v).
    + eapply rtc_l; [by eapply es_block_miss|]. by apply (IH (set_pc (AtBlocks bs) c)).
    + eapply rtc_l; [by eapply es_block_absent|]. by apply (IH (set_pc (AtBlocks bs) c)).
Qed.

(** On the layout of [v] the blocks return what [deserialize] returns. *)
Lemma blocks_result_flatten f data v :
  blocks_result f data v (flatten v) blocks = (deserialize f data v : Result Req DeError).
Proof. unfold blocks. cbn [blocks_result]. rewrite !block_probe_flatten. reflexivity. Qed.

(** Through simd_json's deserializer the machine reaches [exec_final]. *)
Lemma exec_reaches_final f tree data :
  rtc (estep f (JsonDeserializer tree data)) exec_init (exec_final f tree data : Cfg).
Proof.
  unfold exec_final. rewrite <- blocks_result_flatten.
  eapply rtc_l; [by eapply es_ptr_read|]. eapply rtc_l; [by eapply es_forget|].
  eapply rtc_l; [by eapply es_into_tape|].
  eapply rtc_l; [eapply es_as_value; [done..|apply as_value_flatten]|].
  eapply rtc_l; [by apply es_prelude_done|].
  eapply rtc_trans; [by eapply (blocks_reach _ _ blocks)|].
  apply rtc_once. by eapply es_return.
Qed.

(** A step keeps [exec_inv]. *)
Lemma estep_inv f d c c' : exec_inv c -> estep f d c c' -> exec_inv c'.
Proof.
  intros [Ho Hp] Hs.
  destruct Hs as [c sts o Hpc Hr|c sts o Hpc Hr|c sts o tree data Hpc Hr _|c sts o t v rest Hpc Hr _ _
      |c Hpc|c b bs Hpc _|c b bs t Hpc _ _ _|c b bs t Hpc _ _ _|c Hpc|c ch v Hpc _|c Hpc|c r o Hpc Hr];
    unfold exec_inv, set_pc; cbn [pc own]; rewrite Hpc in Ho, Hp; cbn in Ho.
  (* the prelude: [sts] is a suffix of lines 37-41 *)
  1-4: rewrite Ho in Hr; destruct Hp as [n Hn]; destruct n as [|[|[|[|[|n]]]]]; simplify_eq/=;
    destruct d; simplify_eq/=; split; try done.
  all: try solve [exists 1; reflexivity | exists 2; reflexivity | exists 3; reflexivity | exists 4; reflexivity].
  (* the blocks, the decode and the fallback keep the one owner *)
  all: try by rewrite Ho.
  (* the return drops it *)
  rewrite Ho in Hr. simplify_eq/=. done.
Qed.

(** C25. The buffer is owned as the code intends at every reachable point of
    every run, through any deserializer and in any build: by exactly one
    value except between [ptr::read] and [forget] (two), and by none once
    the function has returned, its destructor having run exactly once. *)
Theorem exec_ownership_invariant f d c :
  rtc (estep f d) exec_init c -> own c = own_at (pc c).
Proof.
  intros Hc. cut (exec_inv c); [by intros []|]. revert c Hc.
  apply rtc_ind_r; [split; [done|by exists 0]|].
  intros y z _ Hs IH. by eapply estep_inv.
Qed.

(** Liveness: through simd_json's deserializer, in any build and on
    any payload, no run of the function is infinite, and from every point
    any run reaches the return of the dispatcher's result with the buffer
    freed exactly once. *)
Theorem exec_liveness f tree data :
  sn (estep f (JsonDeserializer tree data)) (exec_init : Cfg) /\
  forall c, rtc (estep f (JsonDeserializer tree data)) exec_init c ->
    rtc (estep f (JsonDeserializer tree data)) c (exec_final f tree data).
Proof.
  split.
  - apply (sn_of_measure _ exec_measure). intros x y. apply estep_measure.
  - intros c Hc. eapply det_rtc_nf; [apply estep_det|exact Hc|apply exec_reaches_final|apply done_nf].
Qed.

(** The step machine refines [Entry]'s model of the whole function:
    a run from the entry ends returning [r] with the buffer owned as [o]
    exactly when [lambda_request_deserialize] gives [(r, o)]; through any
    other deserializer no run ends, as the first step is undefined. *)
Theorem exec_refines_entry f d (r : Result Req DeError) o :
  (exists t v, rtc (estep f d) exec_init (mkConfig (Done r) o t v)) <->
  lambda_request_deserialize f d = Some (r, o).
Proof.
  destruct d as [tree data|name]; unfold lambda_request_deserialize; simpl.
  - split.
    + intros (t & v & Hc).
      pose proof (det_rtc_nf _ (estep_det f _) _ _ _ Hc (exec_reaches_final f tree data)
                    (done_nf _ _ _ _ _ _)) as Hf.
      apply rtc_nf in Hf; [|apply done_nf]. unfold exec_final in Hf. by simplify_eq.
    + intros Heq. simplify_eq. eexists _, _. apply exec_reaches_final.
  - split; [|done]. intros (t & v & Hc).
    apply rtc_inv in Hc as [Heq|(c' & Hs & _)]; [discriminate Heq|].
    by apply estep_exec_step in Hs.
Qed.

End MachineTheory.

(** ** A concrete run *)

Abbreviation UntypedConfig := (Config Value.t Value.t Value.t Value.t).

(** Scenario B: with every feature built the load-balancer payload is
    returned as [Alb], the buffer freed once. *)
Example exec_final_alb :
  exec_final all_variants payload_alb "alb" =
  (mkConfig (Done (Ok (Alb payload_alb))) {| owners := 0; drops := 1 |}
     (Some (flatten payload_alb)) (Some payload_alb) : UntypedConfig).
Proof. reflexivity. Qed.

Lemma exec_ownership_invariant_witness :
  own (exec_final all_variants payload_alb "alb" : UntypedConfig) =
  own_at (pc (exec_final all_variants payload_alb "alb" : UntypedConfig)).
Proof.
  apply (exec_ownership_invariant all_variants (JsonDeserializer payload_alb "alb")).
  apply exec_reaches_final.
Defined.
