(* ===== verification/Tests.v ===== *)
(** * Tests: the [#[test]] functions of the four source files

    Each test reads a fixture file ([include_bytes!]), decodes it with
    [aws_lambda_json_impl::from_slice], and checks the result with
    [unwrap]/[expect], [assert_eq!] or a [match] that panics on any other
    variant.  Some tests also encode the value back with [to_string] and
    decode it again.  The model takes the fixture as its parsed tree and the
    text it was parsed from, as the rest of the development does, and
    encoding followed by parsing as [to_value].  A test's run is a
    [TestOutcome]: it passes, panics for a [PanicReason], or reaches the
    undefined behaviour of [Entry].

    The theorems say what each test checks:
    - the event round-trip tests pass exactly on the fixtures that decode;
    - the Kinesis tests also need a first record with the expected
      encryption type, and panic on an index out of bounds without one;
    - the dispatcher tests pass exactly when [deserialize] yields the
      expected variant with the expected field;
    - on a fixture spelled with the services' wire names ([requestContext],
      [connectedAt]) every typed dispatcher test panics. *)

From stdpp Require Import base list gmap strings.
From Stdlib Require Import String.
From S2P Require Import Prelude Json Serde Deserializer Entry SecretsManager AutoScaling Kinesis.

(** ** Outcomes and the panicking helpers of [std] *)

Inductive PanicReason : Type :=
| UnwrapErr (e : DeError)               (* Result::unwrap on Err *)
| ExpectErr (msg : string) (e : DeError) (* Result::expect on Err *)
| UnwrapNone                            (* Option::unwrap on None *)
| AssertEqFailed                        (* assert_eq! with unequal sides *)
| IndexOutOfBounds (index len : nat)    (* slice indexing past the end *)
| UnexpectedVariant.                    (* panic!("unexpected request variant: ...") *)

Inductive TestOutcome : Type :=
| Pass
| Panic (r : PanicReason)
| Undefined.

Definition unwrap {T} (r : Result T DeError) (k : T -> TestOutcome) : TestOutcome :=
  match r with Ok t => k t | Err e => Panic (UnwrapErr e) end.

Definition expect {T} (msg : string) (r : Result T DeError) (k : T -> TestOutcome) : TestOutcome :=
  match r with Ok t => k t | Err e => Panic (ExpectErr msg e) end.

Definition unwrap_opt {T} (o : option T) (k : T -> TestOutcome) : TestOutcome :=
  match o with Some t => k t | None => Panic UnwrapNone end.

Definition assert_eq {A} `{EqDecision A} (a b : A) (k : TestOutcome) : TestOutcome :=
  if decide (a = b) then k else Panic AssertEqFailed.

(** [v[i]] on a [Vec]. *)
Definition index {A} (l : list A) (i : nat) (k : A -> TestOutcome) : TestOutcome :=
  match l !! i with Some a => k a | None => Panic (IndexOutOfBounds i (List.length l)) end.

(** ** The event round-trip tests *)

(** The body the event tests share: decode the fixture, encode the value,
    decode the encoding, and compare the two values. *)
Definition roundtrip_test (T : Type) `{Deserialize T, Serialize T, EqDecision T}
    (fixture : Value.t) : TestOutcome :=
  unwrap (from_value T fixture) (fun parsed =>
  unwrap (from_value T (to_value parsed)) (fun reparsed =>
  assert_eq parsed reparsed Pass)).

Definition example_secretsmanager_secret_rotation_event (fixture : Value.t) : TestOutcome :=
  roundtrip_test SecretsManagerSecretRotationEvent fixture.

Section AutoScalingTests.
Context {T1 Time : Type} `{Deserialize T1, Serialize T1, EqDecision T1}.
Context `{Deserialize Time, Serialize Time, EqDecision Time}.

Definition example_autoscaling_event_launch_successful (fixture : Value.t) : TestOutcome :=
  roundtrip_test (AutoScalingEvent T1 Time) fixture.
Definition example_autoscaling_event_launch_unsuccessful (fixture : Value.t) : TestOutcome :=
  roundtrip_test (AutoScalingEvent T1 Time) fixture.
Definition example_autoscaling_event_lifecycle_action (fixture : Value.t) : TestOutcome :=
  roundtrip_test (AutoScalingEvent T1 Time) fixture.
Definition example_autoscaling_event_terminate_action (fixture : Value.t) : TestOutcome :=
  roundtrip_test (AutoScalingEvent T1 Time) fixture.
Definition example_autoscaling_event_terminate_successful (fixture : Value.t) : TestOutcome :=
  roundtrip_test (AutoScalingEvent T1 Time) fixture.
Definition example_autoscaling_event_terminate_unsuccessful (fixture : Value.t) : TestOutcome :=
  roundtrip_test (AutoScalingEvent T1 Time) fixture.
End AutoScalingTests.

Section KinesisTests.
Context {SecondTimestamp Base64Data : Type}.
Context `{Deserialize SecondTimestamp, Serialize SecondTimestamp, EqDecision SecondTimestamp}.
Context `{Deserialize Base64Data, Serialize Base64Data, EqDecision Base64Data}.

Notation Event := (KinesisEvent SecondTimestamp Base64Data).

(** The Kinesis tests first compare the encryption type of the first
    record with the expected one, then run the round trip. *)
Definition kinesis_test (expected : KinesisEncryptionType.t) (fixture : Value.t) : TestOutcome :=
  unwrap (from_value Event fixture) (fun parsed =>
  index (records parsed) 0 (fun r =>
  assert_eq expected (encryption_type (kinesis r))
  (unwrap (from_value Event (to_value parsed)) (fun reparsed =>
   assert_eq parsed reparsed Pass)))).

Definition example_kinesis_event (fixture : Value.t) : TestOutcome :=
  kinesis_test KinesisEncryptionType.None fixture.
Definition example_kinesis_event_encrypted (fixture : Value.t) : TestOutcome :=
  kinesis_test KinesisEncryptionType.Kms fixture.
End KinesisTests.

(** ** The dispatcher tests of [deserializer_simd_json.rs] *)

Section DispatcherTests.
Context {ApiGatewayProxyRequest ApiGatewayV2httpRequest : Type}.
Context {AlbTargetGroupRequest ApiGatewayWebsocketProxyRequest : Type}.
Context `{!Deserialize ApiGatewayProxyRequest, !Deserialize ApiGatewayV2httpRequest}.
Context `{!Deserialize AlbTargetGroupRequest, !Deserialize ApiGatewayWebsocketProxyRequest}.
(** The fields the tests read: [req.request_context.account_id],
    [req.request_context.elb.target_group_arn] and
    [req.request_context.event_type] of the external request types. *)
Context (rest_account_id : ApiGatewayProxyRequest -> option string).
Context (http_account_id : ApiGatewayV2httpRequest -> option string).
Context (alb_target_group_arn : AlbTargetGroupRequest -> option string).
Context (websocket_event_type : ApiGatewayWebsocketProxyRequest -> option string).

Notation Req := (@LambdaRequest ApiGatewayProxyRequest ApiGatewayV2httpRequest
                   AlbTargetGroupRequest ApiGatewayWebsocketProxyRequest).

(** [aws_lambda_json_impl::from_slice::<LambdaRequest>]: simd_json's
    deserializer over the fixture, then [LambdaRequest::deserialize]. *)
Definition from_slice_request (f : Features) (fixture : Value.t) (text : string)
    (k : Result Req DeError -> TestOutcome) : TestOutcome :=
  match lambda_request_deserialize f (JsonDeserializer fixture text) with
  | Some (r, _) => k r
  | None => Undefined
  end.

(** The shape of the typed tests: [from_slice(..).expect(msg)], then a
    [match] that checks the variant's field and panics on any other. *)
Definition variant_test {A} (f : Features) (fixture : Value.t) (text msg : string)
    (sel : Req -> option A) (check : A -> TestOutcome) : TestOutcome :=
  from_slice_request f fixture text (fun r =>
  expect msg r (fun req =>
  match sel req with Some a => check a | None => Panic UnexpectedVariant end)).

Definition sel_v1 (r : Req) : option ApiGatewayProxyRequest :=
  match r with ApiGatewayV1 q => Some q | _ => None end.
Definition sel_v2 (r : Req) : option ApiGatewayV2httpRequest :=
  match r with ApiGatewayV2 q => Some q | _ => None end.
Definition sel_alb (r : Req) : option AlbTargetGroupRequest :=
  match r with Alb q => Some q | _ => None end.
Definition sel_websocket (r : Req) : option ApiGatewayWebsocketProxyRequest :=
  match r with WebSocket q => Some q | _ => None end.
Definition sel_pass_through (r : Req) : option string :=
  match r with PassThrough s => Some s | _ => None end.

(** [assert_eq!(expected, field.unwrap())]. *)
Definition field_is (field : option string) (expected : string) : TestOutcome :=
  unwrap_opt field (fun x => assert_eq expected x Pass).

Definition test_deserialize_apigw_rest (f : Features) (fixture : Value.t) (text : string) :=
  variant_test f fixture text "failed to deserialize apigw rest data" sel_v1
    (fun req => field_is (rest_account_id req) "12345678912").

Definition test_deserialize_apigw_http (f : Features) (fixture : Value.t) (text : string) :=
  variant_test f fixture text "failed to deserialize apigw http data" sel_v2
    (fun req => field_is (http_account_id req) "123456789012").

Definition test_deserialize_sam_rest (f : Features) (fixture : Value.t) (text : string) :=
  variant_test f fixture text "failed to deserialize SAM rest data" sel_v1
    (fun req => field_is (rest_account_id req) "123456789012").

Definition test_deserialize_sam_http (f : Features) (fixture : Value.t) (text : string) :=
  variant_test f fixture text "failed to deserialize SAM http data" sel_v2
    (fun req => field_is (http_account_id req) "123456789012").

Definition test_deserialize_alb (f : Features) (fixture : Value.t) (text : string) :=
  variant_test f fixture text "failed to deserialize alb rest data" sel_alb
    (fun req => field_is (alb_target_group_arn req)
       "arn:aws:elasticloadbalancing:us-east-1:123456789012:targetgroup/lambda-target/abcdefgh").

Definition test_deserialize_apigw_websocket (f : Features) (fixture : Value.t) (text : string) :=
  variant_test f fixture text "failed to deserialize apigw websocket data" sel_websocket
    (fun req => field_is (websocket_event_type req) "CONNECT").

(** The pass-through tests compare the carried text with the fixture's
    ([String::from_utf8_lossy(data)] of a UTF-8 fixture is its text). *)
Definition test_deserialize_bedrock_agent (f : Features) (fixture : Value.t) (text : string) :=
  variant_test f fixture text "failed to deserialize bedrock agent request data" sel_pass_through
    (fun s => assert_eq text s Pass).

Definition test_deserialize_sqs (f : Features) (fixture : Value.t) (text : string) :=
  variant_test f fixture text "failed to deserialize sqs event data" sel_pass_through
    (fun s => assert_eq text s Pass).
End DispatcherTests.

(** ** Lemmas on the helpers *)

Lemma assert_eq_pass {A} `{EqDecision A} (a b : A) k :
  assert_eq a b k = Pass <-> a = b /\ k = Pass.
Proof. unfold assert_eq. case_decide; [naive_solver | split; [done | intros []; done]]. Qed.

Lemma unwrap_pass {T} (r : Result T DeError) k :
  unwrap r k = Pass <-> exists t, r = Ok t /\ k t = Pass.
Proof. destruct r; simpl; split; [eauto | intros (? & [= ->] & ?); done | done | by intros (? & ? & _)]. Qed.

Lemma index_pass {A} (l : list A) i k :
  index l i k = Pass <-> exists a, l !! i = Some a /\ k a = Pass.
Proof.
  unfold index. destruct (l !! i); split; [eauto | intros (? & [= ->] & ?); done | done |].
  by intros (? & ? & _).
Qed.

Lemma field_is_pass (field : option string) (expected : string) :
  field_is field expected = Pass <-> field = Some expected.
Proof.
  unfold field_is, unwrap_opt. destruct field as [x|]; [|done].
  rewrite assert_eq_pass. naive_solver.
Qed.

#[export] Hint Rewrite @assert_eq_pass @unwrap_pass @index_pass field_is_pass : test_rw.

(** A round-trip test of a type whose encoding round-trips passes exactly
    when the fixture decodes, and otherwise panics in the first [unwrap]. *)
Lemma roundtrip_test_outcome (T : Type) `{Codec T} `{EqDecision T} (fixture : Value.t) :
  roundtrip_test T fixture =
  match from_value T fixture with Ok _ => Pass | Err e => Panic (UnwrapErr e) end.
Proof.
  unfold roundtrip_test, unwrap. destruct (from_value T fixture) as [t|e]; [|done].
  rewrite codec_roundtrip. unfold assert_eq. by case_decide.
Qed.

Section DispatcherLemmas.
Context {ApiGatewayProxyRequest ApiGatewayV2httpRequest : Type}.
Context {AlbTargetGroupRequest ApiGatewayWebsocketProxyRequest : Type}.
Context `{!Deserialize ApiGatewayProxyRequest, !Deserialize ApiGatewayV2httpRequest}.
Context `{!Deserialize AlbTargetGroupRequest, !Deserialize ApiGatewayWebsocketProxyRequest}.

Notation Req := (@LambdaRequest ApiGatewayProxyRequest ApiGatewayV2httpRequest
                   AlbTargetGroupRequest ApiGatewayWebsocketProxyRequest).

(** [from_slice] through simd_json runs the dispatcher on the fixture. *)
Lemma from_slice_request_deserialize f fixture text (k : Result Req DeError -> TestOutcome) :
  from_slice_request f fixture text k = k (deserialize f text fixture).
Proof. reflexivity. Qed.

Lemma variant_test_pass {A} f fixture text msg (sel : Req -> option A) check :
  variant_test f fixture text msg sel check = Pass <->
  exists req a, (deserialize f text fixture : Result Req DeError) = Ok req /\
                sel req = Some a /\ check a = Pass.
Proof.
  unfold variant_test. rewrite from_slice_request_deserialize. unfold expect.
  destruct (deserialize f text fixture) as [req|e]; [|split; [done | by intros (? & ? & ? & _)]].
  destruct (sel req) as [a|] eqn:Hs; split;
    [eauto | intros (? & ? & [= <-] & ? & ?); congruence | done | intros (? & ? & [= <-] & ? & _); congruence].
Qed.
End DispatcherLemmas.

(** ** What the tests check *)

Section EventTestTheorems.
Context {T1 Time : Type} `{Codec T1} `{EqDecision T1} `{Codec Time} `{EqDecision Time}.

(** Every event round-trip test passes exactly on the fixtures its type
    decodes, and otherwise panics in the first [unwrap] with the decode
    error: the SecretsManager test and the six AutoScaling tests (whatever
    the detail and timestamp types, as long as their encodings round-trip). *)
Theorem event_roundtrip_tests (fixture : Value.t) :
  example_secretsmanager_secret_rotation_event fixture =
    match from_value SecretsManagerSecretRotationEvent fixture with
    | Ok _ => Pass | Err e => Panic (UnwrapErr e) end /\
  Forall (fun test : Value.t -> TestOutcome =>
            test fixture = match from_value (AutoScalingEvent T1 Time) fixture with
                           | Ok _ => Pass | Err e => Panic (UnwrapErr e) end)
    [@example_autoscaling_event_launch_successful T1 Time _ _ _ _ _ _;
     @example_autoscaling_event_launch_unsuccessful T1 Time _ _ _ _ _ _;
     @example_autoscaling_event_lifecycle_action T1 Time _ _ _ _ _ _;
     @example_autoscaling_event_terminate_action T1 Time _ _ _ _ _ _;
     @example_autoscaling_event_terminate_successful T1 Time _ _ _ _ _ _;
     @example_autoscaling_event_terminate_unsuccessful T1 Time _ _ _ _ _ _].
Proof.
  split; [apply roundtrip_test_outcome; apply _|].
  repeat apply Forall_cons_2; [apply roundtrip_test_outcome; apply _ .. | apply Forall_nil_2].
Qed.
End EventTestTheorems.

Section KinesisTestTheorems.
Context {SecondTimestamp Base64Data : Type}.
Context `{Codec SecondTimestamp} `{EqDecision SecondTimestamp}.
Context `{Codec Base64Data} `{EqDecision Base64Data}.

Notation Event := (KinesisEvent SecondTimestamp Base64Data).

Lemma kinesis_test_pass (expected : KinesisEncryptionType.t) (fixture : Value.t) :
  kinesis_test (SecondTimestamp := SecondTimestamp) (Base64Data := Base64Data) expected fixture
  = Pass <->
  exists ev r, from_value Event fixture = Ok ev /\ records ev !! 0 = Some r /\
               encryption_type (kinesis r) = expected.
Proof.
  unfold kinesis_test. rewrite unwrap_pass. split.
  - intros (ev & Hd & (r & Hr & (He & _)%assert_eq_pass)%index_pass). by exists ev, r.
  - intros (ev & r & Hd & Hr & He). exists ev. split; [done|].
    apply index_pass. exists r. split; [done|]. apply assert_eq_pass. split; [by symmetry|].
    apply unwrap_pass. exists ev. split; [apply codec_roundtrip | by apply assert_eq_pass].
Qed.

(** The Kinesis tests pass exactly when the fixture decodes to an
    event whose first record has the expected encryption type ([None] for
    [example_kinesis_event], [Kms] for [example_kinesis_event_encrypted]);
    the round trip that follows always succeeds. *)
Theorem kinesis_tests_check (fixture : Value.t) :
  (example_kinesis_event (SecondTimestamp := SecondTimestamp) (Base64Data := Base64Data) fixture
   = Pass <->
     exists ev r, from_value Event fixture = Ok ev /\ records ev !! 0 = Some r /\
                  encryption_type (kinesis r) = KinesisEncryptionType.None) /\
  (example_kinesis_event_encrypted (SecondTimestamp := SecondTimestamp) (Base64Data := Base64Data)
     fixture = Pass <->
     exists ev r, from_value Event fixture = Ok ev /\ records ev !! 0 = Some r /\
                  encryption_type (kinesis r) = KinesisEncryptionType.Kms).
Proof. split; apply kinesis_test_pass. Qed.

(** A fixture that decodes to an event without records makes both
    Kinesis tests panic on [parsed.records[0]]: index 0 out of bounds for
    length 0. *)
Theorem kinesis_tests_empty_records (fixture : Value.t) (ev : Event) :
  from_value Event fixture = Ok ev -> records ev = [] ->
  example_kinesis_event (SecondTimestamp := SecondTimestamp) (Base64Data := Base64Data) fixture
    = Panic (IndexOutOfBounds 0 0) /\
  example_kinesis_event_encrypted (SecondTimestamp := SecondTimestamp) (Base64Data := Base64Data)
    fixture = Panic (IndexOutOfBounds 0 0).
Proof.
  intros Hd Hr. unfold example_kinesis_event, example_kinesis_event_encrypted, kinesis_test.
  rewrite Hd. simpl. unfold index. by rewrite Hr.
Qed.
End KinesisTestTheorems.

Section DispatcherTestTheorems.
(** The four request types (REST, HTTP, load balancer, WebSocket), their
    decoders, and the fields the tests read. *)
Context {R1 R2 R3 R4 : Type} `{!Deserialize R1, !Deserialize R2, !Deserialize R3, !Deserialize R4}.
Context (rest_account_id : R1 -> option string) (http_account_id : R2 -> option string).
Context (alb_target_group_arn : R3 -> option string) (websocket_event_type : R4 -> option string).

Notation Req := (@LambdaRequest R1 R2 R3 R4).

Lemma variant_field_test_pass {A} f fixture text msg (sel : Req -> option A) acc expected :
  variant_test f fixture text msg sel (fun q => field_is (acc q) expected) = Pass <->
  exists req q, (deserialize f text fixture : Result Req DeError) = Ok req /\
                sel req = Some q /\ acc q = Some expected.
Proof. rewrite variant_test_pass. by setoid_rewrite field_is_pass. Qed.

(** A typed test passes exactly on its variant with the expected field. *)
Ltac typed_test_iff :=
  rewrite variant_field_test_pass; split;
  [ intros ([] & ? & ? & Hs & ?); simplify_eq/=; eauto
  | intros (? & ? & ?); eexists _, _; split_and!; [eassumption | reflexivity | done] ].

(** On a tree without the probed keys the dispatcher yields no typed variant. *)
Lemma deserialize_untyped f text fixture (req : Req) :
  get "request_context" fixture = None -> get "connected_at" fixture = None ->
  deserialize f text fixture = Ok req -> req = PassThrough text.
Proof.
  intros Hrc Hca. unfold deserialize, is_apigw_rest, is_apigw_http, is_alb, is_websocket,
    get_object, contains_key.
  rewrite Hrc, Hca, !andb_false_r. destruct (pass_through f); [by intros [= <-] | done].
Qed.

(** Each typed dispatcher test passes exactly when [deserialize]
    (through simd_json's deserializer) returns the variant the test expects,
    and the field it reads holds the expected text: the REST and SAM REST
    tests an [ApiGatewayV1] with its account id, the HTTP and SAM HTTP tests
    an [ApiGatewayV2], the load-balancer test an [Alb] with its target
    group ARN, the WebSocket test a [WebSocket] with event type [CONNECT]. *)
Theorem dispatcher_typed_tests_check (f : Features) (fixture : Value.t) (text : string) :
  (@test_deserialize_apigw_rest R1 R2 R3 R4 _ _ _ _ rest_account_id f fixture text = Pass <->
     exists r, (deserialize f text fixture : Result Req DeError) = Ok (ApiGatewayV1 r) /\
               rest_account_id r = Some "12345678912") /\
  (@test_deserialize_apigw_http R1 R2 R3 R4 _ _ _ _ http_account_id f fixture text = Pass <->
     exists r, (deserialize f text fixture : Result Req DeError) = Ok (ApiGatewayV2 r) /\
               http_account_id r = Some "123456789012") /\
  (@test_deserialize_sam_rest R1 R2 R3 R4 _ _ _ _ rest_account_id f fixture text = Pass <->
     exists r, (deserialize f text fixture : Result Req DeError) = Ok (ApiGatewayV1 r) /\
               rest_account_id r = Some "123456789012") /\
  (@test_deserialize_sam_http R1 R2 R3 R4 _ _ _ _ http_account_id f fixture text = Pass <->
     exists r, (deserialize f text fixture : Result Req DeError) = Ok (ApiGatewayV2 r) /\
               http_account_id r = Some "123456789012") /\
  (@test_deserialize_alb R1 R2 R3 R4 _ _ _ _ alb_target_group_arn f fixture text = Pass <->
     exists r, (deserialize f text fixture : Result Req DeError) = Ok (Alb r) /\
               alb_target_group_arn r = Some
                 "arn:aws:elasticloadbalancing:us-east-1:123456789012:targetgroup/lambda-target/abcdefgh") /\
  (@test_deserialize_apigw_websocket R1 R2 R3 R4 _ _ _ _ websocket_event_type f fixture text = Pass <->
     exists r, (deserialize f text fixture : Result Req DeError) = Ok (WebSocket r) /\
               websocket_event_type r = Some "CONNECT").
Proof.
  unfold test_deserialize_apigw_rest, test_deserialize_apigw_http, test_deserialize_sam_rest,
    test_deserialize_sam_http, test_deserialize_alb, test_deserialize_apigw_websocket.
  split_and!; typed_test_iff.
Qed.

(** On a fixture spelled with the wire names of the services' events
    ([requestContext], [connectedAt]: no [request_context] and no
    [connected_at] key at the top level) every typed dispatcher test fails,
    in every build: the probes recognise nothing, so [from_slice] either
    fails ([expect] panics) or yields the pass-through variant (the [match]
    panics). *)
Theorem dispatcher_typed_tests_fail_on_wire_names (f : Features) (fixture : Value.t) (text : string) :
  get "request_context" fixture = None -> get "connected_at" fixture = None ->
  @test_deserialize_apigw_rest R1 R2 R3 R4 _ _ _ _ rest_account_id f fixture text <> Pass /\
  @test_deserialize_apigw_http R1 R2 R3 R4 _ _ _ _ http_account_id f fixture text <> Pass /\
  @test_deserialize_sam_rest R1 R2 R3 R4 _ _ _ _ rest_account_id f fixture text <> Pass /\
  @test_deserialize_sam_http R1 R2 R3 R4 _ _ _ _ http_account_id f fixture text <> Pass /\
  @test_deserialize_alb R1 R2 R3 R4 _ _ _ _ alb_target_group_arn f fixture text <> Pass /\
  @test_deserialize_apigw_websocket R1 R2 R3 R4 _ _ _ _ websocket_event_type f fixture text <> Pass.
Proof.
  intros Hrc Hca.
  unfold test_deserialize_apigw_rest, test_deserialize_apigw_http, test_deserialize_sam_rest,
    test_deserialize_sam_http, test_deserialize_alb, test_deserialize_apigw_websocket.
  split_and!; rewrite variant_field_test_pass;
    intros (req & q & Hd & Hs & _); apply (deserialize_untyped _ _ _ _ Hrc Hca) in Hd;
    subst; discriminate Hs.
Qed.

Lemma deserialize_unmatched_pass_through f text fixture :
  pass_through f = true -> unmatched f fixture ->
  (deserialize f text fixture : Result Req DeError) = Ok (PassThrough text).
Proof.
  intros Hp Hu. revert Hu. deserialize_cases @deserialize_viewP f text fixture; intros Hu; view_simpl;
    first [done | exfalso; tauto | congruence].
Qed.

Lemma deserialize_pass_through_unmatched f text fixture s :
  (deserialize f text fixture : Result Req DeError) = Ok (PassThrough s) -> unmatched f fixture.
Proof.
  deserialize_cases @deserialize_viewP f text fixture; intros Hd; view_simpl; first [done | by repeat split].
Qed.

(** With pass-through built, the bedrock-agent and SQS tests pass
    exactly on the fixtures no built variant recognises: the variant then
    carries the fixture's text unchanged. *)
Theorem pass_through_tests_check (f : Features) (fixture : Value.t) (text : string) :
  pass_through f = true ->
  (@test_deserialize_bedrock_agent R1 R2 R3 R4 _ _ _ _ f fixture text = Pass <-> unmatched f fixture) /\
  (@test_deserialize_sqs R1 R2 R3 R4 _ _ _ _ f fixture text = Pass <-> unmatched f fixture).
Proof.
  intros Hp. unfold test_deserialize_bedrock_agent, test_deserialize_sqs.
  split; rewrite variant_test_pass; split.
  1, 3: intros ([] & s' & Hd & Hs & Hc); simplify_eq/=; by eapply deserialize_pass_through_unmatched.
  all: intros Hu; exists (PassThrough text), text; split_and!;
    [by apply deserialize_unmatched_pass_through | done | by apply assert_eq_pass].
Qed.
End DispatcherTestTheorems.

(** ** Concrete fixtures *)

(** A build with every feature, as the pass-through tests require. *)
Definition every_feature : Features :=
  {| apigw_rest := true; apigw_http := true; alb := true;
     apigw_websockets := true; pass_through := true |}.

Lemma event_roundtrip_tests_witness :
  example_secretsmanager_secret_rotation_event rotation_event = Pass.
Proof.
  destruct (event_roundtrip_tests (T1 := string) (Time := string) rotation_event) as [-> _].
  reflexivity.
Defined.

Definition kinesis_kms_record : KinesisEventRecord string string :=
  {| aws_region := Some "us-east-1"; event_id := Some "shardId-000000000000:4959";
     event_name := Some "aws:kinesis:record"; event_source := Some "aws:kinesis";
     event_source_arn := Some "arn:aws:kinesis:us-east-1:123456789012:stream/simple";
     event_version := Some "1.0"; invoke_identity_arn := None;
     kinesis := {| approximate_arrival_timestamp := "1428537600";
                   data := "SGVsbG8sIHRoaXMgaXMgYSB0ZXN0IDEyMy4=";
                   encryption_type := KinesisEncryptionType.Kms;
                   partition_key := "partitionKey-03"; sequence_number := "4959";
                   kinesis_schema_version := None |} |}.

(** The encrypted fixture, as the encoder writes it. *)
Definition kinesis_kms_fixture : Value.t :=
  to_value ({| records := [kinesis_kms_record] |} : KinesisEvent string string).

Lemma kinesis_tests_check_witness :
  example_kinesis_event_encrypted (SecondTimestamp := string) (Base64Data := string)
    kinesis_kms_fixture = Pass.
Proof.
  apply (proj2 (kinesis_tests_check (SecondTimestamp := string) (Base64Data := string)
                  kinesis_kms_fixture)).
  exists {| records := [kinesis_kms_record] |}, kinesis_kms_record. split_and!; reflexivity.
Defined.

Lemma kinesis_tests_empty_records_witness :
  example_kinesis_event (SecondTimestamp := string) (Base64Data := string)
    (Value.Object [("Records", Value.Array [])]) = Panic (IndexOutOfBounds 0 0).
Proof.
  apply (kinesis_tests_empty_records (SecondTimestamp := string) (Base64Data := string)
           _ {| records := [] |}); reflexivity.
Defined.

(** Scenario A with the wire name: the REST test panics on it. *)
Lemma dispatcher_typed_tests_fail_on_wire_names_witness :
  @test_deserialize_apigw_rest Value.t Value.t Value.t Value.t _ _ _ _ (fun _ => None)
    every_feature payload_camel_http "{requestContext:{http:{}}}" <> Pass.
Proof.
  destruct (dispatcher_typed_tests_fail_on_wire_names (R1 := Value.t) (R2 := Value.t)
              (R3 := Value.t) (R4 := Value.t) (fun _ => None) (fun _ => None) (fun _ => None)
              (fun _ => None) every_feature payload_camel_http "{requestContext:{http:{}}}")
    as [H _]; [reflexivity | reflexivity | exact H].
Defined.

(** An SQS-shaped fixture passes through. *)
Definition sqs_fixture : Value.t := Value.Object [("Records", Value.Array [])].

Lemma pass_through_tests_check_witness :
  @test_deserialize_sqs Value.t Value.t Value.t Value.t _ _ _ _ every_feature sqs_fixture
    "{Records:[]}" = Pass.
Proof.
  apply (proj2 (proj2 (pass_through_tests_check (R1 := Value.t) (R2 := Value.t) (R3 := Value.t)
                        (R4 := Value.t) every_feature sqs_fixture "{Records:[]}" eq_refl))).
  apply unmatched_of_guards; reflexivity.
Defined.
